(** * wandb client: the framed log store, the record router and the sender

    A shallow embedding of
    - [wandb/sdk/internal/datastore.py] (class [DataStore]),
    - [wandb/sdk_py27/internal/handler.py] (class [HandleManager]),
    - [wandb/sdk/internal/sender.py] (class [SendManager]),
    followed by the properties of the specification that concern them. *)

From Stdlib Require Import ZArith Lia Strings.Byte Strings.String.
From stdpp Require Import base list gmap strings fin_maps.

Local Open Scope Z_scope.

(** ** Python outcomes *)

(** The assertions of the three modules, one name per [assert] statement. *)
Inductive assertion :=
  | A_opened_for_scan         (* scan_record: assert self._opened_for_scan *)
  | A_header_len              (* scan_record: assert len(header) == 7 *)
  | A_checksum                (* scan_record: assert checksum == checksum_computed *)
  | A_pad_zero                (* scan_data: assert pad == pad_check *)
  | A_first                   (* scan_data: assert dtype == LEVELDBLOG_FIRST *)
  | A_middle                  (* scan_data: assert dtype == LEVELDBLOG_MIDDLE *)
  | A_file_header_len         (* _write_header / _read_header *)
  | A_fits                    (* _write_record: the slice fits in the block *)
  | A_data_left               (* _write_data: assert data_left *)
  | A_key_empty               (* handle_summary: assert item.key == "" *)
  | A_unknown_state.          (* send_request_defer: raise AssertionError *)

Inductive exn :=
  | AssertionError (a : assertion)
  | IndexError
  | KeyError
  | TypeError
  | ValueError
  | AttributeError
  | StructError
  | FileExistsError
  | FileNotFoundError
  | UnsupportedOperation
  | InvalidHeader.

(** [NoFuel] is not a Python outcome: it is what a bounded loop of the model
    answers when its bound is too small. *)
Inductive outcome (A : Type) :=
  | Ok (a : A)
  | Raise (e : exn)
  | NoFuel.
Arguments Ok {A} a.
Arguments Raise {A} e.
Arguments NoFuel {A}.

Abbreviation bytes := (list byte).

#[global] Instance byte_eq_decision : EqDecision byte := Byte.byte_eq_dec.

Definition Z_of_byte (b : byte) : Z := Z.of_N (Byte.to_N b).
Definition byte_of_Z (z : Z) : byte :=
  match Byte.of_N (Z.to_N (z mod 256)) with
  | Some b => b
  | None => "000"%byte
  end.

Definition blen (s : bytes) : Z := Z.of_nat (length s).

(** Python's [s[lo:hi]] on bytes, negative bounds included. *)
Definition clip (n i : Z) : Z :=
  if i <? 0 then Z.max 0 (i + n) else Z.min i n.
Definition slice (s : bytes) (lo hi : Z) : bytes :=
  let lo' := clip (blen s) lo in
  let hi' := clip (blen s) hi in
  take (Z.to_nat (hi' - lo')) (drop (Z.to_nat lo') s).
Definition slice_to (s : bytes) (hi : Z) : bytes := slice s 0 hi.
Definition slice_from (s : bytes) (lo : Z) : bytes := slice s lo (blen s).

(** ** zlib.crc32 and struct *)

Module zlib.

Definition poly : Z := 0xEDB88320.
Definition mask32 : Z := 0xFFFFFFFF.

Definition crc_bit (c : Z) : Z :=
  if Z.testbit c 0 then Z.lxor (Z.shiftr c 1) poly else Z.shiftr c 1.

Definition crc_byte (c : Z) (b : byte) : Z :=
  Nat.iter 8 crc_bit (Z.lxor c (Z_of_byte b)).

(** [zlib.crc32(data, value)]: the running checksum [value] continued
    over [data]. *)
Definition crc32 (data : bytes) (value : Z) : Z :=
  Z.lxor (fold_left crc_byte data (Z.lxor (Z.land value mask32) mask32)) mask32.

End zlib.

Module struct.

(** [n] bytes of [z], least significant first. *)
Fixpoint le_bytes (n : nat) (z : Z) : bytes :=
  match n with
  | O => []
  | S n' => byte_of_Z z :: le_bytes n' (Z.shiftr z 8)
  end.

Fixpoint le_int (bs : bytes) : Z :=
  match bs with
  | [] => 0
  | b :: bs' => Z_of_byte b + 256 * le_int bs'
  end.

Definition fits (n : nat) (z : Z) : bool :=
  (0 <=? z) && (z <? 2 ^ (8 * Z.of_nat n)).

(** [struct.pack("<IHB", a, b, c)] *)
Definition pack_IHB (a b c : Z) : outcome bytes :=
  if fits 4 a && fits 2 b && fits 1 c
  then Ok (le_bytes 4 a ++ le_bytes 2 b ++ le_bytes 1 c)
  else Raise StructError.

(** [struct.unpack("<IHB", header)] *)
Definition unpack_IHB (header : bytes) : outcome (Z * Z * Z) :=
  if (length header =? 7)%nat
  then Ok (le_int (take 4 header), le_int (take 2 (drop 4 header)),
           le_int (take 1 (drop 6 header)))
  else Raise StructError.

(** [struct.pack("<4sHB", ident, magic, version)]: a short [ident] is
    padded with zero bytes, a long one is cut. *)
Definition pack_4sHB (ident : bytes) (b c : Z) : outcome bytes :=
  if fits 2 b && fits 1 c
  then Ok (take 4 (ident ++ replicate 4 "000"%byte) ++ le_bytes 2 b ++ le_bytes 1 c)
  else Raise StructError.

Definition unpack_4sHB (header : bytes) : outcome (bytes * Z * Z) :=
  if (length header =? 7)%nat
  then Ok (take 4 header, le_int (take 2 (drop 4 header)),
           le_int (take 1 (drop 6 header)))
  else Raise StructError.

End struct.

(** ** datastore.py *)

Definition LEVELDBLOG_HEADER_LEN : Z := 7.
Definition LEVELDBLOG_BLOCK_LEN : Z := 32768.
Definition LEVELDBLOG_DATA_LEN : Z := LEVELDBLOG_BLOCK_LEN - LEVELDBLOG_HEADER_LEN.

Definition LEVELDBLOG_FULL : Z := 1.
Definition LEVELDBLOG_FIRST : Z := 2.
Definition LEVELDBLOG_MIDDLE : Z := 3.
Definition LEVELDBLOG_LAST : Z := 4.

Definition LEVELDBLOG_HEADER_IDENT : string := ":W&B".
Definition LEVELDBLOG_HEADER_MAGIC : Z := 0xBEE1.
Definition LEVELDBLOG_HEADER_VERSION : Z := 0.

(** [bytes(x, "iso8859-1")] *)
Definition strtobytes (x : string) : bytes := list_byte_of_string x.

(** An open file object: what has been written through it (modes "xb" and
    "wb"), or what is still to be read from it (mode "rb"). *)
Inductive file :=
  | FWrite (written : bytes)
  | FRead (unread : bytes).

(** The files of the directory, by name. *)
Abbreviation filesystem := (gmap string bytes).

Record DataStore := mkDataStore {
  _opened_for_scan : bool;
  _fp : option file;
  _index : Z;
  _fname : option string
}.

(** [self._crc], filled by [__init__] and never assigned again:
    [_crc[x] = zlib.crc32(chr(x)) & 0xFFFFFFFF] for the four chunk types. *)
Definition _crc : list Z :=
  Eval vm_compute in
    0 :: map (fun x => Z.land (zlib.crc32 [byte_of_Z x] 0) 0xFFFFFFFF)
             [LEVELDBLOG_FULL; LEVELDBLOG_FIRST; LEVELDBLOG_MIDDLE; LEVELDBLOG_LAST].

Definition __init__ : DataStore :=
  {| _opened_for_scan := false; _fp := None; _index := 0; _fname := None |}.

(** Methods run in a state and exception monad over the [DataStore]. *)
Definition M (A : Type) : Type := DataStore -> outcome (A * DataStore).

Definition ret {A} (a : A) : M A := fun ds => Ok (a, ds).
Definition bind {A B} (m : M A) (k : A -> M B) : M B :=
  fun ds => match m ds with
            | Ok (a, ds') => k a ds'
            | Raise e => Raise e
            | NoFuel => NoFuel
            end.
Definition raise {A} (e : exn) : M A := fun _ => Raise e.
Definition out_of_fuel {A} : M A := fun _ => NoFuel.
Definition lift {A} (o : outcome A) : M A :=
  fun ds => match o with
            | Ok a => Ok (a, ds)
            | Raise e => Raise e
            | NoFuel => NoFuel
            end.
Definition assert (a : assertion) (b : bool) : M unit :=
  if b then ret tt else raise (AssertionError a).

Declare Scope ds_scope.
Delimit Scope ds_scope with ds.
Notation "x <- m ;; k" := (bind m (fun x => k))
  (at level 100, m at next level, right associativity) : ds_scope.
Notation "m ;;; k" := (bind m (fun _ => k))
  (at level 100, right associativity) : ds_scope.
Local Open Scope ds_scope.

Definition get_index : M Z := fun ds => Ok (_index ds, ds).
Definition add_index (n : Z) : M unit :=
  fun ds => Ok (tt, {| _opened_for_scan := _opened_for_scan ds; _fp := _fp ds;
                       _index := _index ds + n; _fname := _fname ds |}).
Definition set_fp (f : file) (ds : DataStore) : DataStore :=
  {| _opened_for_scan := _opened_for_scan ds; _fp := Some f;
     _index := _index ds; _fname := _fname ds |}.

(** [self._fp.read(n)]: at most [n] bytes, fewer at the end of the file;
    all that is left when [n] is negative. *)
Definition fp_read (n : Z) : M bytes :=
  fun ds => match _fp ds with
            | None => Raise AttributeError
            | Some (FWrite _) => Raise UnsupportedOperation
            | Some (FRead unread) =>
                if n <? 0 then Ok (unread, set_fp (FRead []) ds)
                else Ok (take (Z.to_nat n) unread,
                         set_fp (FRead (drop (Z.to_nat n) unread)) ds)
            end.

(** [self._fp.write(data)] *)
Definition fp_write (data : bytes) : M unit :=
  fun ds => match _fp ds with
            | None => Raise AttributeError
            | Some (FRead _) => Raise UnsupportedOperation
            | Some (FWrite written) => Ok (tt, set_fp (FWrite (written ++ data)) ds)
            end.

Definition _write_header : M unit :=
  data <- lift (struct.pack_4sHB (strtobytes LEVELDBLOG_HEADER_IDENT)
                  LEVELDBLOG_HEADER_MAGIC LEVELDBLOG_HEADER_VERSION) ;;
  assert A_file_header_len (blen data =? 7) ;;;
  fp_write data ;;;
  add_index (blen data).

Definition bytes_eqb (a b : bytes) : bool := bool_decide (a = b).

Definition _read_header : M unit :=
  let header_length := 7 in
  header <- fp_read header_length ;;
  fields <- lift (struct.unpack_4sHB header) ;;
  let '(ident, magic, version) := fields in
  if negb (bytes_eqb ident (strtobytes LEVELDBLOG_HEADER_IDENT)) then raise InvalidHeader
  else if negb (magic =? LEVELDBLOG_HEADER_MAGIC) then raise InvalidHeader
  else if negb (version =? LEVELDBLOG_HEADER_VERSION) then raise InvalidHeader
  else
    assert A_file_header_len (blen header =? header_length) ;;;
    add_index (blen header).

(** [open(fname, "xb")] then [_write_header]. *)
Definition open_for_write (fname : string) (fs : filesystem) (ds : DataStore)
  : outcome (DataStore * filesystem) :=
  match fs !! fname with
  | Some _ => Raise FileExistsError
  | None =>
      let ds1 := {| _opened_for_scan := _opened_for_scan ds; _fp := Some (FWrite []);
                    _index := _index ds; _fname := Some fname |} in
      match _write_header ds1 with
      | Ok (_, ds2) => Ok (ds2, <[fname := []]> fs)
      | Raise e => Raise e
      | NoFuel => NoFuel
      end
  end.

(** [open(fname, "wb")]: the file is created, or cut to length zero. *)
Definition open_for_append (fname : string) (fs : filesystem) (ds : DataStore)
  : outcome (DataStore * filesystem) :=
  Ok ({| _opened_for_scan := _opened_for_scan ds; _fp := Some (FWrite []);
         _index := _index ds; _fname := Some fname |},
      <[fname := []]> fs).

(** [open(fname, "rb")] then [_read_header]. *)
Definition open_for_scan (fname : string) (fs : filesystem) (ds : DataStore)
  : outcome DataStore :=
  match fs !! fname with
  | None => Raise FileNotFoundError
  | Some content =>
      let ds1 := {| _opened_for_scan := true; _fp := Some (FRead content);
                    _index := 0; _fname := Some fname |} in
      match _read_header ds1 with
      | Ok (_, ds2) => Ok ds2
      | Raise e => Raise e
      | NoFuel => NoFuel
      end
  end.

(** [self._fp.close()]: what was written reaches the file. *)
Definition close (fs : filesystem) (ds : DataStore) : filesystem :=
  match _fp ds, _fname ds with
  | Some (FWrite written), Some fname => <[fname := written]> fs
  | _, _ => fs
  end.

Definition crc_seed (dtype : Z) : M Z :=
  if dtype <? 0 then
    (* a negative index counts from the end of the list *)
    match _crc !! Z.to_nat (dtype + Z.of_nat (length _crc)) with
    | Some c => if 0 <=? dtype + Z.of_nat (length _crc) then ret c else raise IndexError
    | None => raise IndexError
    end
  else
    match _crc !! Z.to_nat dtype with
    | Some c => ret c
    | None => raise IndexError
    end.

Definition scan_record : M (option (Z * bytes)) :=
  fun ds0 =>
  (assert A_opened_for_scan (_opened_for_scan ds0) ;;;
   header <- fp_read LEVELDBLOG_HEADER_LEN ;;
   if blen header =? 0 then ret None
   else
     assert A_header_len (blen header =? LEVELDBLOG_HEADER_LEN) ;;;
     fields <- lift (struct.unpack_IHB header) ;;
     let '(checksum, dlength, dtype) := fields in
     add_index LEVELDBLOG_HEADER_LEN ;;;
     data <- fp_read dlength ;;
     seed <- crc_seed dtype ;;
     let checksum_computed := Z.land (zlib.crc32 data seed) 0xFFFFFFFF in
     assert A_checksum (checksum =? checksum_computed) ;;;
     add_index dlength ;;;
     ret (Some (dtype, data))) ds0.

(** The [while True] loop of [scan_data]; every turn reads a chunk header
    or stops, so the unread length bounds the number of turns. *)
Fixpoint scan_data_loop (fuel : nat) (data : bytes) : M (option bytes) :=
  match fuel with
  | O => out_of_fuel
  | S fuel' =>
      record <- scan_record ;;
      match record with
      | None => ret None
      | Some (dtype, new_data) =>
          if dtype =? LEVELDBLOG_LAST then ret (Some (data ++ new_data))
          else
            assert A_middle (dtype =? LEVELDBLOG_MIDDLE) ;;;
            scan_data_loop fuel' (data ++ new_data)
      end
  end.

Definition unread_len (ds : DataStore) : nat :=
  match _fp ds with
  | Some (FRead unread) => length unread
  | _ => 0%nat
  end.

Definition scan_data : M (option bytes) :=
  index <- get_index ;;
  let offset := index mod LEVELDBLOG_BLOCK_LEN in
  let space_left := LEVELDBLOG_BLOCK_LEN - offset in
  (if space_left <? LEVELDBLOG_HEADER_LEN then
     let pad_check := replicate (Z.to_nat space_left) "000"%byte in
     pad <- fp_read space_left ;;
     assert A_pad_zero (bytes_eqb pad pad_check) ;;;
     add_index space_left
   else ret tt) ;;;
  record <- scan_record ;;
  match record with
  | None => ret None
  | Some (dtype, data) =>
      if dtype =? LEVELDBLOG_FULL then ret (Some data)
      else
        assert A_first (dtype =? LEVELDBLOG_FIRST) ;;;
        fun ds => scan_data_loop (S (unread_len ds)) data ds
  end.

Definition _write_record (s : bytes) (dtype : option Z) : M unit :=
  index <- get_index ;;
  assert A_fits (blen s + LEVELDBLOG_HEADER_LEN <=?
                 LEVELDBLOG_BLOCK_LEN - index mod LEVELDBLOG_BLOCK_LEN) ;;;
  let dlength := blen s in
  let dtype := match dtype with
               | Some t => if t =? 0 then LEVELDBLOG_FULL else t
               | None => LEVELDBLOG_FULL
               end in
  seed <- crc_seed dtype ;;
  let checksum := Z.land (zlib.crc32 s seed) 0xFFFFFFFF in
  hdr <- lift (struct.pack_IHB checksum dlength dtype) ;;
  fp_write hdr ;;;
  (if negb (dlength =? 0) then fp_write s else ret tt) ;;;
  add_index (LEVELDBLOG_HEADER_LEN + blen s).

(** The [while data_left > LEVELDBLOG_DATA_LEN] loop of [_write_data];
    it answers the final [data_used]. *)
Fixpoint write_middles (fuel : nat) (s : bytes) (data_used data_left : Z) : M Z :=
  if data_left >? LEVELDBLOG_DATA_LEN then
    match fuel with
    | O => out_of_fuel
    | S fuel' =>
        _write_record (slice s data_used (data_used + LEVELDBLOG_DATA_LEN))
                      (Some LEVELDBLOG_MIDDLE) ;;;
        write_middles fuel' s (data_used + LEVELDBLOG_DATA_LEN)
                      (data_left - LEVELDBLOG_DATA_LEN)
    end
  else ret data_used.

Definition _write_data (s : bytes) : M (Z * Z * Z * Z) :=
  file_offset <- get_index ;;
  let flush_index := 0 in
  let flush_offset := 0 in
  let offset := file_offset mod LEVELDBLOG_BLOCK_LEN in
  let space_left := LEVELDBLOG_BLOCK_LEN - offset in
  let data_left := blen s in
  space_left <-
    (if space_left <? LEVELDBLOG_HEADER_LEN then
       fp_write (replicate (Z.to_nat space_left) "000"%byte) ;;;
       add_index space_left ;;;
       ret LEVELDBLOG_BLOCK_LEN
     else ret space_left) ;;
  (if data_left + LEVELDBLOG_HEADER_LEN <=? space_left then
     _write_record s None
   else
     let data_room := space_left - LEVELDBLOG_HEADER_LEN in
     _write_record (slice_to s data_room) (Some LEVELDBLOG_FIRST) ;;;
     let data_used := 0 + data_room in
     let data_left := data_left - data_room in
     assert A_data_left (negb (data_left =? 0)) ;;;
     data_used <- write_middles (length s) s data_used data_left ;;
     _write_record (slice_from s data_used) (Some LEVELDBLOG_LAST)) ;;;
  index <- get_index ;;
  ret (file_offset, index - file_offset, flush_index, flush_offset).

(** A run of appends, and a run of [n] scans. *)
Fixpoint write_all (payloads : list bytes) : M unit :=
  match payloads with
  | [] => ret tt
  | s :: rest => _write_data s ;;; write_all rest
  end.

Fixpoint scan_n (n : nat) : M (list (option bytes)) :=
  match n with
  | O => ret []
  | S n' => r <- scan_data ;; rs <- scan_n n' ;; ret (r :: rs)
  end.

Definition written_bytes (ds : DataStore) : bytes :=
  match _fp ds with
  | Some (FWrite written) => written
  | _ => []
  end.

Definition unread_bytes (ds : DataStore) : bytes :=
  match _fp ds with
  | Some (FRead unread) => unread
  | _ => []
  end.

(** ** The frame of one payload

    What [_write_data] lays down for one payload, as data: zero bytes up to
    the block boundary when fewer than seven bytes are left, then either one
    FULL chunk or a FIRST chunk, MIDDLE chunks and a LAST chunk. *)

Definition chunk (dtype : Z) (s : bytes) : bytes :=
  struct.le_bytes 4 (Z.land (zlib.crc32 s (nth (Z.to_nat dtype) _crc 0)) 0xFFFFFFFF)
  ++ struct.le_bytes 2 (blen s) ++ struct.le_bytes 1 dtype ++ s.

Definition middles_bytes (ms : list bytes) : bytes :=
  concat (map (chunk LEVELDBLOG_MIDDLE) ms).

Inductive layout :=
  | LFull (s : bytes)
  | LSplit (first : bytes) (middles : list bytes) (last : bytes).

Definition layout_bytes (l : layout) : bytes :=
  match l with
  | LFull s => chunk LEVELDBLOG_FULL s
  | LSplit f ms l =>
      chunk LEVELDBLOG_FIRST f ++ middles_bytes ms ++ chunk LEVELDBLOG_LAST l
  end.

Definition layout_payload (l : layout) : bytes :=
  match l with
  | LFull s => s
  | LSplit f ms l => f ++ concat ms ++ l
  end.

Definition layout_chunks (l : layout) : Z :=
  match l with
  | LFull _ => 1
  | LSplit _ ms _ => 2 + Z.of_nat (length ms)
  end.

(** Every chunk of the layout has a length that fits the 16-bit field. *)
Definition layout_ok (l : layout) : Prop :=
  match l with
  | LFull s => blen s < 65536
  | LSplit f ms l =>
      blen f < 65536 /\ Forall (fun m => blen m < 65536) ms /\ blen l < 65536
  end.

Definition space_left_at (index : Z) : Z :=
  LEVELDBLOG_BLOCK_LEN - index mod LEVELDBLOG_BLOCK_LEN.

Definition padding (index : Z) : bytes :=
  if space_left_at index <? LEVELDBLOG_HEADER_LEN
  then replicate (Z.to_nat (space_left_at index)) "000"%byte
  else [].

(** The layout respects the block: a FULL chunk fits in the [space] left, a
    FIRST chunk fills it exactly, MIDDLE chunks fill whole blocks and the
    LAST chunk is not empty and fits in one block. *)
Definition layout_fits (space : Z) (l : layout) : Prop :=
  match l with
  | LFull s => blen s + LEVELDBLOG_HEADER_LEN <= space
  | LSplit f ms l =>
      blen f + LEVELDBLOG_HEADER_LEN = space
      /\ Forall (fun m => blen m = LEVELDBLOG_DATA_LEN) ms
      /\ 1 <= blen l <= LEVELDBLOG_DATA_LEN
  end.

(** The chunks of a layout, in file order, and their bytes. *)
Definition layout_chunk_list (l : layout) : list (Z * bytes) :=
  match l with
  | LFull s => [(LEVELDBLOG_FULL, s)]
  | LSplit f ms l =>
      (LEVELDBLOG_FIRST, f) :: map (pair LEVELDBLOG_MIDDLE) ms ++ [(LEVELDBLOG_LAST, l)]
  end.

Definition chunks_bytes (cs : list (Z * bytes)) : bytes :=
  concat (map (fun c => chunk c.1 c.2) cs).

(** Bit [k] of the byte at position [pos] flipped. *)
Definition flip_bit_byte (k : nat) (b : byte) : byte :=
  byte_of_Z (Z.lxor (Z_of_byte b) (Z.shiftl 1 (Z.of_nat k))).

Definition flip_bit (pos k : nat) (bs : bytes) : bytes :=
  alter (flip_bit_byte k) pos bs.

(** The 32-bit range of a running checksum. *)
Definition in32 (c : Z) : Prop := 0 <= c < 2 ^ 32.

(** The seven bytes [_write_header] writes. *)
Definition file_header : bytes :=
  strtobytes LEVELDBLOG_HEADER_IDENT
  ++ struct.le_bytes 2 LEVELDBLOG_HEADER_MAGIC
  ++ struct.le_bytes 1 LEVELDBLOG_HEADER_VERSION.

(** A payload that ends one byte before the end of the first block. *)
Definition tail_payload : bytes := replicate (Z.to_nat 32753) "000"%byte.

(** [scan_data] from the point where the padding has been skipped. *)
Definition scan_data_after_padding : M (option bytes) :=
  record <- scan_record ;;
  match record with
  | None => ret None
  | Some (dtype, data) =>
      if dtype =? LEVELDBLOG_FULL then ret (Some data)
      else
        assert A_first (dtype =? LEVELDBLOG_FIRST) ;;;
        fun ds => scan_data_loop (S (unread_len ds)) data ds
  end.

(** A directory holding one log file with one record, [b"a"]. *)
Definition one_record_fs : filesystem :=
  {[ "run.wandb"%string := file_header ++ chunk LEVELDBLOG_FULL ["a"%byte] ]}.


(** Linear arithmetic with the constants of the log format unfolded. *)
Ltac clia :=
  repeat progress unfold LEVELDBLOG_DATA_LEN, LEVELDBLOG_BLOCK_LEN, LEVELDBLOG_HEADER_LEN,
    LEVELDBLOG_FULL, LEVELDBLOG_FIRST, LEVELDBLOG_MIDDLE, LEVELDBLOG_LAST in *;
  lia.

(** ** JSON values and the protobuf messages *)

(** What [json.loads] answers. Numbers are integers here: no property below
    reads a fractional value. A [dict] is a finite map from strings. *)
#[local] Set Warnings "-register-all".
Inductive json :=
  | JNull
  | JBool (b : bool)
  | JNum (n : Z)
  | JStr (s : string)
  | JList (l : list json)
  | JDict (d : gmap string json).
#[local] Set Warnings "+register-all".

(** Python's truth value of a JSON value. *)
Definition truthy (j : json) : bool :=
  match j with
  | JNull => false
  | JBool b => b
  | JNum n => negb (n =? 0)
  | JStr s => negb (String.eqb s "")
  | JList l => negb (Nat.eqb (length l) 0)
  | JDict d => negb (bool_decide (d = ∅))
  end.

(** Modelled from the spec: the [DeferState] enum of the protocol file is
    not among the sources; its members and their order are those of the
    data model of the spec, numbered from zero as [state += 1] walks them. *)
Module DeferState.
Definition BEGIN : Z := 0.
Definition FLUSH_STATS : Z := 1.
Definition FLUSH_TB : Z := 2.
Definition FLUSH_SUM : Z := 3.
Definition FLUSH_DIR : Z := 4.
Definition FLUSH_FP : Z := 5.
Definition FLUSH_FS : Z := 6.
Definition FLUSH_FINAL : Z := 7.
Definition END : Z := 8.
End DeferState.

(** The messages of [wandb_internal_pb2], with the fields that the handler
    and the sender read or write. *)
Record Control := mkControl {
  req_resp : bool;
  local : bool
}.

Record SummaryItem := mkSummaryItem {
  key : string;
  nested_key : list string;
  value_json : string
}.

Record SummaryRecord := mkSummaryRecord {
  update : list SummaryItem;
  remove : list SummaryItem
}.

Record ConfigItem := mkConfigItem {
  config_key : string;
  config_value_json : string
}.

Record RunRecord := mkRunRecord {
  run_id : string;
  entity : string;
  project : string;
  config : option (list ConfigItem);
  summary : option (list SummaryItem);
  resumed : bool;
  starting_step : Z;
  start_time : Z;
  display_name : string;
  storage_id : string;
  sweep_id : string
}.

Inductive request_type :=
  | request_defer (state : Z)
  | request_login
  | request_check_version
  | request_status
  | request_poll_exit.

Inductive record_type :=
  | rt_run (run : RunRecord)
  | rt_stats
  | rt_config (cfg : list ConfigItem)
  | rt_output
  | rt_files
  | rt_artifact
  | rt_alert
  | rt_header
  | rt_footer
  | rt_summary (s : SummaryRecord)
  | rt_exit (exit_code : Z)
  | rt_final
  | rt_request (r : request_type).

Record Record_ := mkRecord {
  record : record_type;
  control : Control;
  uuid : string
}.

Inductive ErrorCode := INVALID.

Record ErrorInfo := mkErrorInfo {
  code : ErrorCode;
  message : string
}.

Inductive RunExitResult := mkRunExitResult.

Inductive Result :=
  | Result_exit (exit_result : RunExitResult) (uuid : string)
  | Result_run (run : RunRecord) (error : option ErrorInfo) (uuid : string).

Record Settings := mkSettings {
  _offline : bool;
  resume : option string;
  program : string
}.

(** ** handler.py *)

Inductive SystemStats := SystemStats_obj.
Inductive TBWatcher := TBWatcher_obj.

(** Calls the handler makes on its collaborators, in order. *)
Inductive handler_call :=
  | system_stats_shutdown
  | tb_watcher_finish.

Record HandleManager := mkHandleManager {
  h_settings : Settings;
  _sender_q : list Record_;
  _writer_q : list Record_;
  _tb_watcher : option TBWatcher;
  _system_stats : option SystemStats;
  _consolidated_summary : gmap string json;
  h_calls : list handler_call
}.

Definition sender_q_put (r : Record_) (hm : HandleManager) : HandleManager :=
  {| h_settings := h_settings hm; _sender_q := _sender_q hm ++ [r];
     _writer_q := _writer_q hm; _tb_watcher := _tb_watcher hm;
     _system_stats := _system_stats hm;
     _consolidated_summary := _consolidated_summary hm; h_calls := h_calls hm |}.

Definition writer_q_put (r : Record_) (hm : HandleManager) : HandleManager :=
  {| h_settings := h_settings hm; _sender_q := _sender_q hm;
     _writer_q := _writer_q hm ++ [r]; _tb_watcher := _tb_watcher hm;
     _system_stats := _system_stats hm;
     _consolidated_summary := _consolidated_summary hm; h_calls := h_calls hm |}.

Definition set_consolidated_summary (d : gmap string json) (hm : HandleManager)
  : HandleManager :=
  {| h_settings := h_settings hm; _sender_q := _sender_q hm;
     _writer_q := _writer_q hm; _tb_watcher := _tb_watcher hm;
     _system_stats := _system_stats hm;
     _consolidated_summary := d; h_calls := h_calls hm |}.

Definition h_call (c : handler_call) (hm : HandleManager) : HandleManager :=
  {| h_settings := h_settings hm; _sender_q := _sender_q hm;
     _writer_q := _writer_q hm; _tb_watcher := _tb_watcher hm;
     _system_stats := _system_stats hm;
     _consolidated_summary := _consolidated_summary hm;
     h_calls := h_calls hm ++ [c] |}.

Definition set_tb_watcher (w : option TBWatcher) (hm : HandleManager) : HandleManager :=
  {| h_settings := h_settings hm; _sender_q := _sender_q hm;
     _writer_q := _writer_q hm; _tb_watcher := w;
     _system_stats := _system_stats hm;
     _consolidated_summary := _consolidated_summary hm; h_calls := h_calls hm |}.

Definition _dispatch_record (r : Record_) (always_send : bool) (hm : HandleManager)
  : HandleManager :=
  let hm :=
    if negb (_offline (h_settings hm)) || always_send then sender_q_put r hm else hm in
  if negb (local (control r)) then writer_q_put r hm else hm.

Definition handle_request_login (r : Record_) := _dispatch_record r false.
Definition handle_run (r : Record_) := _dispatch_record r false.
Definition handle_stats (r : Record_) := _dispatch_record r false.
Definition handle_config (r : Record_) := _dispatch_record r false.
Definition handle_output (r : Record_) := _dispatch_record r false.
Definition handle_files (r : Record_) := _dispatch_record r false.
Definition handle_artifact (r : Record_) := _dispatch_record r false.
Definition handle_alert (r : Record_) := _dispatch_record r false.
Definition handle_header (r : Record_) := _dispatch_record r false.
Definition handle_footer (r : Record_) := _dispatch_record r false.
Definition handle_request_check_version (r : Record_) := _dispatch_record r false.
Definition handle_request_status (r : Record_) := _dispatch_record r false.
Definition handle_exit (r : Record_) := _dispatch_record r true.
Definition handle_final (r : Record_) := _dispatch_record r true.
Definition handle_request_poll_exit (r : Record_) := _dispatch_record r true.

(** The handlers that send a record on with the default arguments. *)
Definition default_handlers : list (Record_ -> HandleManager -> HandleManager) :=
  [handle_request_login; handle_run; handle_stats; handle_config; handle_output;
   handle_files; handle_artifact; handle_alert; handle_header; handle_footer;
   handle_request_check_version; handle_request_status].

(** A handler of a run that is online, with empty queues, and a stats record
    flagged as local. *)
Definition online_handler : HandleManager :=
  mkHandleManager (mkSettings false None "") [] [] None None ∅ [].
Definition local_stats_record : Record_ :=
  mkRecord rt_stats (mkControl false true) "".

(** [tuple(item.nested_key)] or [(item.key,)], as its last element and the
    elements before it. *)
Definition item_key (item : SummaryItem) : outcome (list string * string) :=
  match nested_key item with
  | [] => Ok ([], key item)
  | k :: ks =>
      if String.eqb (key item) ""
      then Ok (removelast (k :: ks), List.last (k :: ks) k)
      else Raise (AssertionError A_key_empty)
  end.

(** [for prop in key[:-1]: target = target[prop]]: the object reached. *)
Fixpoint walk (props : list string) (target : json) : outcome json :=
  match props with
  | [] => Ok target
  | prop :: props' =>
      match target with
      | JDict d =>
          match d !! prop with
          | Some sub => walk props' sub
          | None => Raise KeyError
          end
      | _ => Raise TypeError
      end
  end.

(** The walk, then [target[key[-1]] = value], on the nested dictionaries:
    the dictionary reached is changed in place, which changes the
    dictionaries above it. *)
Fixpoint set_path (props : list string) (leaf : string) (value : json)
         (target : gmap string json) : outcome (gmap string json) :=
  match props with
  | [] => Ok (<[leaf := value]> target)
  | prop :: props' =>
      match target !! prop with
      | None => Raise KeyError
      | Some (JDict sub) =>
          match set_path props' leaf value sub with
          | Ok sub' => Ok (<[prop := JDict sub']> target)
          | Raise e => Raise e
          | NoFuel => NoFuel
          end
      | Some _ => Raise TypeError
      end
  end.

(** The same walk, then [del target[key[-1]]]. *)
Fixpoint del_path (props : list string) (leaf : string)
         (target : gmap string json) : outcome (gmap string json) :=
  match props with
  | [] =>
      match target !! leaf with
      | None => Raise KeyError
      | Some _ => Ok (delete leaf target)
      end
  | prop :: props' =>
      match target !! prop with
      | None => Raise KeyError
      | Some (JDict sub) =>
          match del_path props' leaf sub with
          | Ok sub' => Ok (<[prop := JDict sub']> target)
          | Raise e => Raise e
          | NoFuel => NoFuel
          end
      | Some _ => Raise TypeError
      end
  end.

(** The value found by walking a key path down the dictionaries, if any. *)
Fixpoint lookup_path (path : list string) (target : json) : option json :=
  match path with
  | [] => Some target
  | prop :: path' =>
      match target with
      | JDict d =>
          match d !! prop with
          | Some sub => lookup_path path' sub
          | None => None
          end
      | _ => None
      end
  end.

Section Handler.

(** [json.loads] (None where it raises ValueError) and [json.dumps]. *)
Variable json_loads : string -> option json.
Variable json_dumps : json -> string.

Definition loads (s : string) : outcome json :=
  match json_loads s with
  | Some v => Ok v
  | None => Raise ValueError
  end.

Definition _save_summary (summary_dict : gmap string json) (flush : bool)
           (hm : HandleManager) : HandleManager :=
  let summary :=
    {| update := map (fun kv => mkSummaryItem kv.1 [] (json_dumps kv.2))
                     (map_to_list summary_dict);
       remove := [] |} in
  let r := mkRecord (rt_summary summary) (mkControl false false) "" in
  if flush then _dispatch_record r false hm
  else if negb (_offline (h_settings hm)) then sender_q_put r hm
  else hm.

(** [record.request.defer.state]; a field that is not set reads as zero. *)
Definition defer_state (r : Record_) : Z :=
  match record r with
  | rt_request (request_defer state) => state
  | _ => 0
  end.

Definition handle_request_defer (r : Record_) (hm : HandleManager)
  : HandleManager :=
  let state := defer_state r in
  let hm :=
    if state =? DeferState.FLUSH_STATS then
      match _system_stats hm with
      | Some _ => h_call system_stats_shutdown hm
      | None => hm
      end
    else if state =? DeferState.FLUSH_TB then
      match _tb_watcher hm with
      | Some _ => set_tb_watcher None (h_call tb_watcher_finish hm)
      | None => hm
      end
    else if state =? DeferState.FLUSH_SUM then
      _save_summary (_consolidated_summary hm) true hm
    else hm in
  _dispatch_record r true hm.

(** One turn of the first loop of [handle_summary]. *)
Definition summary_update (item : SummaryItem) (target : gmap string json)
  : outcome (gmap string json) :=
  match item_key item with
  | Ok (props, leaf) =>
      match walk props (JDict target) with
      | Ok _ =>
          match loads (value_json item) with
          | Ok v => set_path props leaf v target
          | Raise e => Raise e
          | NoFuel => NoFuel
          end
      | Raise e => Raise e
      | NoFuel => NoFuel
      end
  | Raise e => Raise e
  | NoFuel => NoFuel
  end.

(** One turn of the second loop. *)
Definition summary_remove (item : SummaryItem) (target : gmap string json)
  : outcome (gmap string json) :=
  match item_key item with
  | Ok (props, leaf) => del_path props leaf target
  | Raise e => Raise e
  | NoFuel => NoFuel
  end.

Fixpoint for_each {A S} (f : A -> S -> outcome S) (l : list A) (s : S) : outcome S :=
  match l with
  | [] => Ok s
  | a :: l' =>
      match f a s with
      | Ok s' => for_each f l' s'
      | other => other
      end
  end.

Definition handle_summary (s : SummaryRecord) (hm : HandleManager)
  : outcome HandleManager :=
  match for_each summary_update (update s) (_consolidated_summary hm) with
  | Ok d1 =>
      match for_each summary_remove (remove s) d1 with
      | Ok d2 =>
          Ok (_save_summary d2 false (set_consolidated_summary d2 hm))
      | Raise e => Raise e
      | NoFuel => NoFuel
      end
  | Raise e => Raise e
  | NoFuel => NoFuel
  end.



End Handler.

(** ** sender.py *)

Inductive FileStreamApi := FileStreamApi_obj.
Inductive FilePusher := FilePusher_obj.
Inductive DirWatcher := DirWatcher_obj.

(** What [api.run_resume_status] answers for a run that exists. *)
Record ResumeStatus := mkResumeStatus {
  historyTail : string;
  eventsTail : string;
  rs_config : option string;
  summaryMetrics : option string;
  historyLineCount : Z;
  eventsLineCount : Z;
  logLineCount : Z
}.

(** What [api.upsert_run] answers; a field that is missing or empty is the
    empty string, which the sender treats alike. *)
Record ServerRun := mkServerRun {
  sr_id : string;
  sr_name : string;
  sr_displayName : string;
  (* the name of the project and the name of its entity *)
  sr_project : option (string * string);
  sr_sweepName : string
}.

(** [self._resume_state]; [None] is [JNull]. *)
Record ResumeState := mkResumeState {
  rs_step : Z;
  rs_history : Z;
  rs_events : Z;
  rs_output : Z;
  rs_runtime : json;
  rs_summary : json;
  rs_resume_config : json;
  rs_resumed : bool
}.

(** Calls the sender makes on its collaborators, in order. *)
Inductive sender_call :=
  | publish_defer (state : Z)
  | publish_final
  | publish_footer
  | dir_watcher_finish
  | pusher_finish
  | pusher_print_status
  | pusher_join
  | fs_finish (exit_code : Z)
  | run_resume_status (entity : option string) (project name : string)
  | save_config_file_from_dict (config_dict : gmap string json)
  | upsert_run (name : string) (config : option (gmap string json))
  | start_run_threads.

Record SendManager := mkSendManager {
  s_settings : Settings;
  _result_q : list Result;
  _fs : option FileStreamApi;
  _pusher : option FilePusher;
  _dir_watcher : option DirWatcher;
  _entity : option string;
  _run : option RunRecord;
  _project : option string;
  _resume_state : ResumeState;
  _exit_sync_uuid : option string;
  _exit_result : option RunExitResult;
  _exit_code : Z;
  s_calls : list sender_call
}.

Definition SendManager__init__ (settings : Settings) : SendManager :=
  {| s_settings := settings; _result_q := []; _fs := None; _pusher := None;
     _dir_watcher := None; _entity := None; _run := None; _project := None;
     _resume_state :=
       {| rs_step := 0; rs_history := 0; rs_events := 0; rs_output := 0;
          rs_runtime := JNum 0; rs_summary := JNull; rs_resume_config := JNull;
          rs_resumed := false |};
     _exit_sync_uuid := None; _exit_result := None; _exit_code := 0;
     s_calls := [] |}.

Definition s_call (c : sender_call) (sm : SendManager) : SendManager :=
  {| s_settings := s_settings sm; _result_q := _result_q sm; _fs := _fs sm;
     _pusher := _pusher sm; _dir_watcher := _dir_watcher sm; _entity := _entity sm;
     _run := _run sm; _project := _project sm; _resume_state := _resume_state sm;
     _exit_sync_uuid := _exit_sync_uuid sm; _exit_result := _exit_result sm;
     _exit_code := _exit_code sm; s_calls := s_calls sm ++ [c] |}.

Definition result_q_put (r : Result) (sm : SendManager) : SendManager :=
  {| s_settings := s_settings sm; _result_q := _result_q sm ++ [r]; _fs := _fs sm;
     _pusher := _pusher sm; _dir_watcher := _dir_watcher sm; _entity := _entity sm;
     _run := _run sm; _project := _project sm; _resume_state := _resume_state sm;
     _exit_sync_uuid := _exit_sync_uuid sm; _exit_result := _exit_result sm;
     _exit_code := _exit_code sm; s_calls := s_calls sm |}.

Definition set_fs (v : option FileStreamApi) (sm : SendManager) : SendManager :=
  {| s_settings := s_settings sm; _result_q := _result_q sm; _fs := v;
     _pusher := _pusher sm; _dir_watcher := _dir_watcher sm; _entity := _entity sm;
     _run := _run sm; _project := _project sm; _resume_state := _resume_state sm;
     _exit_sync_uuid := _exit_sync_uuid sm; _exit_result := _exit_result sm;
     _exit_code := _exit_code sm; s_calls := s_calls sm |}.

Definition set_pusher (v : option FilePusher) (sm : SendManager) : SendManager :=
  {| s_settings := s_settings sm; _result_q := _result_q sm; _fs := _fs sm;
     _pusher := v; _dir_watcher := _dir_watcher sm; _entity := _entity sm;
     _run := _run sm; _project := _project sm; _resume_state := _resume_state sm;
     _exit_sync_uuid := _exit_sync_uuid sm; _exit_result := _exit_result sm;
     _exit_code := _exit_code sm; s_calls := s_calls sm |}.

Definition set_dir_watcher (v : option DirWatcher) (sm : SendManager) : SendManager :=
  {| s_settings := s_settings sm; _result_q := _result_q sm; _fs := _fs sm;
     _pusher := _pusher sm; _dir_watcher := v; _entity := _entity sm;
     _run := _run sm; _project := _project sm; _resume_state := _resume_state sm;
     _exit_sync_uuid := _exit_sync_uuid sm; _exit_result := _exit_result sm;
     _exit_code := _exit_code sm; s_calls := s_calls sm |}.

Definition set_entity (e : option string) (sm : SendManager) : SendManager :=
  {| s_settings := s_settings sm; _result_q := _result_q sm; _fs := _fs sm;
     _pusher := _pusher sm; _dir_watcher := _dir_watcher sm; _entity := e;
     _run := _run sm; _project := _project sm; _resume_state := _resume_state sm;
     _exit_sync_uuid := _exit_sync_uuid sm; _exit_result := _exit_result sm;
     _exit_code := _exit_code sm; s_calls := s_calls sm |}.

Definition set_project (p : option string) (sm : SendManager) : SendManager :=
  {| s_settings := s_settings sm; _result_q := _result_q sm; _fs := _fs sm;
     _pusher := _pusher sm; _dir_watcher := _dir_watcher sm; _entity := _entity sm;
     _run := _run sm; _project := p; _resume_state := _resume_state sm;
     _exit_sync_uuid := _exit_sync_uuid sm; _exit_result := _exit_result sm;
     _exit_code := _exit_code sm; s_calls := s_calls sm |}.

Definition set_run (r : RunRecord) (sm : SendManager) : SendManager :=
  {| s_settings := s_settings sm; _result_q := _result_q sm; _fs := _fs sm;
     _pusher := _pusher sm; _dir_watcher := _dir_watcher sm; _entity := _entity sm;
     _run := Some r; _project := _project sm; _resume_state := _resume_state sm;
     _exit_sync_uuid := _exit_sync_uuid sm; _exit_result := _exit_result sm;
     _exit_code := _exit_code sm; s_calls := s_calls sm |}.

Definition set_resume_state (rs : ResumeState) (sm : SendManager) : SendManager :=
  {| s_settings := s_settings sm; _result_q := _result_q sm; _fs := _fs sm;
     _pusher := _pusher sm; _dir_watcher := _dir_watcher sm; _entity := _entity sm;
     _run := _run sm; _project := _project sm; _resume_state := rs;
     _exit_sync_uuid := _exit_sync_uuid sm; _exit_result := _exit_result sm;
     _exit_code := _exit_code sm; s_calls := s_calls sm |}.

Definition set_exit_sync_uuid (u : option string) (sm : SendManager) : SendManager :=
  {| s_settings := s_settings sm; _result_q := _result_q sm; _fs := _fs sm;
     _pusher := _pusher sm; _dir_watcher := _dir_watcher sm; _entity := _entity sm;
     _run := _run sm; _project := _project sm; _resume_state := _resume_state sm;
     _exit_sync_uuid := u; _exit_result := _exit_result sm;
     _exit_code := _exit_code sm; s_calls := s_calls sm |}.

Definition set_exit_result (r : option RunExitResult) (sm : SendManager) : SendManager :=
  {| s_settings := s_settings sm; _result_q := _result_q sm; _fs := _fs sm;
     _pusher := _pusher sm; _dir_watcher := _dir_watcher sm; _entity := _entity sm;
     _run := _run sm; _project := _project sm; _resume_state := _resume_state sm;
     _exit_sync_uuid := _exit_sync_uuid sm; _exit_result := r;
     _exit_code := _exit_code sm; s_calls := s_calls sm |}.

Definition set_exit_code (c : Z) (sm : SendManager) : SendManager :=
  {| s_settings := s_settings sm; _result_q := _result_q sm; _fs := _fs sm;
     _pusher := _pusher sm; _dir_watcher := _dir_watcher sm; _entity := _entity sm;
     _run := _run sm; _project := _project sm; _resume_state := _resume_state sm;
     _exit_sync_uuid := _exit_sync_uuid sm; _exit_result := _exit_result sm;
     _exit_code := c; s_calls := s_calls sm |}.

(** [data.run]; a field that is not set reads as the empty message. *)
Definition run_of (data : Record_) : RunRecord :=
  match record data with
  | rt_run run => run
  | _ => mkRunRecord "" "" "" None None false 0 0 "" "" ""
  end.

(** A string that is not empty is true. *)
Definition str_truthy (s : string) : bool := negb (String.eqb s "").

(** Modelled from the spec: [interface.publish_defer] is not among the
    sources; called without a state it publishes the defer request at BEGIN
    (section 4.3: on exit the sender publishes a defer-advance at BEGIN). *)
Definition send_exit (data : Record_) (sm : SendManager) : SendManager :=
  let exit_code := match record data with rt_exit c => c | _ => 0 end in
  let sm := set_exit_code exit_code sm in
  let sm := if req_resp (control data)
            then set_exit_sync_uuid (Some (uuid data)) sm else sm in
  s_call (publish_defer DeferState.BEGIN) sm.

Definition send_final (data : Record_) (sm : SendManager) : SendManager := sm.

Definition send_request_defer (data : Record_) (sm : SendManager)
  : outcome SendManager :=
  let state := defer_state data in
  let step : outcome (bool * SendManager) :=
    if state =? DeferState.BEGIN then Ok (false, sm)
    else if state =? DeferState.FLUSH_STATS then Ok (false, sm)
    else if state =? DeferState.FLUSH_TB then Ok (false, sm)
    else if state =? DeferState.FLUSH_SUM then Ok (false, sm)
    else if state =? DeferState.FLUSH_DIR then
      Ok (false, match _dir_watcher sm with
                 | Some _ => set_dir_watcher None (s_call dir_watcher_finish sm)
                 | None => sm
                 end)
    else if state =? DeferState.FLUSH_FP then
      Ok (false, match _pusher sm with
                 | Some _ => s_call pusher_finish sm
                 | None => sm
                 end)
    else if state =? DeferState.FLUSH_FS then
      Ok (false, match _fs sm with
                 | Some _ => set_fs None (s_call (fs_finish (_exit_code sm)) sm)
                 | None => sm
                 end)
    else if state =? DeferState.FLUSH_FINAL then
      Ok (false, s_call publish_footer (s_call publish_final sm))
    else if state =? DeferState.END then Ok (true, sm)
    else Raise (AssertionError A_unknown_state) in
  match step with
  | Ok (false, sm) => Ok (s_call (publish_defer (state + 1)) sm)
  | Ok (true, sm) =>
      let exit_result := mkRunExitResult in
      let sm :=
        match _exit_sync_uuid sm with
        | Some u =>
            if str_truthy u then
              let sm := match _pusher sm with
                        | Some _ =>
                            set_pusher None
                              (s_call pusher_join (s_call pusher_print_status sm))
                        | None => sm
                        end in
              result_q_put (Result_exit exit_result u) sm
            else sm
        | None => sm
        end in
      Ok (set_exit_result (Some exit_result) sm)
  | Raise e => Raise e
  | NoFuel => NoFuel
  end.

(** A run of defer requests handled one after the other. *)
Fixpoint send_request_defers (requests : list Record_) (sm : SendManager)
  : outcome SendManager :=
  match requests with
  | [] => Ok sm
  | data :: rest =>
      match send_request_defer data sm with
      | Ok sm' => send_request_defers rest sm'
      | other => other
      end
  end.

(** [x[-1]] *)
Definition py_last (x : json) : outcome json :=
  match x with
  | JList l =>
      match List.last (map Some l) None with
      | Some v => Ok v
      | None => Raise IndexError
      end
  | JStr s =>
      match List.last (map Some (list_ascii_of_string s)) None with
      | Some c => Ok (JStr (String c EmptyString))
      | None => Raise IndexError
      end
  | JDict _ => Raise KeyError
  | _ => Raise TypeError
  end.

(** [x.get(k, default)] *)
Definition py_get (x : json) (k : string) (default : json) : outcome json :=
  match x with
  | JDict d => Ok (match d !! k with Some v => v | None => default end)
  | _ => Raise AttributeError
  end.

(** [x + 1]; a bool counts as 0 or 1. *)
Definition py_succ (x : json) : outcome Z :=
  match x with
  | JNum n => Ok (n + 1)
  | JBool b => Ok ((if b then 1 else 0) + 1)
  | _ => Raise TypeError
  end.

(** [s or "{}"] *)
Definition or_empty_object (s : option string) : string :=
  match s with
  | Some s => if str_truthy s then s else "{}"
  | None => "{}"
  end.

Definition string_opt_truthy (s : option string) : bool :=
  match s with
  | Some s => str_truthy s
  | None => false
  end.

(** [except (IndexError, ValueError)] *)
Definition caught (e : exn) : bool :=
  match e with
  | IndexError | ValueError => true
  | _ => false
  end.

Section Sender.

Variable json_loads : string -> option json.

(** The backend and the helpers of other modules, as the sender sees them:
    the answers of [api.run_resume_status] and [api.upsert_run],
    [config_util.dict_from_proto_list], [util.auto_project_name],
    [interface._make_config], [interface._make_summary_from_dict], Python's
    [max] on two JSON values and [seconds - runtime]. *)
Variable api_run_resume_status :
  option string -> string -> string -> option ResumeStatus.
Variable api_upsert_run : string -> option (gmap string json) -> ServerRun.
Variable dict_from_proto_list : list ConfigItem -> outcome (gmap string json).
Variable auto_project_name : string -> string.
Variable _make_config : option (gmap string json) -> list ConfigItem.
Variable _make_summary_from_dict : json -> list SummaryItem.
Variable py_max : json -> json -> outcome json.
Variable py_sub : Z -> json -> outcome Z.

(** [json.loads(x)] on a value that may not be a string. *)
Definition loads_value (x : json) : outcome json :=
  match x with
  | JStr s => loads json_loads s
  | _ => Raise TypeError
  end.

(** One tail inside the [try]:
    [x = json.loads(tail); if x: x = json.loads(x[-1]); x_rt = x.get("_runtime", 0)].
    The answer is the values of [x] and [x_rt] where the block stopped, and
    the exception that stopped it, if any. *)
Definition load_tail (tail : string) (x0 rt0 : json) : json * json * option exn :=
  match loads json_loads tail with
  | Ok x =>
      if truthy x then
        match py_last x with
        | Ok line =>
            match loads_value line with
            | Ok x' =>
                match py_get x' "_runtime" (JNum 0) with
                | Ok rt => (x', rt, None)
                | Raise e => (x', rt0, Some e)
                | NoFuel => (x', rt0, None)
                end
            | Raise e => (x, rt0, Some e)
            | NoFuel => (x, rt0, None)
            end
        | Raise e => (x, rt0, Some e)
        | NoFuel => (x, rt0, None)
        end
      else (x, rt0, None)
  | Raise e => (x0, rt0, Some e)
  | NoFuel => (x0, rt0, None)
  end.

Record resume_locals := mkResumeLocals {
  l_history : json;
  l_events : json;
  l_config : json;
  l_summary : json;
  l_events_rt : json;
  l_history_rt : json
}.

(** The body of the [try] of [_maybe_setup_resume]. *)
Definition load_resume_tails (resume_status : ResumeStatus)
  : resume_locals * option exn :=
  let '(history, history_rt, e) :=
    load_tail (historyTail resume_status) (JDict ∅) (JNum 0) in
  match e with
  | Some e =>
      (mkResumeLocals history (JDict ∅) (JDict ∅) (JDict ∅) (JNum 0) history_rt,
       Some e)
  | None =>
      let '(events, events_rt, e) :=
        load_tail (eventsTail resume_status) (JDict ∅) (JNum 0) in
      match e with
      | Some e =>
          (mkResumeLocals history events (JDict ∅) (JDict ∅) events_rt history_rt,
           Some e)
      | None =>
          match loads json_loads (or_empty_object (rs_config resume_status)) with
          | Ok config =>
              match loads json_loads (or_empty_object (summaryMetrics resume_status)) with
              | Ok summary =>
                  (mkResumeLocals history events config summary events_rt history_rt,
                   None)
              | Raise e =>
                  (mkResumeLocals history events config (JDict ∅) events_rt history_rt,
                   Some e)
              | NoFuel =>
                  (mkResumeLocals history events config (JDict ∅) events_rt history_rt,
                   None)
              end
          | Raise e =>
              (mkResumeLocals history events (JDict ∅) (JDict ∅) events_rt history_rt,
               Some e)
          | NoFuel =>
              (mkResumeLocals history events (JDict ∅) (JDict ∅) events_rt history_rt,
               None)
          end
      end
  end.

(** [run.entity or self._entity] *)
Definition or_entity (run_entity : string) (e : option string) : option string :=
  if str_truthy run_entity then Some run_entity else e.

(** The assignments to [self._resume_state] that follow the [try]. *)
Definition store_resume_state (resume_status : ResumeStatus) (l : resume_locals)
           (sm : SendManager) : outcome (option ErrorInfo * SendManager) :=
  match py_max (l_events_rt l) (l_history_rt l) with
  | Ok runtime =>
      let step : outcome Z :=
        if truthy (l_history l) then
          match py_get (l_history l) "_step" (JNum (-1)) with
          | Ok v => py_succ v
          | Raise e => Raise e
          | NoFuel => NoFuel
          end
        else Ok 0 in
      match step with
      | Ok step =>
          Ok (None,
              set_resume_state
                {| rs_step := step;
                   rs_history := historyLineCount resume_status;
                   rs_events := eventsLineCount resume_status;
                   rs_output := logLineCount resume_status;
                   rs_runtime := runtime;
                   rs_summary := l_summary l;
                   rs_resume_config := l_config l;
                   rs_resumed := true |} sm)
      | Raise e => Raise e
      | NoFuel => NoFuel
      end
  | Raise e => Raise e
  | NoFuel => NoFuel
  end.

Definition _maybe_setup_resume (run : RunRecord) (sm : SendManager)
  : outcome (option ErrorInfo * SendManager) :=
  if negb (string_opt_truthy (resume (s_settings sm))) then Ok (None, sm)
  else
    let entity := or_entity (entity run) (_entity sm) in
    let sm := s_call (run_resume_status entity (project run) (run_id run)) sm in
    match api_run_resume_status entity (project run) (run_id run) with
    | None =>
        if bool_decide (resume (s_settings sm) = Some "must"%string) then
          Ok (Some (mkErrorInfo INVALID
                      ("resume='must' but run (" ++ run_id run ++ ") doesn't exist")),
              sm)
        else Ok (None, sm)
    | Some resume_status =>
        if bool_decide (resume (s_settings sm) = Some "never"%string) then
          Ok (Some (mkErrorInfo INVALID
                      ("resume='never' but run (" ++ run_id run ++ ") exists")),
              sm)
        else
          let '(l, e) := load_resume_tails resume_status in
          match e with
          | Some e =>
              if caught e then
                if bool_decide (resume (s_settings sm) = Some "must"%string) then
                  Ok (Some (mkErrorInfo INVALID
                              ("resume='must' but could not resume ("
                                 ++ run_id run ++ ") ")),
                      sm)
                else store_resume_state resume_status l sm
              else Raise e
          | None => store_resume_state resume_status l sm
          end
    end.

Definition with_server_run (server_run : ServerRun) (run : RunRecord) : RunRecord :=
  let project_name :=
    match sr_project server_run with Some (n, _) => n | None => "" end in
  let entity_name :=
    match sr_project server_run with Some (_, n) => n | None => "" end in
  {| run_id := run_id run;
     entity := if str_truthy entity_name then entity_name else entity run;
     project := if str_truthy project_name then project_name else project run;
     config := config run;
     summary := summary run;
     resumed := resumed run;
     starting_step := starting_step run;
     start_time := start_time run;
     display_name := if str_truthy (sr_displayName server_run)
                     then sr_displayName server_run else display_name run;
     storage_id := if str_truthy (sr_id server_run)
                   then sr_id server_run else storage_id run;
     sweep_id := if str_truthy (sr_sweepName server_run)
                 then sr_sweepName server_run else sweep_id run |}.

(** [config_dict or None] *)
Definition dict_or_None (d : option (gmap string json)) : option (gmap string json) :=
  match d with
  | Some d => if bool_decide (d = ∅) then None else Some d
  | None => None
  end.

Definition _init_run (run : RunRecord) (config_dict : option (gmap string json))
           (sm : SendManager) : outcome SendManager :=
  match py_sub (start_time run) (rs_runtime (_resume_state sm)) with
  | Ok start_time' =>
      let sm := s_call (upsert_run (run_id run) (dict_or_None config_dict)) sm in
      let server_run := api_upsert_run (run_id run) (dict_or_None config_dict) in
      let run :=
        {| run_id := run_id run; entity := entity run; project := project run;
           config := Some (_make_config config_dict);
           summary :=
             match rs_summary (_resume_state sm) with
             | JNull => summary run
             | s => Some (_make_summary_from_dict s)
             end;
           resumed := if rs_resumed (_resume_state sm) then true else resumed run;
           starting_step := rs_step (_resume_state sm);
           start_time := start_time';
           display_name := display_name run; storage_id := storage_id run;
           sweep_id := sweep_id run |} in
      let run := with_server_run server_run run in
      let sm := set_run run sm in
      let sm :=
        match sr_project server_run with
        | Some (project_name, entity_name) =>
            let sm := if str_truthy project_name
                      then set_project (Some project_name) sm else sm in
            if str_truthy entity_name then set_entity (Some entity_name) sm else sm
        | None => sm
        end in
      Ok sm
  | Raise e => Raise e
  | NoFuel => NoFuel
  end.

Definition _start_run_threads (sm : SendManager) : SendManager :=
  s_call start_run_threads
    (set_dir_watcher (Some DirWatcher_obj)
       (set_pusher (Some FilePusher_obj) (set_fs (Some FileStreamApi_obj) sm))).

Definition is_None {A} (o : option A) : bool :=
  match o with
  | None => true
  | Some _ => false
  end.

Definition send_run (data : Record_) (sm : SendManager) : outcome SendManager :=
  let run := run_of data in
  let is_wandb_init := is_None (_run sm) in
  (* build config dict *)
  let built : outcome (option (gmap string json) * SendManager) :=
    match config run with
    | Some cfg_update =>
        match dict_from_proto_list cfg_update with
        | Ok d => Ok (Some d, s_call (save_config_file_from_dict d) sm)
        | Raise e => Raise e
        | NoFuel => NoFuel
        end
    | None => Ok (None, sm)
    end in
  match built with
  | Ok (config_dict, sm) =>
      let checked : outcome (RunRecord * option ErrorInfo * SendManager) :=
        if is_wandb_init then
          let run :=
            if String.eqb (project run) "" then
              {| run_id := run_id run; entity := entity run;
                 project := auto_project_name (program (s_settings sm));
                 config := config run; summary := summary run;
                 resumed := resumed run; starting_step := starting_step run;
                 start_time := start_time run; display_name := display_name run;
                 storage_id := storage_id run; sweep_id := sweep_id run |}
            else run in
          match _maybe_setup_resume run sm with
          | Ok (error, sm) => Ok (run, error, sm)
          | Raise e => Raise e
          | NoFuel => NoFuel
          end
        else Ok (run, None, sm) in
      match checked with
      | Ok (run, Some error, sm) =>
          if req_resp (control data)
          then Ok (result_q_put (Result_run run (Some error) (uuid data)) sm)
          else Ok sm
      | Ok (run, None, sm) =>
          (* Save the resumed config: the dictionary of the resume state is
             the one updated, and the one passed on *)
          let merged : outcome (option (gmap string json) * SendManager) :=
            match rs_resume_config (_resume_state sm) with
            | JNull => Ok (config_dict, sm)
            | JDict resumed_config =>
                let config_override :=
                  match dict_or_None config_dict with
                  | Some d => d
                  | None => ∅
                  end in
                let config_dict := config_override ∪ resumed_config in
                let rs := _resume_state sm in
                let sm :=
                  set_resume_state
                    {| rs_step := rs_step rs; rs_history := rs_history rs;
                       rs_events := rs_events rs; rs_output := rs_output rs;
                       rs_runtime := rs_runtime rs; rs_summary := rs_summary rs;
                       rs_resume_config := JDict config_dict;
                       rs_resumed := rs_resumed rs |} sm in
                Ok (Some config_dict, s_call (save_config_file_from_dict config_dict) sm)
            | _ => Raise AttributeError
            end in
          match merged with
          | Ok (config_dict, sm) =>
              match _init_run run config_dict sm with
              | Ok sm =>
                  let sm :=
                    if req_resp (control data) then
                      match _run sm with
                      | Some r => result_q_put (Result_run r None (uuid data)) sm
                      | None => sm
                      end
                    else sm in
                  Ok (if is_wandb_init then _start_run_threads sm else sm)
              | Raise e => Raise e
              | NoFuel => NoFuel
              end
          | Raise e => Raise e
          | NoFuel => NoFuel
          end
      | Raise e => Raise e
      | NoFuel => NoFuel
      end
  | Raise e => Raise e
  | NoFuel => NoFuel
  end.

End Sender.

(** A tail of the backend parses: to an empty list, or to a list whose last
    entry is a line that parses to the dictionary [last_entry]. *)
Definition tail_parses (json_loads : string -> option json) (tail : string)
           (last_entry : option (gmap string json)) : Prop :=
  match last_entry with
  | Some d =>
      exists (pre : list json) (line : string),
        json_loads tail = Some (JList (pre ++ [JStr line]))
        /\ json_loads line = Some (JDict d)
  | None => json_loads tail = Some (JList [])
  end.

(** [d.get("_runtime", 0)] on the last entry of a tail. *)
Definition runtime_of (last_entry : option (gmap string json)) : json :=
  match last_entry with
  | Some d => match d !! "_runtime"%string with Some v => v | None => JNum 0 end
  | None => JNum 0
  end.

(** The [upsert_run] calls of a trace, by their [config] argument. *)
Definition upsert_configs (calls : list sender_call)
  : list (option (gmap string json)) :=
  omap (fun c => match c with upsert_run _ cfg => Some cfg | _ => None end) calls.

(** The states of the defer requests published in a trace. *)
Definition published_defers (calls : list sender_call) : list Z :=
  omap (fun c => match c with publish_defer s => Some s | _ => None end) calls.

(** The exit results put on the result queue, by their correlation id. *)
Definition exit_results (q : list Result) : list string :=
  omap (fun r => match r with Result_exit _ u => Some u | _ => None end) q.

(** A defer request at a given state, as the interface publishes it. *)
Definition defer_request (state : Z) : Record_ :=
  mkRecord (rt_request (request_defer state)) (mkControl false true) "".

(** The shutdown handshake seen from the sender: every defer request that
    the sender publishes comes back to it, first in, first out (the handler
    sends every defer request on to the sender). *)
Fixpoint run_defer (fuel : nat) (queue : list Z) (sm : SendManager)
  : outcome SendManager :=
  match queue with
  | [] => Ok sm
  | state :: queue' =>
      match fuel with
      | O => NoFuel
      | S fuel' =>
          match send_request_defer (defer_request state) sm with
          | Ok sm' =>
              let published :=
                published_defers (drop (length (s_calls sm)) (s_calls sm')) in
              run_defer fuel' (queue' ++ published) sm'
          | other => other
          end
      end
  end.

Definition is_END (state : Z) : bool := state =? DeferState.END.

(** What the sender puts on the result queue when a defer request at END
    arrives. *)
Definition exit_delivery (sm : SendManager) : list string :=
  match _exit_sync_uuid sm with
  | Some u => if str_truthy u then [u] else []
  | None => []
  end.

(** A sender that has taken an exit record with a correlation id. *)
Definition exiting_sender : SendManager :=
  send_exit (mkRecord (rt_exit 0) (mkControl true false) "exit-1")
            (SendManager__init__ (mkSettings false None "")).

(** ** A small resumed run

    A backend that knows the run: its history tail ends at step 15 and its
    config has two keys; the run record overrides one of them. *)

Definition example_json_loads (s : string) : option json :=
  if String.eqb s "[h]" then Some (JList [JStr "h15"])
  else if String.eqb s "h15" then Some (JDict {[ "_step"%string := JNum 15 ]})
  else if String.eqb s "[]" then Some (JList [])
  else if String.eqb s "{}" then Some (JDict ∅)
  else if String.eqb s "cfg"
       then Some (JDict (<[ "lr"%string := JNum 1 ]> {[ "epochs"%string := JNum 2 ]}))
  else if String.eqb s "1" then Some (JNum 1)
  else None.

Definition example_resume_status : ResumeStatus :=
  mkResumeStatus "[h]" "[]" (Some "cfg"%string) None 1 0 0.

Definition example_run : RunRecord :=
  mkRunRecord "run1" "" "proj" (Some [mkConfigItem "lr" "3"]) None false 0 100 "" "" "".

Definition example_override : gmap string json := {[ "lr"%string := JNum 3 ]}.

Definition example_sender : SendManager :=
  SendManager__init__ (mkSettings false (Some "allow"%string) "").

Definition example_send_run : outcome SendManager :=
  send_run example_json_loads
    (fun _ _ _ => Some example_resume_status)
    (fun _ _ => mkServerRun "" "" "" None "")
    (fun _ => Ok example_override)
    (fun program => program)
    (fun _ => [])
    (fun _ => [])
    (fun a _ => Ok a)
    (fun seconds _ => Ok seconds)
    (mkRecord (rt_run example_run) (mkControl true false) "init-1")
    example_sender.

(** A handler whose consolidated summary has a nested dictionary, and an
    update of a key path inside it. *)
Definition example_handler : HandleManager :=
  mkHandleManager (mkSettings false None "") [] [] None None
    {[ "train"%string := JDict ∅ ]} [].

Definition example_item : SummaryItem := mkSummaryItem "" ["train"; "loss"] "1".

(** ** proto_util.py, and the rest of handler.py *)

(** The items of a history record. *)
Record HistoryItem := mkHistoryItem {
  hi_key : string;
  hi_value_json : string
}.

(** [proto_util.dict_from_proto_list] reads [item.key] and
    [item.value_json] of whatever items it is given. *)
Class ProtoItem (A : Type) := {
  proto_key : A -> string;
  proto_value_json : A -> string
}.

#[global] Instance SummaryItem_ProtoItem : ProtoItem SummaryItem :=
  {| proto_key := key; proto_value_json := value_json |}.

#[global] Instance HistoryItem_ProtoItem : ProtoItem HistoryItem :=
  {| proto_key := hi_key; proto_value_json := hi_value_json |}.

(** [isinstance(v, numbers.Real)]: a number, or a bool, which Python counts
    among the integers. *)
Definition is_Real (v : json) : bool :=
  match v with
  | JNum _ | JBool _ => true
  | _ => false
  end.



Module proto_util.
Section ProtoUtil.

Variable json_loads : string -> option json.
Context {A : Type} `{ProtoItem A}.

(** [{item.key: json.loads(item.value_json) for item in obj_list}]: the
    items are taken in order, a later item with the same key replaces the
    earlier one, and the first value that does not parse raises. The
    comprehension starts from the empty dictionary. *)
Definition dict_from_proto_list_from (obj_list : list A) (d : gmap string json)
  : outcome (gmap string json) :=
  for_each (fun item d =>
              match loads json_loads (proto_value_json item) with
              | Ok v => Ok (<[proto_key item := v]> d)
              | Raise e => Raise e
              | NoFuel => NoFuel
              end)
           obj_list d.

Definition dict_from_proto_list (obj_list : list A) : outcome (gmap string json) :=
  dict_from_proto_list_from obj_list ∅.

End ProtoUtil.
End proto_util.

Module handler.
Section HandlerRest.

Variable json_loads : string -> option json.
Variable json_dumps : json -> string.

(** [sample.UniformSampleAccumulator] is not among the sources: the
    accumulators are any type with a constructor and an [add]. *)
Variable Accumulator : Type.
Variable UniformSampleAccumulator : Accumulator.
Variable add : json -> Accumulator -> Accumulator.

(** One turn of the loop of [_save_history]. *)
Definition save_history_item (item : HistoryItem)
           (sampled : gmap string Accumulator) : outcome (gmap string Accumulator) :=
  let k := hi_key item in
  match loads json_loads (hi_value_json item) with
  | Ok v =>
      if is_Real v then
        (* setdefault(k, UniformSampleAccumulator()), then [k].add(v) *)
        let acc := match sampled !! k with
                   | Some acc => acc
                   | None => UniformSampleAccumulator
                   end in
        Ok (<[k := add v acc]> sampled)
      else Ok sampled
  | Raise e => Raise e
  | NoFuel => NoFuel
  end.

Definition _save_history (items : list HistoryItem)
           (sampled : gmap string Accumulator) : outcome (gmap string Accumulator) :=
  for_each save_history_item items sampled.

(** [handle_history(record)], on the handler and its [_sampled_history];
    [items] is [record.history.item]. *)
Definition handle_history (r : Record_) (items : list HistoryItem)
           (hm : HandleManager) (sampled : gmap string Accumulator)
  : outcome (HandleManager * gmap string Accumulator) :=
  let hm := _dispatch_record r false hm in
  match _save_history items sampled with
  | Ok sampled =>
      match proto_util.dict_from_proto_list json_loads items with
      | Ok history_dict =>
          (* self._consolidated_summary.update(history_dict) *)
          let d := history_dict ∪ _consolidated_summary hm in
          Ok (_save_summary json_dumps d false (set_consolidated_summary d hm),
              sampled)
      | Raise e => Raise e
      | NoFuel => NoFuel
      end
  | Raise e => Raise e
  | NoFuel => NoFuel
  end.

(** [finish()] *)
Definition finish (hm : HandleManager) : HandleManager :=
  match _tb_watcher hm with
  | Some _ => h_call tb_watcher_finish hm
  | None => hm
  end.


End HandlerRest.
End handler.

(** The summary record that [_save_summary] builds from a dictionary. *)
Definition summary_record_of (json_dumps : json -> string)
           (summary_dict : gmap string json) : Record_ :=
  mkRecord
    (rt_summary
       {| update := map (fun kv => mkSummaryItem kv.1 [] (json_dumps kv.2))
                        (map_to_list summary_dict);
          remove := [] |})
    (mkControl false false) "".

(** ** The rest of sender.py *)

(** [run.project = util.auto_project_name(self._settings.program)] when the
    run record names no project. *)
Definition with_auto_project (auto_project_name : string -> string)
           (settings : Settings) (run : RunRecord) : RunRecord :=
  if String.eqb (project run) "" then
    {| run_id := run_id run; entity := entity run;
       project := auto_project_name (program settings);
       config := config run; summary := summary run;
       resumed := resumed run; starting_step := starting_step run;
       start_time := start_time run; display_name := display_name run;
       storage_id := storage_id run; sweep_id := sweep_id run |}
  else run.

(** The [config_dict] that [send_run] builds from the run record. *)
Definition build_config_dict
           (dict_from_proto_list : list ConfigItem -> outcome (gmap string json))
           (run : RunRecord) : outcome (option (gmap string json)) :=
  match config run with
  | Some cfg_update =>
      match dict_from_proto_list cfg_update with
      | Ok d => Ok (Some d)
      | Raise e => Raise e
      | NoFuel => NoFuel
      end
  | None => Ok None
  end.

(** The call that saves the config file, when there is a [config_dict]. *)
Definition save_config_calls (config_dict : option (gmap string json))
  : list sender_call :=
  match config_dict with
  | Some d => [save_config_file_from_dict d]
  | None => []
  end.

(** The calls of a trace made on the file stream, the file pusher and the
    directory watcher. *)
Definition is_resource_call (c : sender_call) : bool :=
  match c with
  | dir_watcher_finish | pusher_finish | pusher_print_status | pusher_join
  | fs_finish _ => true
  | _ => false
  end.

Inductive OutputType := STDOUT | STDERR.

Record OutputRecord := mkOutputRecord {
  output_type : OutputType;
  line : string
}.

(** The line feed, ["\n"]. *)
Definition newline : Ascii.ascii :=
  Ascii.Ascii false true false true false false false false.

(** A text with a line feed after it. *)
Definition with_newline (s : string) : string :=
  (s ++ String newline EmptyString)%string.

(** [line.endswith("\n")] *)
Fixpoint endswith_newline (s : string) : bool :=
  match s with
  | EmptyString => false
  | String c EmptyString => Ascii.eqb c newline
  | String _ s' => endswith_newline s'
  end.

#[local] Set Warnings "-register-all".
(** Python values as [_flatten] sees them: a [dict], with its items in
    insertion order, or a value of any other type. *)
Inductive pyobj (A : Type) :=
  | PyOther (v : A)
  | PyDict (items : list (string * pyobj A)).
#[local] Set Warnings "+register-all".
Arguments PyOther {A} v.
Arguments PyDict {A} items.

(** [d[k] = v]: the value of a key that is there is replaced where it
    stands, a new key goes last. *)
Fixpoint dict_set {V} (k : string) (v : V) (d : list (string * V))
  : list (string * V) :=
  match d with
  | [] => [(k, v)]
  | (k', v') :: d' =>
      if String.eqb k' k then (k', v) :: d' else (k', v') :: dict_set k v d'
  end.

(** [d.pop(k)]; [None] is KeyError. *)
Fixpoint dict_pop {V} (k : string) (d : list (string * V))
  : option (list (string * V)) :=
  match d with
  | [] => None
  | (k', v') :: d' =>
      if String.eqb k' k then Some d'
      else match dict_pop k d' with
           | Some d1 => Some ((k', v') :: d1)
           | None => None
           end
  end.

(** [v.items()] *)
Definition items_of {A} (v : pyobj A) : list (string * pyobj A) :=
  match v with
  | PyDict items => items
  | PyOther _ => []
  end.

Definition is_dict {A} (v : pyobj A) : bool :=
  match v with
  | PyDict _ => true
  | PyOther _ => false
  end.

(** The keys of a dictionary are distinct, in the dictionary and in every
    dictionary inside it. *)
Fixpoint well_keyed {A} (v : pyobj A) : Prop :=
  match v with
  | PyOther _ => True
  | PyDict items =>
      NoDup (map fst items)
      /\ (fix all (l : list (string * pyobj A)) : Prop :=
            match l with
            | [] => True
            | kv :: l' => well_keyed kv.2 /\ all l'
            end) items
  end.

(** No value of the dictionary is a dictionary. *)
Definition flat {A} (v : pyobj A) : Prop :=
  Forall (fun kv => is_dict kv.2 = false) (items_of v).

Module sender.

(** The loop of [_flatten] over [list(dictionary.items())]; [flatten] is
    [self._flatten] on a value, which answers the value as it has changed
    it. *)
Fixpoint flatten_loop {A} (flatten : pyobj A -> outcome (pyobj A))
         (snapshot dictionary : list (string * pyobj A))
  : outcome (list (string * pyobj A)) :=
  match snapshot with
  | [] => Ok dictionary
  | (k, v) :: rest =>
      if is_dict v then
        match flatten v with
        | Ok v =>
            match dict_pop k dictionary with
            | Some dictionary =>
                flatten_loop flatten rest
                  (fold_left
                     (fun d kv => dict_set (k ++ "." ++ kv.1)%string kv.2 d)
                     (items_of v) dictionary)
            | None => Raise KeyError
            end
        | Raise e => Raise e
        | NoFuel => NoFuel
        end
      else flatten_loop flatten rest dictionary
  end.

(** [_flatten(dictionary)]; the answer is the dictionary as it is after the
    call. *)
Fixpoint _flatten {A} (dictionary : pyobj A) : outcome (pyobj A) :=
  match dictionary with
  | PyDict items =>
      match flatten_loop _flatten items items with
      | Ok items' => Ok (PyDict items')
      | Raise e => Raise e
      | NoFuel => NoFuel
      end
  | PyOther v => Ok (PyOther v)
  end.

(** [finish()] *)
Definition finish (sm : SendManager) : SendManager :=
  let sm := match _dir_watcher sm with
            | Some _ => set_dir_watcher None (s_call dir_watcher_finish sm)
            | None => sm
            end in
  let sm := match _pusher sm with
            | Some _ => set_pusher None (s_call pusher_join (s_call pusher_finish sm))
            | None => sm
            end in
  match _fs sm with
  | Some _ => set_fs None (s_call (fs_finish (_exit_code sm)) sm)
  | None => sm
  end.

(** [send_output(data)], on the parts of the sender it reads and writes:
    [self._fs], the dictionary [self._partial_output] and the lines pushed
    to the file stream under [filenames.OUTPUT_FNAME]. [isoformat] is
    [datetime.utcfromtimestamp(time.time()).isoformat()] at the call. *)
Definition send_output (isoformat : string) (out : OutputRecord)
           (fs : option FileStreamApi)
           (st : gmap string string * list string)
  : gmap string string * list string :=
  let '(_partial_output, pushed) := st in
  match fs with
  | None => st
  | Some _ =>
      let '(stream, prepend) :=
        match output_type out with
        | STDERR => ("stderr"%string, "ERROR "%string)
        | STDOUT => ("stdout"%string, ""%string)
        end in
      if negb (endswith_newline (line out)) then
        let prev := match _partial_output !! stream with
                    | Some s => s
                    | None => ""%string
                    end in
        (<[stream := (prev ++ line out)%string]> _partial_output, pushed)
      else
        let timestamp := (isoformat ++ " ")%string in
        let prev_str := match _partial_output !! stream with
                        | Some s => s
                        | None => ""%string
                        end in
        (<[stream := ""%string]> _partial_output,
         pushed ++ [(prepend ++ timestamp ++ prev_str ++ line out)%string])
  end.

(** Output records sent one after the other, each with its time. *)
Definition send_outputs (outs : list (string * OutputRecord))
           (fs : option FileStreamApi)
           (st : gmap string string * list string)
  : gmap string string * list string :=
  fold_left (fun st o => send_output o.1 o.2 fs st) outs st.

End sender.

(** ** Small runs of the sender

    The backend and the helpers of a run of the sender that is small enough
    to evaluate: every config parses to [example_override], the server
    answers the upsert with nothing, [max] gives its first argument and the
    start time is left as it is. *)
Definition example_send_run_with
           (json_loads : string -> option json)
           (status : option ResumeStatus) (data : Record_) (sm : SendManager)
  : outcome SendManager :=
  send_run json_loads
    (fun _ _ _ => status)
    (fun _ _ => mkServerRun "" "" "" None "")
    (fun _ => Ok example_override)
    (fun program => program)
    (fun _ => [])
    (fun _ => [])
    (fun a _ => Ok a)
    (fun seconds _ => Ok seconds)
    data sm.

Definition example_run_record : Record_ :=
  mkRecord (rt_run example_run) (mkControl true false) "init-1".

(** A backend whose history tail is not valid JSON, and one whose history
    tail is a list whose only line is not valid JSON. *)
Definition broken_tail_status : ResumeStatus :=
  mkResumeStatus "bad" "[]" None None 5 0 0.

Definition broken_line_loads (s : string) : option json :=
  if String.eqb s "[x]" then Some (JList [JStr "x"]) else None.

Definition broken_line_status : ResumeStatus :=
  mkResumeStatus "[x]" "[]" None None 5 0 0.

(** A sender that knows the run and holds a resumed config. *)
Definition resumed_sender : SendManager :=
  set_run example_run
    (set_resume_state
       {| rs_step := 16; rs_history := 1; rs_events := 0; rs_output := 0;
          rs_runtime := JNum 0; rs_summary := JNull;
          rs_resume_config := JDict {[ "epochs"%string := JNum 2 ]};
          rs_resumed := true |}
       example_sender).
(** * Properties *)

Lemma Ok_inj {A} (a b : A) : Ok a = Ok b -> a = b.
Proof. congruence. Qed.

(** ** Steps of the monad *)

Lemma bind_Ok {A B} (m : M A) (k : A -> M B) ds a ds' :
  m ds = Ok (a, ds') -> bind m k ds = k a ds'.
Proof. intros H. unfold bind. now rewrite H. Qed.

Lemma fp_read_app o index fn (n : Z) (a b : bytes) :
  n = blen a ->
  fp_read n (mkDataStore o (Some (FRead (a ++ b))) index fn)
  = Ok (a, mkDataStore o (Some (FRead b)) index fn).
Proof.
  intros ->. unfold fp_read, set_fp. cbn [_opened_for_scan _fp _index _fname].
  destruct (Z.ltb_spec (blen a) 0) as [Hneg|_]; [unfold blen in Hneg; lia|].
  unfold blen. now rewrite Nat2Z.id, take_app_length, drop_app_length.
Qed.

(** ** Bytes and little-endian fields *)

Lemma Z_of_byte_range (b : byte) : 0 <= Z_of_byte b < 256.
Proof.
  unfold Z_of_byte. pose proof (Byte.to_N_bounded b). lia.
Qed.

Lemma Z_of_byte_of_Z (z : Z) : Z_of_byte (byte_of_Z z) = z mod 256.
Proof.
  unfold Z_of_byte, byte_of_Z.
  assert (Hr : 0 <= z mod 256 < 256) by (apply Z.mod_pos_bound; lia).
  destruct (Byte.of_N (Z.to_N (z mod 256))) as [b|] eqn:E.
  - apply Byte.to_of_N in E. rewrite E. lia.
  - apply Byte.of_N_None_iff in E. lia.
Qed.

Lemma byte_of_Z_of_byte (b : byte) : byte_of_Z (Z_of_byte b) = b.
Proof.
  unfold byte_of_Z. pose proof (Z_of_byte_range b) as Hr.
  rewrite Z.mod_small by lia. unfold Z_of_byte.
  rewrite N2Z.id, Byte.of_to_N. reflexivity.
Qed.

Lemma Z_of_byte_inj (a b : byte) : Z_of_byte a = Z_of_byte b -> a = b.
Proof.
  intros H. rewrite <- (byte_of_Z_of_byte a), <- (byte_of_Z_of_byte b).
  now rewrite H.
Qed.

Lemma blen_app (a b : bytes) : blen (a ++ b) = blen a + blen b.
Proof. unfold blen. rewrite length_app. lia. Qed.

Lemma blen_nonneg (a : bytes) : 0 <= blen a.
Proof. unfold blen. lia. Qed.

Lemma length_le_bytes (n : nat) (z : Z) : length (struct.le_bytes n z) = n.
Proof.
  revert z. induction n as [|n IH]; intros z; simpl; [reflexivity|].
  now rewrite IH.
Qed.

Lemma le_int_le_bytes (n : nat) (z : Z) :
  struct.le_int (struct.le_bytes n z) = z mod 2 ^ (8 * Z.of_nat n).
Proof.
  revert z. induction n as [|n IH]; intros z.
  - simpl. now rewrite Z.mod_1_r.
  - cbn [struct.le_bytes struct.le_int]. rewrite IH, Z_of_byte_of_Z.
    rewrite Z.shiftr_div_pow2 by lia.
    replace (8 * Z.of_nat (S n)) with (8 + 8 * Z.of_nat n) by lia.
    rewrite Z.pow_add_r by lia.
    change (2 ^ 8) with 256. change (2 ^ 8) with 256.
    rewrite (Z.rem_mul_r z 256 (2 ^ (8 * Z.of_nat n))) by lia.
    reflexivity.
Qed.

Lemma fits_spec (n : nat) (z : Z) :
  struct.fits n z = true <-> 0 <= z < 2 ^ (8 * Z.of_nat n).
Proof. unfold struct.fits. rewrite andb_true_iff. lia. Qed.

Lemma unpack_IHB_le_bytes (a b c : Z) :
  struct.unpack_IHB (struct.le_bytes 4 a ++ struct.le_bytes 2 b ++ struct.le_bytes 1 c)
  = Ok (a mod 2 ^ 32, b mod 2 ^ 16, c mod 2 ^ 8).
Proof.
  pose proof (le_int_le_bytes 4 a) as Ha.
  pose proof (le_int_le_bytes 2 b) as Hb.
  pose proof (le_int_le_bytes 1 c) as Hc.
  unfold struct.unpack_IHB.
  cbn [struct.le_bytes app length Nat.eqb take drop firstn skipn] in *.
  rewrite Ha, Hb, Hc. reflexivity.
Qed.

Lemma unpack_pack_IHB (a b c : Z) (hdr : bytes) :
  struct.pack_IHB a b c = Ok hdr ->
  length hdr = 7%nat /\ struct.unpack_IHB hdr = Ok (a, b, c).
Proof.
  unfold struct.pack_IHB.
  destruct (struct.fits 4 a) eqn:Ha; [|discriminate].
  destruct (struct.fits 2 b) eqn:Hb; [|discriminate].
  destruct (struct.fits 1 c) eqn:Hc; [|discriminate].
  cbn [andb]. intros Hhdr. apply Ok_inj in Hhdr. subst hdr.
  apply fits_spec in Ha, Hb, Hc.
  split; [rewrite !length_app, !length_le_bytes; reflexivity|].
  rewrite unpack_IHB_le_bytes.
  change (8 * Z.of_nat 4) with 32 in Ha. change (8 * Z.of_nat 2) with 16 in Hb.
  change (8 * Z.of_nat 1) with 8 in Hc.
  rewrite !Z.mod_small by lia. reflexivity.
Qed.

(** ** One chunk: written, then read back *)

Lemma space_left_at_range (index : Z) : 1 <= space_left_at index <= 32768.
Proof.
  unfold space_left_at, LEVELDBLOG_BLOCK_LEN.
  pose proof (Z.mod_pos_bound index 32768). lia.
Qed.

Lemma land_mask32_range (x : Z) : 0 <= Z.land x 0xFFFFFFFF < 2 ^ 32.
Proof.
  change 0xFFFFFFFF with (Z.ones 32). rewrite Z.land_ones by lia.
  apply Z.mod_pos_bound. lia.
Qed.

Lemma crc_seed_valid (dtype : Z) (ds : DataStore) :
  1 <= dtype <= 4 -> crc_seed dtype ds = Ok (nth (Z.to_nat dtype) _crc 0, ds).
Proof.
  intros H.
  assert (E : dtype = 1 \/ dtype = 2 \/ dtype = 3 \/ dtype = 4) by lia.
  destruct E as [-> | [-> | [-> | ->]]]; reflexivity.
Qed.

Lemma pack_IHB_chunk (dtype : Z) (s : bytes) :
  1 <= dtype <= 4 -> blen s < 65536 ->
  struct.pack_IHB (Z.land (zlib.crc32 s (nth (Z.to_nat dtype) _crc 0)) 0xFFFFFFFF)
                  (blen s) dtype
  = Ok (struct.le_bytes 4 (Z.land (zlib.crc32 s (nth (Z.to_nat dtype) _crc 0)) 0xFFFFFFFF)
        ++ struct.le_bytes 2 (blen s) ++ struct.le_bytes 1 dtype).
Proof.
  intros Hd Hs. unfold struct.pack_IHB.
  pose proof (land_mask32_range (zlib.crc32 s (nth (Z.to_nat dtype) _crc 0))) as Hc.
  pose proof (blen_nonneg s) as Hn.
  replace (struct.fits 4 _) with true by (symmetry; apply fits_spec; exact Hc).
  replace (struct.fits 2 _) with true
    by (symmetry; apply fits_spec; change (2 ^ (8 * Z.of_nat 2)) with 65536; lia).
  replace (struct.fits 1 _) with true
    by (symmetry; apply fits_spec; change (2 ^ (8 * Z.of_nat 1)) with 256; lia).
  reflexivity.
Qed.

Lemma write_record_ok o written index fn (s : bytes) (dtype : Z) :
  1 <= dtype <= 4 ->
  blen s + 7 <= space_left_at index ->
  _write_record s (Some dtype) (mkDataStore o (Some (FWrite written)) index fn)
  = Ok (tt, mkDataStore o (Some (FWrite (written ++ chunk dtype s)))
                        (index + (7 + blen s)) fn).
Proof.
  intros Hd Hfit. pose proof (space_left_at_range index) as Hsp.
  unfold _write_record, bind, get_index, assert. cbn [_index].
  fold (space_left_at index). unfold LEVELDBLOG_HEADER_LEN.
  replace (blen s + 7 <=? space_left_at index) with true by (symmetry; lia).
  replace (dtype =? 0) with false by (symmetry; lia).
  unfold ret at 1. rewrite crc_seed_valid by exact Hd.
  unfold lift. rewrite pack_IHB_chunk by lia.
  unfold fp_write, set_fp, add_index, ret. cbn [_fp _index _opened_for_scan _fname].
  unfold chunk.
  destruct (blen s =? 0) eqn:E; cbn [negb _fp _index _opened_for_scan _fname].
  - assert (s = []) as -> by (destruct s; [reflexivity | unfold blen in E; simpl in E; lia]).
    rewrite !app_nil_r. reflexivity.
  - rewrite <- !app_assoc. reflexivity.
Qed.

Lemma scan_record_chunk index fn (dtype : Z) (s rest : bytes) :
  1 <= dtype <= 4 -> blen s < 65536 ->
  scan_record (mkDataStore true (Some (FRead (chunk dtype s ++ rest))) index fn)
  = Ok (Some (dtype, s),
        mkDataStore true (Some (FRead rest)) (index + 7 + blen s) fn).
Proof.
  intros Hd Hs.
  pose proof (pack_IHB_chunk dtype s Hd Hs) as Hpack.
  apply unpack_pack_IHB in Hpack as [Hlen Hun].
  set (hdr := struct.le_bytes 4 _ ++ struct.le_bytes 2 _ ++ struct.le_bytes 1 _) in *.
  replace (chunk dtype s ++ rest) with (hdr ++ s ++ rest)
    by (unfold chunk, hdr; rewrite <- !app_assoc; reflexivity).
  clearbody hdr.
  assert (Hb : blen hdr = 7) by (unfold blen; rewrite Hlen; reflexivity).
  unfold scan_record.
  erewrite bind_Ok by reflexivity.
  erewrite bind_Ok by (apply fp_read_app; rewrite Hb; reflexivity).
  rewrite Hb. cbn [Z.eqb LEVELDBLOG_HEADER_LEN Pos.eqb].
  erewrite bind_Ok by reflexivity.
  unfold lift. erewrite bind_Ok by (rewrite Hun; reflexivity).
  cbv iota beta.
  erewrite bind_Ok by reflexivity.
  erewrite bind_Ok by (apply fp_read_app; reflexivity).
  erewrite bind_Ok by (apply crc_seed_valid; exact Hd).
  rewrite Z.eqb_refl. cbn [assert].
  erewrite bind_Ok by reflexivity.
  erewrite bind_Ok by reflexivity.
  reflexivity.
Qed.

Lemma blen_le_bytes (n : nat) (z : Z) : blen (struct.le_bytes n z) = Z.of_nat n.
Proof. unfold blen. now rewrite length_le_bytes. Qed.

Lemma blen_chunk (dtype : Z) (s : bytes) : blen (chunk dtype s) = 7 + blen s.
Proof.
  unfold chunk. rewrite !blen_app, !blen_le_bytes. lia.
Qed.

Lemma scan_record_eof index fn :
  scan_record (mkDataStore true (Some (FRead [])) index fn)
  = Ok (None, mkDataStore true (Some (FRead [])) index fn).
Proof. reflexivity. Qed.

(** ** The scanner on a frame *)

Lemma middles_bytes_cons (m : bytes) (ms : list bytes) :
  middles_bytes (m :: ms) = chunk LEVELDBLOG_MIDDLE m ++ middles_bytes ms.
Proof. reflexivity. Qed.

Lemma length_middles_bytes (ms : list bytes) :
  (7 * length ms <= length (middles_bytes ms))%nat.
Proof.
  induction ms as [|m ms IH]; [simpl; lia|].
  rewrite middles_bytes_cons, length_app.
  pose proof (blen_chunk LEVELDBLOG_MIDDLE m) as H. unfold blen in H.
  simpl length. lia.
Qed.

Lemma scan_data_loop_chunks (ms : list bytes) :
  forall (fuel : nat) (acc : bytes) index fn (l rest : bytes),
    Forall (fun m => blen m < 65536) ms -> blen l < 65536 ->
    (length ms < fuel)%nat ->
    scan_data_loop fuel acc
      (mkDataStore true
         (Some (FRead (middles_bytes ms ++ chunk LEVELDBLOG_LAST l ++ rest))) index fn)
    = Ok (Some (acc ++ concat ms ++ l),
          mkDataStore true (Some (FRead rest))
            (index + blen (middles_bytes ms) + blen (chunk LEVELDBLOG_LAST l)) fn).
Proof.
  induction ms as [|m ms IH]; intros fuel acc index fn l rest Hms Hl Hfuel.
  - destruct fuel as [|fuel]; [simpl in Hfuel; lia|].
    cbn [scan_data_loop middles_bytes map concat app]. unfold bind.
    rewrite scan_record_chunk by (unfold LEVELDBLOG_LAST; lia || exact Hl).
    cbn [Z.eqb LEVELDBLOG_LAST Pos.eqb]. unfold ret.
    rewrite blen_chunk. change (blen []) with 0.
    do 3 f_equal. lia.
  - destruct fuel as [|fuel]; [simpl in Hfuel; lia|].
    inversion Hms as [|? ? Hm Hms']; subst.
    rewrite middles_bytes_cons, <- app_assoc.
    cbn [scan_data_loop]. unfold bind at 1.
    rewrite scan_record_chunk by (unfold LEVELDBLOG_MIDDLE; lia || exact Hm).
    cbn [Z.eqb LEVELDBLOG_LAST LEVELDBLOG_MIDDLE Pos.eqb].
    unfold bind, assert, ret. cbn [Z.eqb Pos.eqb].
    rewrite IH by (try assumption; simpl in Hfuel; lia).
    rewrite blen_app, !blen_chunk. cbn [concat].
    rewrite <- !app_assoc. do 3 f_equal. lia.
Qed.

Lemma scan_data_loop_truncated (ms : list bytes) :
  forall (fuel : nat) (acc : bytes) index fn,
    Forall (fun m => blen m < 65536) ms ->
    (length ms < fuel)%nat ->
    scan_data_loop fuel acc
      (mkDataStore true (Some (FRead (middles_bytes ms))) index fn)
    = Ok (None,
          mkDataStore true (Some (FRead [])) (index + blen (middles_bytes ms)) fn).
Proof.
  induction ms as [|m ms IH]; intros fuel acc index fn Hms Hfuel.
  - destruct fuel as [|fuel]; [simpl in Hfuel; lia|].
    cbn [scan_data_loop middles_bytes map concat]. unfold bind.
    rewrite scan_record_eof. unfold ret. change (blen []) with 0.
    do 3 f_equal. lia.
  - destruct fuel as [|fuel]; [simpl in Hfuel; lia|].
    inversion Hms as [|? ? Hm Hms']; subst.
    rewrite middles_bytes_cons.
    cbn [scan_data_loop]. unfold bind at 1.
    rewrite scan_record_chunk by (unfold LEVELDBLOG_MIDDLE; lia || exact Hm).
    cbn [Z.eqb LEVELDBLOG_LAST LEVELDBLOG_MIDDLE Pos.eqb].
    unfold bind, assert, ret. cbn [Z.eqb Pos.eqb].
    rewrite IH by (try assumption; simpl in Hfuel; lia).
    rewrite blen_app, !blen_chunk.
    do 3 f_equal. lia.
Qed.

Lemma blen_padding (index : Z) :
  blen (padding index)
  = if space_left_at index <? LEVELDBLOG_HEADER_LEN then space_left_at index else 0.
Proof.
  unfold padding. pose proof (space_left_at_range index).
  destruct (space_left_at index <? LEVELDBLOG_HEADER_LEN); [|reflexivity].
  unfold blen. rewrite length_replicate. lia.
Qed.

Lemma bytes_eqb_refl (a : bytes) : bytes_eqb a a = true.
Proof. unfold bytes_eqb. apply bool_decide_eq_true. reflexivity. Qed.

Lemma blen_layout_bytes (lay : layout) :
  blen (layout_bytes lay) = blen (layout_payload lay) + 7 * layout_chunks lay.
Proof.
  destruct lay as [s | f ms l]; cbn [layout_bytes layout_payload layout_chunks].
  - rewrite blen_chunk. lia.
  - rewrite !blen_app, !blen_chunk.
    assert (H : blen (middles_bytes ms) = blen (concat ms) + 7 * Z.of_nat (length ms)).
    { induction ms as [|m ms IH]; [reflexivity|].
      rewrite middles_bytes_cons. cbn [concat length].
      rewrite !blen_app, blen_chunk, IH. lia. }
    rewrite H. lia.
Qed.

Lemma scan_data_after_padding_layout index fn (lay : layout) (rest : bytes) :
  layout_ok lay ->
  scan_data_after_padding
    (mkDataStore true (Some (FRead (layout_bytes lay ++ rest))) index fn)
  = Ok (Some (layout_payload lay),
        mkDataStore true (Some (FRead rest)) (index + blen (layout_bytes lay)) fn).
Proof.
  intros Hok. unfold scan_data_after_padding.
  destruct lay as [s | f ms l]; cbn [layout_bytes layout_payload layout_ok] in *.
  - erewrite bind_Ok by (apply scan_record_chunk; unfold LEVELDBLOG_FULL; lia).
    cbn [Z.eqb LEVELDBLOG_FULL Pos.eqb]. unfold ret.
    rewrite blen_chunk. do 3 f_equal. lia.
  - destruct Hok as (Hf & Hms & Hl). rewrite <- !app_assoc.
    erewrite bind_Ok by (apply scan_record_chunk; unfold LEVELDBLOG_FIRST; lia).
    cbn [Z.eqb LEVELDBLOG_FULL LEVELDBLOG_FIRST Pos.eqb assert].
    erewrite bind_Ok by reflexivity.
    rewrite scan_data_loop_chunks; try assumption.
    + rewrite !blen_app, !blen_chunk. do 3 f_equal. lia.
    + unfold unread_len. cbn [_fp]. rewrite !length_app.
      pose proof (length_middles_bytes ms). lia.
Qed.

Lemma scan_data_skips_padding index fn (rest : bytes) :
  scan_data (mkDataStore true (Some (FRead (padding index ++ rest))) index fn)
  = scan_data_after_padding
      (mkDataStore true (Some (FRead rest)) (index + blen (padding index)) fn).
Proof.
  pose proof (space_left_at_range index) as Hsp.
  rewrite blen_padding. unfold padding.
  unfold scan_data.
  erewrite bind_Ok by reflexivity. cbn [_index]. fold (space_left_at index).
  destruct (space_left_at index <? LEVELDBLOG_HEADER_LEN) eqn:Epad.
  - erewrite bind_Ok.
    2:{ erewrite bind_Ok by (apply fp_read_app; unfold blen; rewrite length_replicate; lia).
        rewrite bytes_eqb_refl. erewrite bind_Ok by reflexivity. reflexivity. }
    reflexivity.
  - erewrite bind_Ok by reflexivity. cbn [app]. now rewrite Z.add_0_r.
Qed.

Lemma scan_data_frame index fn (lay : layout) (rest : bytes) :
  layout_ok lay ->
  scan_data (mkDataStore true
               (Some (FRead (padding index ++ layout_bytes lay ++ rest))) index fn)
  = Ok (Some (layout_payload lay),
        mkDataStore true (Some (FRead rest))
          (index + blen (padding index) + blen (layout_bytes lay)) fn).
Proof.
  intros Hok. rewrite scan_data_skips_padding.
  now apply scan_data_after_padding_layout.
Qed.

(** ** The writer lays down a frame *)

Lemma take_add_drop {A} (t : list A) (n m : nat) :
  take n t ++ take m (drop n t) = take (n + m) t.
Proof.
  revert t. induction n as [|n IH]; intros t; [reflexivity|].
  destruct t as [|x t]; [cbn; now destruct m|].
  cbn [take drop app Nat.add]. now rewrite IH.
Qed.

Lemma clip_id (n i : Z) : 0 <= i <= n -> clip n i = i.
Proof. intros H. unfold clip. destruct (i <? 0) eqn:E; lia. Qed.

Lemma slice_eq (s : bytes) (lo hi : Z) :
  0 <= lo <= hi -> hi <= blen s ->
  slice s lo hi = take (Z.to_nat (hi - lo)) (drop (Z.to_nat lo) s).
Proof.
  intros H1 H2. unfold slice. now rewrite !clip_id by lia.
Qed.

Lemma blen_slice (s : bytes) (lo hi : Z) :
  0 <= lo <= hi -> hi <= blen s -> blen (slice s lo hi) = hi - lo.
Proof.
  intros H1 H2. rewrite slice_eq by assumption.
  unfold blen in *. rewrite length_take, length_drop. lia.
Qed.

Lemma slice_app (s : bytes) (a b c : Z) :
  0 <= a <= b -> b <= c -> c <= blen s ->
  slice s a b ++ slice s b c = slice s a c.
Proof.
  intros H1 H2 H3. rewrite !slice_eq by lia.
  replace (Z.to_nat b) with (Z.to_nat a + Z.to_nat (b - a))%nat by lia.
  rewrite <- drop_drop, take_add_drop. f_equal. lia.
Qed.

Lemma slice_all (s : bytes) : slice s 0 (blen s) = s.
Proof.
  pose proof (blen_nonneg s). rewrite slice_eq by lia.
  cbn [Z.to_nat drop]. rewrite Z.sub_0_r. unfold blen. rewrite Nat2Z.id.
  apply firstn_all.
Qed.

Lemma slice_empty (s : bytes) (a : Z) : 0 <= a <= blen s -> slice s a a = [].
Proof.
  intros H. rewrite slice_eq by lia. now rewrite Z.sub_diag.
Qed.

Lemma write_middles_spec (s : bytes) :
  forall (fuel : nat) (data_used data_left : Z) o written index fn,
    index mod LEVELDBLOG_BLOCK_LEN = 0 ->
    0 <= data_used -> 1 <= data_left -> data_used + data_left = blen s ->
    data_left <= Z.of_nat fuel ->
    exists ms : list bytes,
      Forall (fun m => blen m = LEVELDBLOG_DATA_LEN) ms
      /\ concat ms
         = slice s data_used (data_used + LEVELDBLOG_DATA_LEN * Z.of_nat (length ms))
      /\ 1 <= data_left - LEVELDBLOG_DATA_LEN * Z.of_nat (length ms)
           <= LEVELDBLOG_DATA_LEN
      /\ write_middles fuel s data_used data_left
           (mkDataStore o (Some (FWrite written)) index fn)
         = Ok (data_used + LEVELDBLOG_DATA_LEN * Z.of_nat (length ms),
               mkDataStore o (Some (FWrite (written ++ middles_bytes ms)))
                 (index + LEVELDBLOG_BLOCK_LEN * Z.of_nat (length ms)) fn).
Proof.
  induction fuel as [|fuel IH];
    intros data_used data_left o written index fn Hal Hdu Hdl Hsum Hfuel.
  - cbn [Z.of_nat] in Hfuel. lia.
  - cbn [write_middles].
    destruct (data_left >? LEVELDBLOG_DATA_LEN) eqn:E.
    + assert (Hgt : data_left > LEVELDBLOG_DATA_LEN) by lia.
      unfold LEVELDBLOG_DATA_LEN, LEVELDBLOG_BLOCK_LEN, LEVELDBLOG_HEADER_LEN in *.
      set (m := slice s data_used (data_used + (32768 - 7))).
      assert (Hm : blen m = 32768 - 7) by (unfold m; rewrite blen_slice; lia).
      destruct (IH (data_used + (32768 - 7)) (data_left - (32768 - 7)) o
                  (written ++ chunk LEVELDBLOG_MIDDLE m) (index + (7 + blen m)) fn)
        as (ms & Hms & Hcat & Hrem & Hrun); try lia.
      { rewrite Hm. replace (index + (7 + (32768 - 7))) with (index + 1 * 32768) by lia.
        rewrite Z.mod_add by lia. exact Hal. }
      exists (m :: ms). cbn [length]. rewrite Nat2Z.inj_succ.
      split; [constructor; assumption|].
      split.
      { cbn [concat]. rewrite Hcat. unfold m. rewrite slice_app by lia.
        f_equal. lia. }
      split; [lia|].
      erewrite bind_Ok.
      2:{ apply write_record_ok; [unfold LEVELDBLOG_MIDDLE; lia|].
          unfold space_left_at, LEVELDBLOG_BLOCK_LEN. rewrite Hal, Hm. lia. }
      fold m. rewrite Hrun. rewrite middles_bytes_cons, <- app_assoc.
      replace (data_used + (32768 - 7) + (32768 - 7) * Z.of_nat (length ms))
        with (data_used + (32768 - 7) * Z.succ (Z.of_nat (length ms))) by lia.
      replace (index + (7 + blen m) + 32768 * Z.of_nat (length ms))
        with (index + 32768 * Z.succ (Z.of_nat (length ms))) by lia.
      reflexivity.
    + exists []. cbn [length Z.of_nat concat middles_bytes map].
      rewrite !Z.mul_0_r, !Z.add_0_r, Z.sub_0_r, app_nil_r.
      split; [constructor|].
      split; [symmetry; apply slice_empty; lia|].
      split; [lia|]. reflexivity.
Qed.

Lemma write_record_full o written index fn (s : bytes) :
  blen s + 7 <= space_left_at index ->
  _write_record s None (mkDataStore o (Some (FWrite written)) index fn)
  = Ok (tt, mkDataStore o (Some (FWrite (written ++ chunk LEVELDBLOG_FULL s)))
                        (index + (7 + blen s)) fn).
Proof.
  intros Hfit.
  rewrite <- (write_record_ok o written index fn s LEVELDBLOG_FULL)
    by (unfold LEVELDBLOG_FULL; lia).
  reflexivity.
Qed.

Lemma next_block_aligned (index : Z) :
  (index + space_left_at index) mod LEVELDBLOG_BLOCK_LEN = 0.
Proof.
  unfold space_left_at, LEVELDBLOG_BLOCK_LEN.
  pose proof (Z.div_mod index 32768 ltac:(lia)) as H.
  replace (index + (32768 - index mod 32768)) with ((index / 32768 + 1) * 32768) by lia.
  apply Z.mod_mul. lia.
Qed.

Lemma space_left_aligned (index : Z) :
  index mod LEVELDBLOG_BLOCK_LEN = 0 -> space_left_at index = LEVELDBLOG_BLOCK_LEN.
Proof. intros H. unfold space_left_at. rewrite H. lia. Qed.

Lemma space_left_after_padding (index : Z) :
  space_left_at (index + blen (padding index))
  = if space_left_at index <? LEVELDBLOG_HEADER_LEN
    then LEVELDBLOG_BLOCK_LEN else space_left_at index.
Proof.
  rewrite blen_padding.
  destruct (space_left_at index <? LEVELDBLOG_HEADER_LEN).
  - apply space_left_aligned, next_block_aligned.
  - now rewrite Z.add_0_r.
Qed.

Lemma write_padding o written index fn :
  (if space_left_at index <? LEVELDBLOG_HEADER_LEN then
     fp_write (replicate (Z.to_nat (space_left_at index)) "000"%byte) ;;;
     add_index (space_left_at index) ;;;
     ret LEVELDBLOG_BLOCK_LEN
   else ret (space_left_at index))
    (mkDataStore o (Some (FWrite written)) index fn)
  = Ok (space_left_at (index + blen (padding index)),
        mkDataStore o (Some (FWrite (written ++ padding index)))
          (index + blen (padding index)) fn).
Proof.
  rewrite space_left_after_padding, blen_padding. unfold padding.
  destruct (space_left_at index <? LEVELDBLOG_HEADER_LEN).
  - reflexivity.
  - unfold ret. now rewrite app_nil_r, Z.add_0_r.
Qed.

Lemma write_data_spec o written index fn (s : bytes) :
  exists lay : layout,
    layout_payload lay = s
    /\ layout_fits (space_left_at (index + blen (padding index))) lay
    /\ _write_data s (mkDataStore o (Some (FWrite written)) index fn)
       = Ok ((index, blen (padding index) + blen (layout_bytes lay), 0, 0),
             mkDataStore o
               (Some (FWrite (written ++ padding index ++ layout_bytes lay)))
               (index + blen (padding index) + blen (layout_bytes lay)) fn).
Proof.
  unfold _write_data.
  erewrite bind_Ok by reflexivity. cbn [_index]. fold (space_left_at index).
  erewrite bind_Ok by apply write_padding.
  set (index1 := index + blen (padding index)).
  set (written1 := written ++ padding index).
  pose proof (space_left_at_range index1) as Hsp1.
  assert (Hsp7 : 7 <= space_left_at index1).
  { unfold index1. rewrite space_left_after_padding.
    unfold LEVELDBLOG_HEADER_LEN, LEVELDBLOG_BLOCK_LEN.
    destruct (space_left_at index <? 7) eqn:E; lia. }
  pose proof (blen_nonneg s) as Hs0.
  unfold LEVELDBLOG_HEADER_LEN.
  destruct (blen s + 7 <=? space_left_at index1) eqn:Efit.
  - exists (LFull s). cbn [layout_payload layout_fits layout_bytes].
    unfold LEVELDBLOG_HEADER_LEN.
    split; [reflexivity|]. split; [clia|].
    erewrite bind_Ok by (apply write_record_full; clia).
    erewrite bind_Ok by reflexivity. cbn [_index]. unfold ret.
    rewrite blen_chunk. unfold written1, index1. rewrite <- app_assoc.
    replace (index + blen (padding index) + (7 + blen s) - index)
      with (blen (padding index) + (7 + blen s)) by clia.
    reflexivity.
  - set (data_room := space_left_at index1 - 7).
    set (f := slice_to s data_room).
    assert (Hf : blen f = data_room)
      by (unfold f, slice_to; rewrite blen_slice; clia).
    assert (Hal : (index1 + (7 + blen f)) mod LEVELDBLOG_BLOCK_LEN = 0).
    { rewrite Hf. unfold data_room.
      replace (index1 + (7 + (space_left_at index1 - 7)))
        with (index1 + space_left_at index1) by clia.
      apply next_block_aligned. }
    destruct (write_middles_spec s (length s) (0 + data_room) (blen s - data_room) o
                (written1 ++ chunk LEVELDBLOG_FIRST f) (index1 + (7 + blen f)) fn)
      as (ms & Hms & Hcat & Hrem & Hrun);
      try exact Hal; try (unfold blen, data_room in *; clia).
    set (used := 0 + data_room + LEVELDBLOG_DATA_LEN * Z.of_nat (length ms)) in *.
    set (l := slice_from s used).
    assert (Hl : blen l = blen s - used)
      by (unfold l, slice_from; rewrite blen_slice; unfold used in *; clia).
    assert (Hal2 : (index1 + (7 + blen f) + LEVELDBLOG_BLOCK_LEN * Z.of_nat (length ms))
                     mod LEVELDBLOG_BLOCK_LEN = 0).
    { rewrite Z.mul_comm, Z.mod_add by (unfold LEVELDBLOG_BLOCK_LEN; clia). exact Hal. }
    exists (LSplit f ms l). cbn [layout_payload layout_fits layout_bytes].
    unfold LEVELDBLOG_HEADER_LEN.
    split.
    { rewrite Hcat. fold used. unfold f, l, slice_to, slice_from.
      rewrite !slice_app by (unfold used in *; clia). apply slice_all. }
    split.
    { split; [clia|]. split; [exact Hms|]. unfold used in *. clia. }
    erewrite bind_Ok.
    2:{ erewrite bind_Ok
          by (apply write_record_ok; [unfold LEVELDBLOG_FIRST; clia | fold f; clia]).
        fold f.
        replace (blen s - data_room =? 0) with false by (symmetry; clia).
        cbn [negb assert].
        erewrite bind_Ok by reflexivity.
        erewrite bind_Ok by exact Hrun.
        fold used. fold l.
        apply write_record_ok; [unfold LEVELDBLOG_LAST; lia|].
        rewrite space_left_aligned by exact Hal2.
        unfold used in *. clia. }
    erewrite bind_Ok by reflexivity. cbn [_index]. unfold ret.
    assert (Hmb : blen (middles_bytes ms)
                  = LEVELDBLOG_BLOCK_LEN * Z.of_nat (length ms)).
    { clear - Hms. induction Hms as [|m ms Hm Hms IH]; [reflexivity|].
      rewrite middles_bytes_cons, blen_app, blen_chunk, IH, Hm.
      cbn [length]. unfold LEVELDBLOG_DATA_LEN, LEVELDBLOG_BLOCK_LEN,
        LEVELDBLOG_HEADER_LEN. lia. }
    rewrite !blen_app, !blen_chunk, Hmb.
    unfold written1, index1. rewrite <- !app_assoc.
    match goal with
    | |- Ok ((_, ?a - _, _, _), _) = Ok ((_, ?b, _, _), _) =>
        replace a with (index + b) by clia;
        replace (index + b - index) with b by clia
    end.
    do 3 f_equal. clia.
Qed.

(** ** CRC-32 tells apart two payloads that differ in one byte *)

Lemma in32_land (c : Z) : in32 c <-> Z.land c zlib.mask32 = c.
Proof.
  unfold in32, zlib.mask32. change 0xFFFFFFFF with (Z.ones 32).
  rewrite Z.land_ones by lia. split.
  - intros H. apply Z.mod_small. exact H.
  - intros <-. apply Z.mod_pos_bound. lia.
Qed.

Lemma land_lxor_distr (a b m : Z) :
  Z.land (Z.lxor a b) m = Z.lxor (Z.land a m) (Z.land b m).
Proof.
  apply Z.bits_inj'. intros n Hn.
  rewrite !Z.land_spec, !Z.lxor_spec, !Z.land_spec.
  destruct (Z.testbit a n), (Z.testbit b n), (Z.testbit m n); reflexivity.
Qed.

Lemma in32_lxor (a b : Z) : in32 a -> in32 b -> in32 (Z.lxor a b).
Proof.
  rewrite !in32_land. intros Ha Hb. now rewrite land_lxor_distr, Ha, Hb.
Qed.

Lemma in32_bit_high (c : Z) (n : Z) : in32 c -> 32 <= n -> Z.testbit c n = false.
Proof.
  intros Hc Hn. apply in32_land in Hc. rewrite <- Hc, Z.land_spec.
  unfold zlib.mask32. change 0xFFFFFFFF with (Z.ones 32).
  rewrite Z.ones_spec_high by lia. apply andb_false_r.
Qed.

Lemma in32_shiftr (c : Z) : in32 c -> in32 (Z.shiftr c 1).
Proof.
  intros Hc. apply in32_land. apply Z.bits_inj'. intros n Hn.
  rewrite Z.land_spec, Z.shiftr_spec by lia.
  unfold zlib.mask32. change 0xFFFFFFFF with (Z.ones 32).
  destruct (Z.lt_ge_cases n 32) as [Hlt | Hge].
  - rewrite Z.ones_spec_low by lia. apply andb_true_r.
  - rewrite (in32_bit_high c (n + 1)) by (assumption || lia). reflexivity.
Qed.

Lemma in32_poly : in32 zlib.poly.
Proof. unfold in32, zlib.poly. lia. Qed.

Lemma in32_crc_bit (c : Z) : in32 c -> in32 (zlib.crc_bit c).
Proof.
  intros Hc. unfold zlib.crc_bit.
  destruct (Z.testbit c 0).
  - apply in32_lxor; [now apply in32_shiftr | apply in32_poly].
  - now apply in32_shiftr.
Qed.

Lemma crc_bit_top (c : Z) : in32 c -> Z.testbit (zlib.crc_bit c) 31 = Z.testbit c 0.
Proof.
  intros Hc. unfold zlib.crc_bit.
  destruct (Z.testbit c 0).
  - rewrite Z.lxor_spec, Z.shiftr_spec by lia.
    rewrite (in32_bit_high c (31 + 1)) by (assumption || lia). reflexivity.
  - rewrite Z.shiftr_spec by lia.
    apply (in32_bit_high c (31 + 1)); assumption || lia.
Qed.

Lemma lxor_cancel_r (a b p : Z) : Z.lxor a p = Z.lxor b p -> a = b.
Proof.
  intros H.
  rewrite <- (Z.lxor_0_r a), <- (Z.lxor_0_r b), <- (Z.lxor_nilpotent p).
  now rewrite <- !Z.lxor_assoc, H.
Qed.

Lemma crc_bit_inj (c c' : Z) :
  in32 c -> in32 c' -> zlib.crc_bit c = zlib.crc_bit c' -> c = c'.
Proof.
  intros Hc Hc' H.
  assert (H0 : Z.testbit c 0 = Z.testbit c' 0)
    by (rewrite <- !crc_bit_top by assumption; now rewrite H).
  assert (Hs : Z.shiftr c 1 = Z.shiftr c' 1).
  { unfold zlib.crc_bit in H. rewrite <- H0 in H.
    destruct (Z.testbit c 0); [eapply lxor_cancel_r|]; exact H. }
  apply Z.bits_inj'. intros n Hn.
  destruct (Z.eq_dec n 0) as [-> | Hne]; [exact H0|].
  replace n with (n - 1 + 1) by lia.
  rewrite <- !(Z.shiftr_spec _ 1) by lia. now rewrite Hs.
Qed.

Lemma in32_iter_crc_bit (n : nat) (c : Z) : in32 c -> in32 (Nat.iter n zlib.crc_bit c).
Proof.
  intros Hc. induction n as [|n IH]; [exact Hc|].
  cbn [Nat.iter nat_rect]. now apply in32_crc_bit.
Qed.

Lemma iter_crc_bit_inj (n : nat) (c c' : Z) :
  in32 c -> in32 c' ->
  Nat.iter n zlib.crc_bit c = Nat.iter n zlib.crc_bit c' -> c = c'.
Proof.
  intros Hc Hc'. induction n as [|n IH]; [trivial|].
  cbn [Nat.iter nat_rect]. intros H. apply IH.
  apply crc_bit_inj; [now apply in32_iter_crc_bit .. | exact H].
Qed.

Lemma in32_byte (b : byte) : in32 (Z_of_byte b).
Proof. pose proof (Z_of_byte_range b). unfold in32. lia. Qed.

Lemma in32_crc_byte (c : Z) (b : byte) : in32 c -> in32 (zlib.crc_byte c b).
Proof.
  intros Hc. unfold zlib.crc_byte.
  apply in32_iter_crc_bit, in32_lxor; [exact Hc | apply in32_byte].
Qed.

Lemma crc_byte_inj_state (c c' : Z) (b : byte) :
  in32 c -> in32 c' -> zlib.crc_byte c b = zlib.crc_byte c' b -> c = c'.
Proof.
  intros Hc Hc' H. unfold zlib.crc_byte in H.
  apply iter_crc_bit_inj in H;
    [| apply in32_lxor; [assumption | apply in32_byte] ..].
  eapply lxor_cancel_r. exact H.
Qed.

Lemma crc_byte_inj_byte (c : Z) (b b' : byte) :
  in32 c -> zlib.crc_byte c b = zlib.crc_byte c b' -> b = b'.
Proof.
  intros Hc H. unfold zlib.crc_byte in H.
  apply iter_crc_bit_inj in H;
    [| apply in32_lxor; [assumption | apply in32_byte] ..].
  apply Z_of_byte_inj. rewrite !(Z.lxor_comm c) in H.
  eapply lxor_cancel_r. exact H.
Qed.

Lemma in32_fold_crc (data : bytes) (c : Z) :
  in32 c -> in32 (fold_left zlib.crc_byte data c).
Proof.
  revert c. induction data as [|b data IH]; intros c Hc; [exact Hc|].
  cbn [fold_left]. now apply IH, in32_crc_byte.
Qed.

Lemma fold_crc_inj_state (data : bytes) (c c' : Z) :
  in32 c -> in32 c' ->
  fold_left zlib.crc_byte data c = fold_left zlib.crc_byte data c' -> c = c'.
Proof.
  revert c c'. induction data as [|b data IH]; intros c c' Hc Hc' H; [exact H|].
  cbn [fold_left] in H. apply IH in H; [| now apply in32_crc_byte ..].
  now apply crc_byte_inj_state in H.
Qed.

(** Two payloads of the same length that differ in exactly one byte have
    different checksums, whatever the seed. *)
Lemma crc32_one_byte (pre post : bytes) (b b' : byte) (seed : Z) :
  b <> b' ->
  Z.land (zlib.crc32 (pre ++ b :: post) seed) 0xFFFFFFFF
  <> Z.land (zlib.crc32 (pre ++ b' :: post) seed) 0xFFFFFFFF.
Proof.
  intros Hne H. unfold zlib.crc32 in H.
  set (c0 := Z.lxor (Z.land seed zlib.mask32) zlib.mask32) in *.
  assert (Hc0 : in32 c0).
  { unfold c0. apply in32_lxor; [|unfold in32, zlib.mask32; lia].
    apply land_mask32_range. }
  assert (Hm : in32 zlib.mask32) by (unfold in32, zlib.mask32; lia).
  change 0xFFFFFFFF with zlib.mask32 in H.
  rewrite !(proj1 (in32_land _)) in H
    by (apply in32_lxor; [apply in32_fold_crc; exact Hc0 | exact Hm]).
  apply lxor_cancel_r in H.
  rewrite !fold_left_app in H. cbn [fold_left] in H.
  apply fold_crc_inj_state in H;
    [| apply in32_crc_byte, in32_fold_crc; exact Hc0 ..].
  apply crc_byte_inj_byte in H; [| apply in32_fold_crc; exact Hc0].
  contradiction.
Qed.

(** ** A flipped payload bit fails the checksum *)

Lemma flip_bit_byte_ne (k : nat) (b : byte) : (k < 8)%nat -> flip_bit_byte k b <> b.
Proof.
  intros Hk H.
  apply (f_equal Z_of_byte) in H. unfold flip_bit_byte in H.
  rewrite Z_of_byte_of_Z in H.
  apply (f_equal (fun z => Z.testbit z (Z.of_nat k))) in H.
  change 256 with (2 ^ 8) in H.
  rewrite Z.mod_pow2_bits_low in H by lia.
  rewrite Z.lxor_spec, Z.shiftl_1_l, Z.pow2_bits_true in H by lia.
  destruct (Z.testbit (Z_of_byte b) (Z.of_nat k)); discriminate.
Qed.

Lemma flip_bit_payload (dtype : Z) (c : bytes) (i k : nat) :
  (i < length c)%nat -> (k < 8)%nat ->
  exists (pre post : bytes) (b b' : byte),
    b <> b' /\ c = pre ++ b :: post
    /\ flip_bit (7 + i) k (chunk dtype c)
       = struct.le_bytes 4 (Z.land (zlib.crc32 c (nth (Z.to_nat dtype) _crc 0)) 0xFFFFFFFF)
         ++ struct.le_bytes 2 (blen c) ++ struct.le_bytes 1 dtype
         ++ pre ++ b' :: post.
Proof.
  intros Hi Hk.
  destruct (lookup_lt_is_Some_2 c i Hi) as [b Hb].
  exists (take i c), (drop (S i) c), b, (flip_bit_byte k b).
  split; [intros E; now apply (flip_bit_byte_ne k b)|].
  split; [symmetry; now apply take_drop_middle|].
  unfold flip_bit, chunk.
  set (h4 := struct.le_bytes 4 _). set (h2 := struct.le_bytes 2 _).
  set (h1 := struct.le_bytes 1 _).
  rewrite !app_assoc.
  replace (7 + i)%nat with (length ((h4 ++ h2) ++ h1) + i)%nat
    by (unfold h4, h2, h1; rewrite !length_app, !length_le_bytes; reflexivity).
  rewrite alter_app_r. rewrite <- !app_assoc. do 3 f_equal.
  rewrite <- (take_drop_middle c i b Hb) at 1.
  replace i with (length (take i c) + 0)%nat at 1
    by (rewrite length_take; lia).
  rewrite alter_app_r. reflexivity.
Qed.

Lemma scan_record_flipped index fn (dtype : Z) (c rest : bytes) (i k : nat) :
  1 <= dtype <= 4 -> blen c < 65536 -> (i < length c)%nat -> (k < 8)%nat ->
  scan_record
    (mkDataStore true (Some (FRead (flip_bit (7 + i) k (chunk dtype c) ++ rest))) index fn)
  = Raise (AssertionError A_checksum).
Proof.
  intros Hd Hc Hi Hk.
  destruct (flip_bit_payload dtype c i k Hi Hk) as (pre & post & b & b' & Hne & Ec & Ef).
  rewrite Ef. clear Ef.
  pose proof (pack_IHB_chunk dtype c Hd Hc) as Hpack.
  apply unpack_pack_IHB in Hpack as [Hlen Hun].
  set (hdr := struct.le_bytes 4 _ ++ struct.le_bytes 2 _ ++ struct.le_bytes 1 _) in *.
  set (c' := pre ++ b' :: post).
  assert (Hlc : blen c' = blen c)
    by (unfold c'; rewrite Ec; unfold blen; rewrite !length_app; reflexivity).
  replace ((struct.le_bytes 4 _ ++ struct.le_bytes 2 _ ++ struct.le_bytes 1 _ ++ c') ++ rest)
    with (hdr ++ c' ++ rest)
    by (unfold hdr; rewrite <- !app_assoc; reflexivity).
  clearbody hdr.
  unfold scan_record.
  erewrite bind_Ok by reflexivity.
  assert (Hb : blen hdr = 7) by (unfold blen; rewrite Hlen; reflexivity).
  erewrite bind_Ok by (apply fp_read_app; rewrite Hb; reflexivity).
  rewrite Hb.
  cbn [Z.eqb LEVELDBLOG_HEADER_LEN Pos.eqb].
  erewrite bind_Ok by reflexivity.
  unfold lift. erewrite bind_Ok by (rewrite Hun; reflexivity).
  cbv iota beta.
  erewrite bind_Ok by reflexivity.
  erewrite bind_Ok
    by (apply fp_read_app; symmetry; exact Hlc).
  erewrite bind_Ok by (apply crc_seed_valid; exact Hd).
  replace (_ =? _) with false; [reflexivity|].
  symmetry. apply Z.eqb_neq. rewrite Ec. unfold c'.
  now apply crc32_one_byte.
Qed.

Lemma scan_data_loop_prefix (ms : list bytes) :
  forall (fuel : nat) (acc : bytes) index fn (tail : bytes) (e : exn),
    Forall (fun m => blen m < 65536) ms ->
    (length ms < fuel)%nat ->
    (forall index', scan_record (mkDataStore true (Some (FRead tail)) index' fn) = Raise e) ->
    scan_data_loop fuel acc
      (mkDataStore true (Some (FRead (middles_bytes ms ++ tail))) index fn)
    = Raise e.
Proof.
  induction ms as [|m ms IH]; intros fuel acc index fn tail e Hms Hfuel Htail.
  - destruct fuel as [|fuel]; [simpl in Hfuel; lia|].
    cbn [scan_data_loop middles_bytes map concat app]. unfold bind.
    now rewrite Htail.
  - destruct fuel as [|fuel]; [simpl in Hfuel; lia|].
    inversion Hms as [|? ? Hm Hms']; subst.
    rewrite middles_bytes_cons, <- app_assoc.
    cbn [scan_data_loop].
    erewrite bind_Ok by (apply scan_record_chunk; [clia | exact Hm]).
    cbn [Z.eqb LEVELDBLOG_LAST LEVELDBLOG_MIDDLE Pos.eqb assert].
    erewrite bind_Ok by reflexivity.
    apply IH; try assumption. simpl in Hfuel. lia.
Qed.

(** ** Frames in sequence *)

Lemma layout_fits_ok (space : Z) (lay : layout) :
  space <= LEVELDBLOG_BLOCK_LEN -> layout_fits space lay -> layout_ok lay.
Proof.
  intros Hsp. destruct lay as [s | f ms l]; cbn [layout_fits layout_ok].
  - clia.
  - intros (Hf & Hms & Hl). split; [clia|]. split; [|clia].
    eapply Forall_impl; [exact Hms|]. intros m Hm. cbv beta in Hm. clia.
Qed.

Lemma blen_concat_middles (ms : list bytes) :
  Forall (fun m => blen m = LEVELDBLOG_DATA_LEN) ms ->
  blen (concat ms) = LEVELDBLOG_DATA_LEN * Z.of_nat (length ms).
Proof.
  induction 1 as [|m ms Hm Hms IH]; [reflexivity|].
  cbn [concat length]. rewrite blen_app, IH, Hm. lia.
Qed.

Lemma layout_fits_full (space : Z) (lay : layout) :
  layout_fits space lay ->
  blen (layout_payload lay) + LEVELDBLOG_HEADER_LEN <= space ->
  lay = LFull (layout_payload lay).
Proof.
  destruct lay as [s | f ms l]; cbn [layout_fits layout_payload]; [reflexivity|].
  intros (Hf & Hms & Hl) Hfit. rewrite !blen_app in Hfit.
  pose proof (blen_nonneg (concat ms)). lia.
Qed.

Lemma layout_fits_split (space : Z) (lay : layout) :
  layout_fits space lay ->
  space < blen (layout_payload lay) + LEVELDBLOG_HEADER_LEN ->
  exists f ms l, lay = LSplit f ms l.
Proof.
  destruct lay as [s | f ms l]; cbn [layout_fits layout_payload].
  - lia.
  - intros _ _. now exists f, ms, l.
Qed.

Lemma write_all_spec (payloads : list bytes) :
  forall o written index fn,
  exists (frames : bytes) (index' : Z),
    write_all payloads (mkDataStore o (Some (FWrite written)) index fn)
    = Ok (tt, mkDataStore o (Some (FWrite (written ++ frames))) index' fn)
    /\ forall rest fn',
        scan_n (length payloads)
          (mkDataStore true (Some (FRead (frames ++ rest))) index fn')
        = Ok (map Some payloads, mkDataStore true (Some (FRead rest)) index' fn').
Proof.
  induction payloads as [|s payloads IH]; intros o written index fn.
  - exists [], index. cbn [write_all scan_n length map app]. unfold ret.
    now rewrite app_nil_r.
  - destruct (write_data_spec o written index fn s) as (lay & Hpay & Hfits & Hrun).
    pose proof (space_left_at_range (index + blen (padding index))) as Hsp.
    assert (Hok : layout_ok lay) by (eapply layout_fits_ok; [|exact Hfits]; clia).
    destruct (IH o (written ++ padding index ++ layout_bytes lay)
                (index + blen (padding index) + blen (layout_bytes lay)) fn)
      as (frames & index' & Hw & Hs).
    exists (padding index ++ layout_bytes lay ++ frames), index'.
    split.
    + cbn [write_all]. erewrite bind_Ok by exact Hrun.
      rewrite Hw. now rewrite <- !app_assoc.
    + intros rest fn'. cbn [scan_n length map]. rewrite <- !app_assoc.
      erewrite bind_Ok by (apply scan_data_frame; exact Hok).
      erewrite bind_Ok by apply Hs.
      unfold ret. now rewrite Hpay.
Qed.

Lemma write_header_ok o fn :
  _write_header (mkDataStore o (Some (FWrite [])) 0 fn)
  = Ok (tt, mkDataStore o (Some (FWrite file_header)) 7 fn).
Proof. reflexivity. Qed.

Lemma open_for_write_fresh (fname : string) (fs : filesystem) :
  fs !! fname = None ->
  open_for_write fname fs __init__
  = Ok (mkDataStore false (Some (FWrite file_header)) 7 (Some fname), <[fname := []]> fs).
Proof.
  intros H. unfold open_for_write. rewrite H. reflexivity.
Qed.

Lemma read_header_ok fn (rest : bytes) :
  _read_header (mkDataStore true (Some (FRead (file_header ++ rest))) 0 fn)
  = Ok (tt, mkDataStore true (Some (FRead rest)) 7 fn).
Proof. reflexivity. Qed.

Lemma open_for_scan_written (fname : string) (fs : filesystem) (rest : bytes) :
  fs !! fname = Some (file_header ++ rest) ->
  open_for_scan fname fs __init__
  = Ok (mkDataStore true (Some (FRead rest)) 7 (Some fname)).
Proof.
  intros H. unfold open_for_scan. rewrite H, read_header_ok. reflexivity.
Qed.

(** The scan met at the end of the file: end-of-stream when a chunk header
    would still fit in the block, a failed padding check otherwise. *)
Lemma scan_data_at_end index fn :
  scan_data (mkDataStore true (Some (FRead [])) index fn)
  = if space_left_at index <? LEVELDBLOG_HEADER_LEN
    then Raise (AssertionError A_pad_zero)
    else Ok (None, mkDataStore true (Some (FRead [])) index fn).
Proof.
  pose proof (space_left_at_range index) as Hsp.
  unfold scan_data. erewrite bind_Ok by reflexivity.
  cbn [_index]. fold (space_left_at index).
  destruct (space_left_at index <? LEVELDBLOG_HEADER_LEN) eqn:E.
  - unfold bind, fp_read, set_fp. cbn [_fp take].
    replace (space_left_at index <? 0) with false by (symmetry; lia).
    replace (bytes_eqb _ _) with false; [reflexivity|].
    symmetry. apply bool_decide_eq_false.
    destruct (Z.to_nat (space_left_at index)) eqn:En; [lia|].
    rewrite take_nil. discriminate.
  - reflexivity.
Qed.

(** Appends from a fresh file, then scans of what was written: every payload
    comes back, in order; what the next scan answers depends on where the
    last chunk ended. *)
Lemma roundtrip (fname : string) (fs : filesystem) (payloads : list bytes) :
  fs !! fname = None ->
  exists w fs1 w' rd rd',
    open_for_write fname fs __init__ = Ok (w, fs1)
    /\ write_all payloads w = Ok (tt, w')
    /\ open_for_scan fname (close fs1 w') __init__ = Ok rd
    /\ scan_n (length payloads) rd = Ok (map Some payloads, rd')
    /\ _index rd' = _index w'
    /\ scan_data rd'
       = if space_left_at (_index w') <? LEVELDBLOG_HEADER_LEN
         then Raise (AssertionError A_pad_zero)
         else Ok (None, rd').
Proof.
  intros Hfresh.
  destruct (write_all_spec payloads false file_header 7 (Some fname))
    as (frames & index' & Hw & Hs).
  eexists _, _, _, _, _.
  split; [now apply open_for_write_fresh|].
  split; [exact Hw|].
  split.
  { apply open_for_scan_written. unfold close. cbn [_fp _fname].
    apply lookup_insert_eq. }
  split.
  { rewrite <- (app_nil_r frames) at 1. apply Hs. }
  split; [reflexivity|].
  cbn [_index]. apply scan_data_at_end.
Qed.

(** ** The properties of the log store *)

Lemma write_data_full o written index fn (s : bytes) :
  blen s + 7 <= space_left_at (index + blen (padding index)) ->
  _write_data s (mkDataStore o (Some (FWrite written)) index fn)
  = Ok ((index, blen (padding index) + (7 + blen s), 0, 0),
        mkDataStore o (Some (FWrite (written ++ padding index ++ chunk LEVELDBLOG_FULL s)))
          (index + blen (padding index) + (7 + blen s)) fn).
Proof.
  intros Hfit.
  destruct (write_data_spec o written index fn s) as (lay & Hpay & Hfits & Hrun).
  apply layout_fits_full in Hfits as Hlay; [|rewrite Hpay; clia].
  rewrite Hpay in Hlay. subst lay. rewrite Hrun.
  cbn [layout_bytes]. now rewrite blen_chunk.
Qed.

Lemma app_eq_slices (f l s : bytes) :
  f ++ l = s -> f = slice_to s (blen f) /\ l = slice_from s (blen f).
Proof.
  intros <-. pose proof (blen_nonneg f). pose proof (blen_nonneg l).
  unfold slice_to, slice_from. rewrite !slice_eq by (rewrite ?blen_app; lia).
  rewrite blen_app. rewrite Z.sub_0_r.
  replace (blen f + blen l - blen f) with (blen l) by lia.
  unfold blen. rewrite !Nat2Z.id. change (Z.to_nat 0) with 0%nat.
  rewrite drop_0, take_app_length, drop_app_length, firstn_all.
  split; reflexivity.
Qed.

Lemma write_data_split_one o written index fn (s : bytes) :
  7 <= space_left_at index ->
  blen s + 7 = space_left_at index + 1 ->
  _write_data s (mkDataStore o (Some (FWrite written)) index fn)
  = Ok ((index, blen s + 7 * 2, 0, 0),
        mkDataStore o
          (Some (FWrite (written
                         ++ chunk LEVELDBLOG_FIRST (slice_to s (blen s - 1))
                         ++ chunk LEVELDBLOG_LAST (slice_from s (blen s - 1)))))
          (index + (blen s + 7 * 2)) fn).
Proof.
  intros Hsp Hone.
  assert (Hpad : padding index = []).
  { unfold padding. replace (_ <? _) with false by (symmetry; clia). reflexivity. }
  destruct (write_data_spec o written index fn s) as (lay & Hpay & Hfits & Hrun).
  rewrite Hpad in *. change (blen []) with 0 in *. rewrite Z.add_0_r in *.
  destruct (layout_fits_split _ _ Hfits) as (f & ms & l & ->); [rewrite Hpay; clia|].
  cbn [layout_fits layout_payload] in *. destruct Hfits as (Hf & Hms & Hl).
  pose proof (blen_concat_middles ms Hms) as Hcm.
  assert (Hlen : blen s = blen f + blen (concat ms) + blen l)
    by (rewrite <- Hpay, !blen_app; lia).
  assert (ms = []) as ->.
  { destruct ms as [|m ms]; [reflexivity|]. cbn [length] in Hcm.
    rewrite Nat2Z.inj_succ in Hcm. clia. }
  cbn [concat app length Z.of_nat] in *. change (blen []) with 0 in Hlen.
  assert (Hfl : blen f = blen s - 1) by clia.
  destruct (app_eq_slices f l s Hpay) as [Ef El]. rewrite Hfl in Ef, El.
  rewrite Hrun. cbn [layout_bytes middles_bytes map concat app].
  rewrite blen_app, !blen_chunk, <- Ef, <- El.
  replace (0 + (7 + blen f + (7 + blen l))) with (blen s + 7 * 2) by lia.
  replace (index + (7 + blen f + (7 + blen l))) with (index + (blen s + 7 * 2)) by lia.
  reflexivity.
Qed.

(** C1, at the input where the program departs from it: one payload of
    32753 bytes written to a fresh file ends one byte before the block
    boundary. The scan gives the payload back, and the scan after it, which
    should report end-of-stream, fails the zero-padding assertion instead:
    at the end of the file the padding read is empty. *)
Theorem C1_end_of_stream_fails_near_block_end :
  exists w fs1 w' rd rd',
    open_for_write "run.wandb" ∅ __init__ = Ok (w, fs1)
    /\ write_all [tail_payload] w = Ok (tt, w')
    /\ open_for_scan "run.wandb" (close fs1 w') __init__ = Ok rd
    /\ scan_n 1 rd = Ok ([Some tail_payload], rd')
    /\ unread_bytes rd' = []
    /\ scan_data rd' = Raise (AssertionError A_pad_zero).
Proof.
  assert (Hlen : blen tail_payload = 32753).
  { unfold tail_payload, blen. rewrite length_replicate. lia. }
  generalize dependent tail_payload. intros s Hlen.
  assert (Hpad : padding 7 = []) by reflexivity.
  assert (Hsp : space_left_at 7 = 32761) by reflexivity.
  eexists _, _, _, _, _.
  split; [apply open_for_write_fresh, lookup_empty|].
  split.
  { cbn [write_all]. erewrite bind_Ok; [reflexivity|].
    apply write_data_full. rewrite Hpad. change (blen []) with 0.
    rewrite Z.add_0_r, Hsp. lia. }
  split.
  { apply open_for_scan_written. unfold close. cbn [_fp _fname].
    rewrite lookup_insert_eq, Hpad. reflexivity. }
  split.
  { cbn [scan_n]. erewrite bind_Ok.
    2:{ rewrite <- Hpad at 1. rewrite <- (app_nil_r (chunk LEVELDBLOG_FULL s)).
        apply (scan_data_frame 7 (Some "run.wandb"%string) (LFull s) []).
        cbn [layout_ok]. lia. }
    reflexivity. }
  split; [reflexivity|].
  rewrite scan_data_at_end. cbn [layout_bytes]. rewrite Hpad, blen_chunk, Hlen.
  reflexivity.
Qed.

(** C3. When the payload and its seven-byte header fill exactly the space
    left in the block, the append writes one FULL chunk and no padding; a
    payload one byte longer is written as a FIRST chunk that fills the
    block and a LAST chunk of one byte, with no MIDDLE chunk. In both cases
    the length the append reports is the payload length plus seven bytes
    per chunk (no padding is written in either case). *)
Theorem C3_block_boundary o written index fn (s s1 : bytes) :
  blen s + 7 = space_left_at index ->
  blen s1 = blen s + 1 ->
  _write_data s (mkDataStore o (Some (FWrite written)) index fn)
  = Ok ((index, blen s + 7 * 1, 0, 0),
        mkDataStore o (Some (FWrite (written ++ chunk LEVELDBLOG_FULL s)))
          (index + (blen s + 7 * 1)) fn)
  /\ _write_data s1 (mkDataStore o (Some (FWrite written)) index fn)
     = Ok ((index, blen s1 + 7 * 2, 0, 0),
           mkDataStore o
             (Some (FWrite (written
                            ++ chunk LEVELDBLOG_FIRST (slice_to s1 (blen s))
                            ++ chunk LEVELDBLOG_LAST (slice_from s1 (blen s)))))
             (index + (blen s1 + 7 * 2)) fn).
Proof.
  intros Hfit Hone. pose proof (blen_nonneg s) as Hs.
  assert (Hpad : padding index = []).
  { unfold padding. replace (_ <? _) with false by (symmetry; clia). reflexivity. }
  split.
  - rewrite write_data_full by (rewrite Hpad; change (blen []) with 0; rewrite Z.add_0_r; lia).
    rewrite Hpad. change (blen []) with 0. cbn [app].
    replace (0 + (7 + blen s)) with (blen s + 7 * 1) by lia.
    replace (index + 0 + (7 + blen s)) with (index + (blen s + 7 * 1)) by lia.
    reflexivity.
  - rewrite write_data_split_one by lia.
    replace (blen s1 - 1) with (blen s) by lia. reflexivity.
Qed.

Lemma C3_block_boundary_witness :
  blen ["a"%byte] + 7 = space_left_at 32760
  /\ blen ["a"; "b"]%byte = blen ["a"%byte] + 1
  /\ written_bytes
       (match _write_data ["a"; "b"]%byte
                (mkDataStore false (Some (FWrite [])) 32760 None) with
        | Ok (_, w) => w
        | _ => __init__
        end)
     = chunk LEVELDBLOG_FIRST ["a"%byte] ++ chunk LEVELDBLOG_LAST ["b"%byte].
Proof.
  split; [reflexivity|]. split; [reflexivity|].
  destruct (C3_block_boundary false [] 32760 None ["a"%byte] ["a"; "b"]%byte
              eq_refl eq_refl) as [_ H].
  rewrite H. reflexivity.
Defined.

Lemma chunks_bytes_cons (dtype : Z) (c : bytes) (cs : list (Z * bytes)) :
  chunks_bytes ((dtype, c) :: cs) = chunk dtype c ++ chunks_bytes cs.
Proof. reflexivity. Qed.

Lemma chunks_bytes_app (a b : list (Z * bytes)) :
  chunks_bytes (a ++ b) = chunks_bytes a ++ chunks_bytes b.
Proof. unfold chunks_bytes. now rewrite map_app, concat_app. Qed.

Lemma chunks_bytes_middles (ms : list bytes) :
  chunks_bytes (map (pair LEVELDBLOG_MIDDLE) ms) = middles_bytes ms.
Proof.
  induction ms as [|m ms IH]; [reflexivity|].
  cbn [map]. now rewrite chunks_bytes_cons, middles_bytes_cons, IH.
Qed.

Lemma layout_bytes_chunks (lay : layout) :
  layout_bytes lay = chunks_bytes (layout_chunk_list lay).
Proof.
  destruct lay as [s | f ms l]; cbn [layout_bytes layout_chunk_list].
  - rewrite chunks_bytes_cons. unfold chunks_bytes. cbn [map concat].
    now rewrite app_nil_r.
  - rewrite chunks_bytes_cons, chunks_bytes_app, chunks_bytes_middles,
      chunks_bytes_cons.
    unfold chunks_bytes at 1. cbn [map concat]. now rewrite app_nil_r.
Qed.

(** In a split layout, what comes before a chunk other than the FIRST one is
    the FIRST chunk and a run of MIDDLE chunks. *)
Lemma split_chunks_before (ms : list bytes) (l : bytes)
      (pre post : list (Z * bytes)) (dtype : Z) (c : bytes) :
  Forall (fun m => blen m < 65536) ms -> blen l < 65536 ->
  map (pair LEVELDBLOG_MIDDLE) ms ++ [(LEVELDBLOG_LAST, l)] = pre ++ (dtype, c) :: post ->
  exists ms1 : list bytes,
    pre = map (pair LEVELDBLOG_MIDDLE) ms1
    /\ Forall (fun m => blen m < 65536) ms1
    /\ 1 <= dtype <= 4 /\ blen c < 65536.
Proof.
  revert pre. induction ms as [|m ms IH]; intros pre Hms Hl E.
  - destruct pre as [|p pre].
    + cbn [map app] in E. injection E as E1 E2 E3. subst.
      exists []. repeat split; try constructor; clia.
    + cbn [map app] in E. injection E as E1 E2.
      destruct pre; discriminate.
  - inversion Hms as [|? ? Hm Hms']; subst.
    destruct pre as [|p pre].
    + cbn [map app] in E. injection E as E1 E2 E3. subst.
      exists []. repeat split; try constructor; clia.
    + cbn [map app] in E. injection E as E1 E2. subst p.
      destruct (IH pre Hms' Hl E2) as (ms1 & -> & Hms1 & Hd & Hc).
      exists (m :: ms1). repeat split; try assumption; try lia.
      constructor; assumption.
Qed.

Lemma scan_after_padding_flipped index fn (lay : layout)
      (pre post : list (Z * bytes)) (dtype : Z) (c rest : bytes) (i k : nat) :
  layout_ok lay ->
  layout_chunk_list lay = pre ++ (dtype, c) :: post ->
  (i < length c)%nat -> (k < 8)%nat ->
  scan_data_after_padding
    (mkDataStore true
       (Some (FRead (chunks_bytes pre ++ flip_bit (7 + i) k (chunk dtype c) ++ rest)))
       index fn)
  = Raise (AssertionError A_checksum).
Proof.
  intros Hok E Hi Hk. unfold scan_data_after_padding.
  destruct lay as [s | f ms l]; cbn [layout_chunk_list layout_ok] in *.
  - destruct pre as [|p pre].
    + cbn [app] in E. injection E as E1 E2 E3. subst.
      unfold bind. cbn [chunks_bytes map concat app].
      now rewrite scan_record_flipped by (clia || assumption).
    + cbn [app] in E. injection E as E1 E2. destruct pre; discriminate.
  - destruct Hok as (Hf & Hms & Hl).
    destruct pre as [|p pre].
    + cbn [app] in E. injection E as E1 E2 E3. subst.
      unfold bind. cbn [chunks_bytes map concat app].
      now rewrite scan_record_flipped by (clia || assumption).
    + cbn [app] in E. injection E as E1 E2. subst p.
      destruct (split_chunks_before ms l pre post dtype c Hms Hl E2)
        as (ms1 & -> & Hms1 & Hd & Hc).
      rewrite chunks_bytes_cons, chunks_bytes_middles, <- !app_assoc.
      erewrite bind_Ok by (apply scan_record_chunk; clia).
      cbn [Z.eqb LEVELDBLOG_FULL LEVELDBLOG_FIRST Pos.eqb assert].
      erewrite bind_Ok by reflexivity.
      apply scan_data_loop_prefix; [exact Hms1 | |].
      * unfold unread_len. cbn [_fp]. rewrite !length_app.
        pose proof (length_middles_bytes ms1). lia.
      * intros index'. now apply scan_record_flipped.
Qed.

Lemma flip_bit_app_r (a b : bytes) (n k : nat) :
  flip_bit (length a + n) k (a ++ b) = a ++ flip_bit n k b.
Proof. unfold flip_bit. apply alter_app_r. Qed.

Lemma flip_bit_app_l (a b : bytes) (n k : nat) :
  (n < length a)%nat -> flip_bit n k (a ++ b) = flip_bit n k a ++ b.
Proof. intros H. unfold flip_bit. now apply alter_app_l. Qed.

(** C4. Every append lays down a frame of chunks; when one bit of one
    payload byte of one of these chunks is flipped on disk, the scan that
    reaches the frame fails the checksum assertion: it returns no payload. *)
Theorem C4_bit_flip_fails_checksum o written index fn (s : bytes) :
  exists (lay : layout) r w',
    _write_data s (mkDataStore o (Some (FWrite written)) index fn) = Ok (r, w')
    /\ layout_payload lay = s
    /\ layout_fits (space_left_at (index + blen (padding index))) lay
    /\ written_bytes w'
       = written ++ padding index ++ chunks_bytes (layout_chunk_list lay)
    /\ forall (pre post : list (Z * bytes)) (dtype : Z) (c : bytes) (i k : nat)
              (rest : bytes) fn',
        layout_chunk_list lay = pre ++ (dtype, c) :: post ->
        (i < length c)%nat -> (k < 8)%nat ->
        scan_data
          (mkDataStore true
             (Some (FRead
                      (flip_bit (length (padding index ++ chunks_bytes pre) + (7 + i)) k
                         (padding index ++ chunks_bytes (layout_chunk_list lay))
                       ++ rest)))
             index fn')
        = Raise (AssertionError A_checksum).
Proof.
  destruct (write_data_spec o written index fn s) as (lay & Hpay & Hfits & Hrun).
  pose proof (space_left_at_range (index + blen (padding index))) as Hsp.
  assert (Hok : layout_ok lay) by (eapply layout_fits_ok; [|exact Hfits]; clia).
  exists lay. eexists _, _.
  split; [exact Hrun|]. split; [exact Hpay|]. split; [exact Hfits|].
  split; [cbn [written_bytes _fp]; now rewrite layout_bytes_chunks|].
  intros pre post dtype c i k rest fn' E Hi Hk.
  rewrite E, chunks_bytes_app, chunks_bytes_cons.
  rewrite !app_assoc, <- (app_assoc _ (chunk dtype c)).
  rewrite flip_bit_app_r.
  rewrite flip_bit_app_l
    by (pose proof (blen_chunk dtype c) as Hb; unfold blen in Hb; lia).
  rewrite <- !app_assoc.
  rewrite scan_data_skips_padding.
  now apply (scan_after_padding_flipped _ _ lay pre post).
Qed.

Lemma C4_bit_flip_fails_checksum_witness :
  exists c : bytes,
    (0 < length ["a"%byte])%nat /\ (3 < 8)%nat
    /\ c = flip_bit (7 + 0) 3 (chunk LEVELDBLOG_FULL ["a"%byte])
    /\ scan_data (mkDataStore true (Some (FRead c)) 7 None)
       = Raise (AssertionError A_checksum).
Proof.
  destruct (C4_bit_flip_fails_checksum false [] 7 None ["a"%byte])
    as (lay & r & w' & Hrun & Hpay & Hfits & Hw & Hflip).
  assert (Hlay : lay = LFull ["a"%byte]).
  { apply layout_fits_full in Hfits; rewrite Hpay in *; [exact Hfits|].
    vm_compute. discriminate. }
  subst lay.
  eexists. split; [cbn; lia|]. split; [lia|]. split; [reflexivity|].
  specialize (Hflip [] [] LEVELDBLOG_FULL ["a"%byte] 0%nat 3%nat [] None eq_refl).
  cbn [length] in Hflip. specialize (Hflip ltac:(lia) ltac:(lia)).
  rewrite app_nil_r in Hflip. exact Hflip.
Defined.

Lemma open_for_write_inv (fname : string) (fs fs1 : filesystem) (w : DataStore) :
  open_for_write fname fs __init__ = Ok (w, fs1) ->
  fs !! fname = None
  /\ w = mkDataStore false (Some (FWrite file_header)) 7 (Some fname)
  /\ fs1 = <[fname := []]> fs.
Proof.
  unfold open_for_write. destruct (fs !! fname) as [content|]; [discriminate|].
  cbn [_opened_for_scan _index __init__]. rewrite write_header_ok.
  intros H. apply Ok_inj in H. injection H as <- <-. repeat split.
Qed.

(** C5. On a store opened for write, any run of appends succeeds: no chunk
    write meets a failed slice-fits assertion (nor any other failure of the
    store), whatever the payloads. *)
Theorem C5_append_never_fails (fname : string) (fs fs1 : filesystem)
        (w : DataStore) (payloads : list bytes) :
  open_for_write fname fs __init__ = Ok (w, fs1) ->
  exists w', write_all payloads w = Ok (tt, w').
Proof.
  intros Hopen. apply open_for_write_inv in Hopen as (_ & -> & _).
  destruct (write_all_spec payloads false file_header 7 (Some fname))
    as (frames & index' & Hw & _).
  eexists. exact Hw.
Qed.

Lemma C5_append_never_fails_witness :
  exists w',
    write_all [["a"%byte]; []; ["b"; "c"]%byte]
      (mkDataStore false (Some (FWrite file_header)) 7 (Some "run.wandb"%string))
    = Ok (tt, w').
Proof.
  apply (C5_append_never_fails "run.wandb" ∅ (<["run.wandb"%string := []]> ∅)).
  apply open_for_write_fresh. apply lookup_empty.
Defined.

(** C9, at an input where the program departs from it: a directory with a
    log file that holds the record [b"a"]. Opening the file for append cuts
    it to length zero, so the prior record is lost; after appending [b"b"]
    and closing, the file has no file header and cannot be opened for scan.
    Opening the existing file for write does fail, as the specification says. *)
Theorem C9_open_for_append_truncates :
  exists w fs1 r w' rd,
    open_for_scan "run.wandb" one_record_fs __init__ = Ok rd
    /\ scan_n 2 rd
       = Ok ([Some ["a"%byte]; None],
             mkDataStore true (Some (FRead [])) 15 (Some "run.wandb"%string))
    /\ open_for_append "run.wandb" one_record_fs __init__ = Ok (w, fs1)
    /\ fs1 !! "run.wandb"%string = Some []
    /\ _write_data ["b"%byte] w = Ok (r, w')
    /\ close fs1 w' !! "run.wandb"%string = Some (chunk LEVELDBLOG_FULL ["b"%byte])
    /\ open_for_scan "run.wandb" (close fs1 w') __init__ = Raise InvalidHeader
    /\ open_for_write "run.wandb" one_record_fs __init__ = Raise FileExistsError.
Proof.
  eexists _, _, _, _, _.
  split; [vm_compute; reflexivity|].
  split; [vm_compute; reflexivity|].
  split; [reflexivity|].
  split; [apply lookup_insert_eq|].
  split; [vm_compute; reflexivity|].
  split; [vm_compute; reflexivity|].
  split; vm_compute; reflexivity.
Qed.

(** C10. A file that ends after the FIRST chunk of a split record, or after
    the FIRST chunk and some MIDDLE chunks, scans as end-of-stream: the
    scan answers None, the payload read so far is dropped and nothing is
    raised. *)
Theorem C10_truncated_split_record_is_end_of_stream
        index fn (f : bytes) (ms : list bytes) :
  blen f < 65536 ->
  Forall (fun m => blen m < 65536) ms ->
  scan_data
    (mkDataStore true
       (Some (FRead (padding index ++ chunk LEVELDBLOG_FIRST f ++ middles_bytes ms)))
       index fn)
  = Ok (None,
        mkDataStore true (Some (FRead []))
          (index + blen (padding index) + blen (chunk LEVELDBLOG_FIRST f)
           + blen (middles_bytes ms)) fn).
Proof.
  intros Hf Hms.
  rewrite scan_data_skips_padding. unfold scan_data_after_padding.
  erewrite bind_Ok by (apply scan_record_chunk; clia).
  cbn [Z.eqb LEVELDBLOG_FULL LEVELDBLOG_FIRST Pos.eqb assert].
  erewrite bind_Ok by reflexivity.
  rewrite scan_data_loop_truncated; [|exact Hms|].
  - rewrite blen_chunk. do 3 f_equal. lia.
  - unfold unread_len. cbn [_fp]. pose proof (length_middles_bytes ms). lia.
Qed.

Lemma C10_truncated_split_record_is_end_of_stream_witness :
  blen ["a"; "b"]%byte < 65536
  /\ Forall (fun m => blen m < 65536) [["c"%byte]]
  /\ scan_data
       (mkDataStore true
          (Some (FRead (chunk LEVELDBLOG_FIRST ["a"; "b"]%byte
                        ++ chunk LEVELDBLOG_MIDDLE ["c"%byte])))
          7 None)
     = Ok (None, mkDataStore true (Some (FRead [])) 24 None).
Proof.
  assert (Hf : blen ["a"; "b"]%byte < 65536) by (vm_compute; reflexivity).
  assert (Hms : Forall (fun m => blen m < 65536) [["c"%byte]])
    by (repeat constructor).
  split; [exact Hf|]. split; [exact Hms|].
  exact (C10_truncated_split_record_is_end_of_stream 7 None
           ["a"; "b"]%byte [["c"%byte]] Hf Hms).
Defined.

(** ** The record router *)

Lemma dispatch_record_queues (r : Record_) (always_send : bool) (hm : HandleManager) :
  _writer_q (_dispatch_record r always_send hm)
  = _writer_q hm ++ (if local (control r) then [] else [r])
  /\ _sender_q (_dispatch_record r always_send hm)
     = _sender_q hm
       ++ (if negb (_offline (h_settings hm)) || always_send then [r] else []).
Proof.
  unfold _dispatch_record.
  destruct (negb (_offline (h_settings hm)) || always_send), (local (control r));
    cbn; rewrite ?app_nil_r; split; reflexivity.
Qed.

(** C6, as the specification words it, fails: a record whose [control.local] flag is set, handled
    under the default policy while the run is online, goes to the sender
    queue and not to the writer queue. *)
Lemma C6_local_record_is_not_written :
  In handle_stats default_handlers
  /\ _writer_q (handle_stats local_stats_record online_handler) = []
  /\ _sender_q (handle_stats local_stats_record online_handler) = [local_stats_record].
Proof. cbn. repeat split. right. right. left. reflexivity. Qed.

(** C6, amended. Under the default policy a record is put on the writer
    queue unless its [control.local] flag is set, and on the sender queue
    exactly when the run is not offline. *)
Theorem C6_default_routing :
  Forall (fun handler =>
            forall (r : Record_) (hm : HandleManager),
              _writer_q (handler r hm)
              = _writer_q hm ++ (if local (control r) then [] else [r])
              /\ _sender_q (handler r hm)
                 = _sender_q hm ++ (if _offline (h_settings hm) then [] else [r]))
         default_handlers.
Proof.
  unfold default_handlers.
  repeat (apply Forall_cons; split;
          [intros r hm; destruct (dispatch_record_queues r false hm) as [Hw Hs];
           split; [exact Hw|];
           (etransitivity; [exact Hs|]);
           destruct (_offline (h_settings hm)); reflexivity|]).
  apply Forall_nil. trivial.
Qed.

Section HandlerProperties.

Variable json_loads : string -> option json.
Variable json_dumps : json -> string.

Lemma set_path_idempotent (props : list string) (leaf : string) (v : json) :
  forall target target1 : gmap string json,
    set_path props leaf v target = Ok target1 ->
    set_path props leaf v target1 = Ok target1.
Proof.
  induction props as [|prop props IH]; intros target target1 H; cbn [set_path] in *.
  - apply Ok_inj in H. subst target1. now rewrite insert_insert_eq.
  - destruct (target !! prop) as [[| | | | |sub]|] eqn:E; try discriminate.
    destruct (set_path props leaf v sub) as [sub1| |] eqn:Es; try discriminate.
    apply Ok_inj in H. subst target1.
    rewrite lookup_insert_eq, (IH _ _ Es), insert_insert_eq. reflexivity.
Qed.

Lemma walk_after_set_path (props : list string) (leaf : string) (v : json) :
  forall target target1 : gmap string json,
    set_path props leaf v target = Ok target1 ->
    exists reached, walk props (JDict target1) = Ok reached.
Proof.
  induction props as [|prop props IH]; intros target target1 H; cbn [set_path walk] in *.
  - eexists. reflexivity.
  - destruct (target !! prop) as [[| | | | |sub]|] eqn:E; try discriminate.
    destruct (set_path props leaf v sub) as [sub1| |] eqn:Es; try discriminate.
    apply Ok_inj in H. subst target1.
    rewrite lookup_insert_eq. exact (IH _ _ Es).
Qed.

Lemma del_path_after_set_path (props : list string) (leaf : string) (v : json) :
  forall target target1 : gmap string json,
    set_path props leaf v target = Ok target1 ->
    exists target2,
      del_path props leaf target1 = Ok target2
      /\ lookup_path (props ++ [leaf]) (JDict target2) = None.
Proof.
  induction props as [|prop props IH]; intros target target1 H;
    cbn [set_path del_path] in *.
  - apply Ok_inj in H. subst target1.
    rewrite lookup_insert_eq. eexists. split; [reflexivity|].
    cbn [app lookup_path]. now rewrite lookup_delete_eq.
  - destruct (target !! prop) as [[| | | | |sub]|] eqn:E; try discriminate.
    destruct (set_path props leaf v sub) as [sub1| |] eqn:Es; try discriminate.
    apply Ok_inj in H. subst target1.
    destruct (IH _ _ Es) as (sub2 & Hdel & Habsent).
    rewrite lookup_insert_eq, Hdel. eexists. split; [reflexivity|].
    cbn [app lookup_path]. rewrite lookup_insert_eq. exact Habsent.
Qed.

Lemma summary_update_idempotent (item : SummaryItem) (target target1 : gmap string json) :
  summary_update json_loads item target = Ok target1 ->
  summary_update json_loads item target1 = Ok target1.
Proof.
  unfold summary_update.
  destruct (item_key item) as [[props leaf]| |]; try discriminate.
  destruct (walk props (JDict target)) as [reached| |]; try discriminate.
  destruct (loads json_loads (value_json item)) as [v| |]; try discriminate.
  intros H. destruct (walk_after_set_path _ _ _ _ _ H) as [reached1 ->].
  now apply (set_path_idempotent props leaf v target).
Qed.

Lemma summary_remove_after_update (item : SummaryItem)
      (target target1 : gmap string json) :
  summary_update json_loads item target = Ok target1 ->
  exists target2 props leaf,
    item_key item = Ok (props, leaf)
    /\ summary_remove item target1 = Ok target2
    /\ lookup_path (props ++ [leaf]) (JDict target2) = None.
Proof.
  unfold summary_update, summary_remove.
  destruct (item_key item) as [[props leaf]| |]; try discriminate.
  destruct (walk props (JDict target)) as [reached| |]; try discriminate.
  destruct (loads json_loads (value_json item)) as [v| |]; try discriminate.
  intros H. destruct (del_path_after_set_path _ _ _ _ _ H) as (target2 & Hdel & Habs).
  exists target2, props, leaf. repeat split; assumption.
Qed.

Lemma save_summary_keeps_summary (d : gmap string json) (flush : bool)
      (hm : HandleManager) :
  _consolidated_summary (_save_summary json_dumps d flush hm)
  = _consolidated_summary hm.
Proof.
  unfold _save_summary, _dispatch_record.
  destruct flush, (_offline (h_settings hm)); reflexivity.
Qed.

Lemma handle_summary_one_update (item : SummaryItem) (hm hm1 : HandleManager) :
  handle_summary json_loads json_dumps (mkSummaryRecord [item] []) hm = Ok hm1 ->
  summary_update json_loads item (_consolidated_summary hm)
  = Ok (_consolidated_summary hm1).
Proof.
  unfold handle_summary. cbn [update remove for_each].
  destruct (summary_update json_loads item (_consolidated_summary hm))
    as [d1| |]; try discriminate.
  intros H. apply Ok_inj in H. subst hm1.
  now rewrite save_summary_keeps_summary.
Qed.

(** C7. When a summary record with one update item has been handled, handling
    the same record again succeeds and leaves the consolidated summary as it
    is; and handling a record that removes the same key or key path succeeds
    and leaves that key path absent from the consolidated summary. *)
Theorem C7_summary_update_idempotent_then_remove
        (item : SummaryItem) (hm hm1 : HandleManager) :
  handle_summary json_loads json_dumps (mkSummaryRecord [item] []) hm = Ok hm1 ->
  (exists hm2,
      handle_summary json_loads json_dumps (mkSummaryRecord [item] []) hm1 = Ok hm2
      /\ _consolidated_summary hm2 = _consolidated_summary hm1)
  /\ (exists hm3 props leaf,
         item_key item = Ok (props, leaf)
         /\ handle_summary json_loads json_dumps (mkSummaryRecord [] [item]) hm1 = Ok hm3
         /\ lookup_path (props ++ [leaf]) (JDict (_consolidated_summary hm3)) = None).
Proof.
  intros H. apply handle_summary_one_update in H.
  split.
  - apply summary_update_idempotent in H.
    unfold handle_summary. cbn [update remove for_each]. rewrite H.
    eexists. split; [reflexivity|].
    now rewrite save_summary_keeps_summary.
  - destruct (summary_remove_after_update _ _ _ H)
      as (target2 & props & leaf & Hkey & Hrem & Habs).
    unfold handle_summary. cbn [update remove for_each]. rewrite Hrem.
    eexists _, props, leaf. split; [exact Hkey|]. split; [reflexivity|].
    now rewrite save_summary_keeps_summary.
Qed.

End HandlerProperties.

Lemma C7_summary_update_idempotent_then_remove_witness :
  exists hm1,
    handle_summary example_json_loads (fun _ => ""%string)
      (mkSummaryRecord [example_item] []) example_handler = Ok hm1
    /\ lookup_path ["train"; "loss"]%string (JDict (_consolidated_summary hm1))
       = Some (JNum 1)
    /\ (exists hm2,
          handle_summary example_json_loads (fun _ => ""%string)
            (mkSummaryRecord [example_item] []) hm1 = Ok hm2
          /\ _consolidated_summary hm2 = _consolidated_summary hm1)
    /\ (exists hm3 props leaf,
          item_key example_item = Ok (props, leaf)
          /\ handle_summary example_json_loads (fun _ => ""%string)
               (mkSummaryRecord [] [example_item]) hm1 = Ok hm3
          /\ lookup_path (props ++ [leaf]) (JDict (_consolidated_summary hm3)) = None).
Proof.
  eexists. split; [vm_compute; reflexivity|]. split; [vm_compute; reflexivity|].
  apply (C7_summary_update_idempotent_then_remove example_json_loads
           (fun _ => ""%string) example_item example_handler).
  vm_compute. reflexivity.
Defined.

(** ** The defer state machine of the sender *)

Lemma published_defers_app (a b : list sender_call) :
  published_defers (a ++ b) = published_defers a ++ published_defers b.
Proof. unfold published_defers. apply omap_app. Qed.

Lemma exit_results_app (a b : list Result) :
  exit_results (a ++ b) = exit_results a ++ exit_results b.
Proof. unfold exit_results. apply omap_app. Qed.

(** Before END: the local action of the phase, then one defer request at
    the next state; nothing is delivered. *)
Lemma send_request_defer_advances (data : Record_) (sm : SendManager) :
  DeferState.BEGIN <= defer_state data < DeferState.END ->
  exists sm' actions,
    send_request_defer data sm = Ok sm'
    /\ s_calls sm' = s_calls sm ++ actions ++ [publish_defer (defer_state data + 1)]
    /\ published_defers actions = []
    /\ _result_q sm' = _result_q sm
    /\ _exit_result sm' = _exit_result sm
    /\ _exit_sync_uuid sm' = _exit_sync_uuid sm.
Proof.
  unfold DeferState.BEGIN, DeferState.END. intros Hs.
  assert (E : defer_state data = 0 \/ defer_state data = 1 \/ defer_state data = 2
              \/ defer_state data = 3 \/ defer_state data = 4 \/ defer_state data = 5
              \/ defer_state data = 6 \/ defer_state data = 7) by lia.
  unfold send_request_defer.
  destruct E as [E|[E|[E|[E|[E|[E|[E|E]]]]]]]; rewrite E; cbn [Z.eqb Pos.eqb
    DeferState.BEGIN DeferState.FLUSH_STATS DeferState.FLUSH_TB DeferState.FLUSH_SUM
    DeferState.FLUSH_DIR DeferState.FLUSH_FP DeferState.FLUSH_FS
    DeferState.FLUSH_FINAL DeferState.END].
  1-4: exists (s_call (publish_defer (defer_state data + 1)) sm), [];
       rewrite E; repeat split.
  - destruct (_dir_watcher sm);
      [eexists _, [dir_watcher_finish] | eexists _, []];
      (split; [reflexivity|]); cbn; rewrite <- ?app_assoc; repeat split.
  - destruct (_pusher sm);
      [eexists _, [pusher_finish] | eexists _, []];
      (split; [reflexivity|]); cbn; rewrite <- ?app_assoc; repeat split.
  - destruct (_fs sm);
      [eexists _, [fs_finish (_exit_code sm)] | eexists _, []];
      (split; [reflexivity|]); cbn; rewrite <- ?app_assoc; repeat split.
  - eexists _, [publish_final; publish_footer].
    (split; [reflexivity|]); cbn; rewrite <- ?app_assoc; repeat split.
Qed.

(** At END: no defer request is published; the exit result is put on the
    result queue when a correlation id is stored, and is kept for polling
    in every case. *)
Lemma send_request_defer_ends (data : Record_) (sm : SendManager) :
  defer_state data = DeferState.END ->
  exists sm' actions,
    send_request_defer data sm = Ok sm'
    /\ s_calls sm' = s_calls sm ++ actions
    /\ published_defers actions = []
    /\ _result_q sm'
       = _result_q sm ++ map (Result_exit mkRunExitResult) (exit_delivery sm)
    /\ _exit_result sm' = Some mkRunExitResult
    /\ _exit_sync_uuid sm' = _exit_sync_uuid sm.
Proof.
  intros E. unfold send_request_defer, exit_delivery. rewrite E.
  cbn [Z.eqb Pos.eqb
    DeferState.BEGIN DeferState.FLUSH_STATS DeferState.FLUSH_TB DeferState.FLUSH_SUM
    DeferState.FLUSH_DIR DeferState.FLUSH_FP DeferState.FLUSH_FS
    DeferState.FLUSH_FINAL DeferState.END].
  destruct (_exit_sync_uuid sm) as [u|] eqn:Eu; [destruct (str_truthy u) eqn:Et|];
    [destruct (_pusher sm);
       [eexists _, [pusher_print_status; pusher_join] | eexists _, []]
    | eexists _, [] | eexists _, []];
    (split; [reflexivity|]);
    cbn; rewrite <- ?app_assoc, ?app_nil_r, ?Eu; repeat split.
Qed.

Lemma send_request_defers_spec (states : list Z) :
  forall sm : SendManager,
    Forall (fun s => DeferState.BEGIN <= s <= DeferState.END) states ->
    exists sm',
      send_request_defers (map defer_request states) sm = Ok sm'
      /\ published_defers (s_calls sm')
         = published_defers (s_calls sm)
           ++ map Z.succ (List.filter (fun s => negb (is_END s)) states)
      /\ _result_q sm'
         = _result_q sm
           ++ map (Result_exit mkRunExitResult)
                (concat (map (fun _ => exit_delivery sm) (List.filter is_END states)))
      /\ _exit_sync_uuid sm' = _exit_sync_uuid sm.
Proof.
  induction states as [|s states IH]; intros sm Hv.
  - exists sm. cbn. rewrite !app_nil_r. repeat split.
  - inversion Hv as [|? ? Hs Hv']; subst.
    cbn [map send_request_defers List.filter].
    destruct (is_END s) eqn:Eend; cbn [negb].
    + apply Z.eqb_eq in Eend.
      destruct (send_request_defer_ends (defer_request s) sm Eend)
        as (sm1 & actions & Hrun & Hcalls & Hnone & Hq & _ & Hu).
      rewrite Hrun. destruct (IH sm1 Hv') as (sm' & Hrun' & Hpub & Hq' & Hu').
      exists sm'. split; [exact Hrun'|].
      assert (Hd : exit_delivery sm1 = exit_delivery sm)
        by (unfold exit_delivery; now rewrite Hu).
      rewrite Hpub, Hq', Hu', Hcalls, published_defers_app, Hnone, app_nil_r, Hq, Hd.
      cbn [map concat]. rewrite map_app, <- app_assoc. repeat split; exact Hu.
    + apply Z.eqb_neq in Eend. unfold DeferState.END in *.
      destruct (send_request_defer_advances (defer_request s) sm)
        as (sm1 & actions & Hrun & Hcalls & Hnone & Hq & _ & Hu);
        [cbn [defer_state defer_request record]; unfold DeferState.END; lia|].
      rewrite Hrun. destruct (IH sm1 Hv') as (sm' & Hrun' & Hpub & Hq' & Hu').
      exists sm'. split; [exact Hrun'|].
      assert (Hd : exit_delivery sm1 = exit_delivery sm)
        by (unfold exit_delivery; now rewrite Hu).
      rewrite Hpub, Hq', Hu', Hcalls, !published_defers_app, Hnone, Hq, Hd.
      cbn [map app published_defers omap defer_state defer_request record].
      rewrite <- app_assoc. repeat split; exact Hu.
Qed.

Lemma run_defer_step (fuel : nat) (state : Z) (queue : list Z)
      (sm sm1 : SendManager) (new : list sender_call) :
  send_request_defer (defer_request state) sm = Ok sm1 ->
  s_calls sm1 = s_calls sm ++ new ->
  run_defer (S fuel) (state :: queue) sm
  = run_defer fuel (queue ++ published_defers new) sm1.
Proof.
  intros H Hc. cbn [run_defer]. rewrite H, Hc, drop_app_length. reflexivity.
Qed.

Lemma run_defer_from (n : nat) :
  forall (state : Z) (sm : SendManager),
    DeferState.BEGIN <= state ->
    state = DeferState.END - Z.of_nat n ->
    exists sm',
      run_defer (S n) [state] sm = Ok sm'
      /\ published_defers (s_calls sm')
         = published_defers (s_calls sm) ++ seqZ (state + 1) (Z.of_nat n)
      /\ _result_q sm'
         = _result_q sm ++ map (Result_exit mkRunExitResult) (exit_delivery sm)
      /\ _exit_result sm' = Some mkRunExitResult.
Proof.
  induction n as [|n IH]; intros state sm Hb Hs.
  - cbn [Z.of_nat] in Hs. rewrite Z.sub_0_r in Hs.
    destruct (send_request_defer_ends (defer_request state) sm Hs)
      as (sm1 & actions & Hrun & Hcalls & Hnone & Hq & Hres & Hu).
    rewrite (run_defer_step _ _ _ _ _ _ Hrun Hcalls), Hnone.
    cbn [app run_defer]. exists sm1.
    rewrite Hcalls, published_defers_app, Hnone. cbn [Z.of_nat].
    rewrite seqZ_nil by lia.
    repeat split; assumption.
  - destruct (send_request_defer_advances (defer_request state) sm)
      as (sm1 & actions & Hrun & Hcalls & Hnone & Hq & _ & Hu);
      [cbn [defer_state defer_request record]; lia|].
    cbn [defer_state defer_request record] in Hcalls.
    rewrite (run_defer_step _ _ _ _ _ _ Hrun Hcalls).
    rewrite published_defers_app, Hnone. cbn [app published_defers omap].
    destruct (IH (state + 1) sm1) as (sm' & Hrun' & Hpub & Hq' & Hres); [lia..|].
    exists sm'. split; [exact Hrun'|].
    assert (Hd : exit_delivery sm1 = exit_delivery sm)
      by (unfold exit_delivery; now rewrite Hu).
    rewrite Hpub, Hq', Hq, Hcalls, !published_defers_app, Hnone, Hd.
    cbn [app published_defers omap].
    rewrite (seqZ_cons (state + 1) (Z.of_nat (S n))) by lia.
    replace (Z.pred (Z.of_nat (S n))) with (Z.of_nat n) by lia.
    replace (Z.succ (state + 1)) with (state + 1 + 1) by lia.
    rewrite <- app_assoc. repeat split. exact Hres.
Qed.

Lemma handle_request_defer_forwards (json_dumps : json -> string)
      (r : Record_) (hm : HandleManager) :
  exists before : list Record_,
    _sender_q (handle_request_defer json_dumps r hm) = _sender_q hm ++ before ++ [r].
Proof.
  unfold handle_request_defer.
  destruct (defer_state r =? DeferState.FLUSH_STATS);
    [|destruct (defer_state r =? DeferState.FLUSH_TB);
      [|destruct (defer_state r =? DeferState.FLUSH_SUM)]].
  - exists []. destruct (_system_stats hm);
      rewrite (proj2 (dispatch_record_queues _ _ _)), orb_true_r; reflexivity.
  - exists []. destruct (_tb_watcher hm);
      rewrite (proj2 (dispatch_record_queues _ _ _)), orb_true_r; reflexivity.
  - rewrite (proj2 (dispatch_record_queues _ _ _)), orb_true_r.
    unfold _save_summary.
    rewrite (proj2 (dispatch_record_queues _ _ _)), orb_false_r.
    eexists. rewrite <- app_assoc. reflexivity.
  - exists []. rewrite (proj2 (dispatch_record_queues _ _ _)), orb_true_r.
    reflexivity.
Qed.

(** C2, as the specification words it, fails: a defer request at END that is delivered twice
    delivers the exit result twice. *)
Lemma C2_end_request_delivered_twice :
  exists sm',
    send_request_defers
      [defer_request DeferState.END; defer_request DeferState.END] exiting_sender
    = Ok sm'
    /\ _exit_sync_uuid exiting_sender = Some "exit-1"%string
    /\ exit_results (_result_q exiting_sender) = []
    /\ exit_results (_result_q sm') = ["exit-1"; "exit-1"]%string.
Proof. eexists. repeat split. Qed.

(** C2, amended. The sender handles each defer request on its own, with no
    memory of earlier ones.
    - A request at a state before END: the local action of the phase, then
      one defer request published at the next state; no exit result.
    - A request at END: nothing published; the exit result is put on the
      result queue when a correlation id was stored, and kept for polling
      in every case.
    - The handler sends every defer request on to the sender.
    - So, from one request at BEGIN with every published request handled
      once, the states up to END are published in order, once each, and the
      exit result is delivered once.
    - And for any requests, in any order and number: one request published
      per request before END, one delivery per request at END. *)
Theorem C2_defer_state_machine :
  (forall (data : Record_) (sm : SendManager),
      DeferState.BEGIN <= defer_state data < DeferState.END ->
      exists sm' actions,
        send_request_defer data sm = Ok sm'
        /\ s_calls sm' = s_calls sm ++ actions ++ [publish_defer (defer_state data + 1)]
        /\ published_defers actions = []
        /\ _result_q sm' = _result_q sm
        /\ _exit_result sm' = _exit_result sm)
  /\ (forall (data : Record_) (sm : SendManager),
         defer_state data = DeferState.END ->
         exists sm',
           send_request_defer data sm = Ok sm'
           /\ published_defers (s_calls sm') = published_defers (s_calls sm)
           /\ _result_q sm'
              = _result_q sm ++ map (Result_exit mkRunExitResult) (exit_delivery sm)
           /\ _exit_result sm' = Some mkRunExitResult)
  /\ (forall (json_dumps : json -> string) (r : Record_) (hm : HandleManager),
         exists before,
           _sender_q (handle_request_defer json_dumps r hm)
           = _sender_q hm ++ before ++ [r])
  /\ (forall sm : SendManager,
         exists sm',
           run_defer 9 [DeferState.BEGIN] sm = Ok sm'
           /\ published_defers (s_calls sm')
              = published_defers (s_calls sm)
                ++ [DeferState.FLUSH_STATS; DeferState.FLUSH_TB; DeferState.FLUSH_SUM;
                    DeferState.FLUSH_DIR; DeferState.FLUSH_FP; DeferState.FLUSH_FS;
                    DeferState.FLUSH_FINAL; DeferState.END]
           /\ _result_q sm'
              = _result_q sm ++ map (Result_exit mkRunExitResult) (exit_delivery sm)
           /\ _exit_result sm' = Some mkRunExitResult)
  /\ (forall (states : list Z) (sm : SendManager),
         Forall (fun s => DeferState.BEGIN <= s <= DeferState.END) states ->
         exists sm',
           send_request_defers (map defer_request states) sm = Ok sm'
           /\ published_defers (s_calls sm')
              = published_defers (s_calls sm)
                ++ map Z.succ (List.filter (fun s => negb (is_END s)) states)
           /\ _result_q sm'
              = _result_q sm
                ++ map (Result_exit mkRunExitResult)
                     (concat (map (fun _ => exit_delivery sm)
                                  (List.filter is_END states)))).
Proof.
  split; [|split; [|split; [|split]]].
  - intros data sm Hs.
    destruct (send_request_defer_advances data sm Hs)
      as (sm' & actions & H1 & H2 & H3 & H4 & H5 & _).
    exists sm', actions. repeat split; assumption.
  - intros data sm Hs.
    destruct (send_request_defer_ends data sm Hs)
      as (sm' & actions & H1 & H2 & H3 & H4 & H5 & _).
    exists sm'. rewrite H2, published_defers_app, H3, app_nil_r.
    repeat split; assumption.
  - apply handle_request_defer_forwards.
  - intros sm.
    destruct (run_defer_from 8 DeferState.BEGIN sm) as (sm' & H1 & H2 & H3 & H4);
      [reflexivity..|].
    exists sm'. repeat split; assumption.
  - intros states sm Hv.
    destruct (send_request_defers_spec states sm Hv) as (sm' & H1 & H2 & H3 & _).
    exists sm'. repeat split; assumption.
Qed.

Lemma C2_defer_state_machine_witness :
  exists sm',
    send_request_defers
      (map defer_request [DeferState.BEGIN; DeferState.END; DeferState.FLUSH_DIR])
      exiting_sender
    = Ok sm'
    /\ published_defers (s_calls sm')
       = [DeferState.BEGIN; DeferState.FLUSH_STATS; DeferState.FLUSH_FP]
    /\ exit_results (_result_q sm') = ["exit-1"%string].
Proof.
  destruct C2_defer_state_machine as (_ & _ & _ & _ & H).
  destruct (H [DeferState.BEGIN; DeferState.END; DeferState.FLUSH_DIR] exiting_sender)
    as (sm' & H1 & H2 & H3).
  { repeat constructor; vm_compute; discriminate. }
  exists sm'. split; [exact H1|]. rewrite H2, H3. split; reflexivity.
Defined.

(** ** Run initialisation and resume *)

Section SenderProperties.

Variable json_loads : string -> option json.
Variable api_run_resume_status :
  option string -> string -> string -> option ResumeStatus.
Variable api_upsert_run : string -> option (gmap string json) -> ServerRun.
Variable dict_from_proto_list : list ConfigItem -> outcome (gmap string json).
Variable auto_project_name : string -> string.
Variable _make_config : option (gmap string json) -> list ConfigItem.
Variable _make_summary_from_dict : json -> list SummaryItem.
Variable py_max : json -> json -> outcome json.
Variable py_sub : Z -> json -> outcome Z.

Lemma py_last_snoc (pre : list json) (x : json) : py_last (JList (pre ++ [x])) = Ok x.
Proof.
  unfold py_last. rewrite map_app. cbn [map]. now rewrite last_last.
Qed.

Lemma truthy_snoc (pre : list json) (x : json) : truthy (JList (pre ++ [x])) = true.
Proof.
  unfold truthy. rewrite length_app. cbn [length].
  destruct (length pre + 1)%nat eqn:E; [lia|reflexivity].
Qed.

Lemma load_tail_parses (tail : string) (last_entry : option (gmap string json))
      (x0 : json) :
  tail_parses json_loads tail last_entry ->
  load_tail json_loads tail x0 (JNum 0)
  = (match last_entry with Some d => JDict d | None => JList [] end,
     runtime_of last_entry, None).
Proof.
  unfold tail_parses, load_tail, loads, runtime_of.
  destruct last_entry as [d|].
  - intros (pre & line & -> & Hline).
    rewrite truthy_snoc, py_last_snoc. cbn [loads_value]. unfold loads.
    rewrite Hline. reflexivity.
  - intros ->. reflexivity.
Qed.

Lemma load_resume_tails_parses (rs : ResumeStatus)
      (h : gmap string json) (e : option (gmap string json))
      (resumed_config : gmap string json) (resumed_summary : json) :
  tail_parses json_loads (historyTail rs) (Some h) ->
  tail_parses json_loads (eventsTail rs) e ->
  json_loads (or_empty_object (rs_config rs)) = Some (JDict resumed_config) ->
  json_loads (or_empty_object (summaryMetrics rs)) = Some resumed_summary ->
  load_resume_tails json_loads rs
  = (mkResumeLocals (JDict h)
       (match e with Some d => JDict d | None => JList [] end)
       (JDict resumed_config) resumed_summary (runtime_of e) (runtime_of (Some h)),
     None).
Proof.
  intros Hh He Hc Hs. unfold load_resume_tails.
  rewrite (load_tail_parses _ _ _ Hh), (load_tail_parses _ _ _ He).
  unfold loads. rewrite Hc, Hs. reflexivity.
Qed.

Lemma truthy_dict_with_key (d : gmap string json) (k : string) (v : json) :
  d !! k = Some v -> truthy (JDict d) = true.
Proof.
  intros H. unfold truthy. apply negb_true_iff, bool_decide_eq_false.
  intros ->. rewrite lookup_empty in H. discriminate.
Qed.

Lemma dict_or_None_override (d : gmap string json) :
  match dict_or_None (Some d) with
  | Some d' => d'
  | None => ∅
  end = d.
Proof.
  unfold dict_or_None. destruct (bool_decide (d = ∅)) eqn:E; [|reflexivity].
  apply bool_decide_eq_true in E. now subst.
Qed.

Lemma _init_run_result (run : RunRecord) (config_dict : option (gmap string json))
      (sm : SendManager) (t : Z) :
  py_sub (start_time run) (rs_runtime (_resume_state sm)) = Ok t ->
  exists sm' r,
    _init_run api_upsert_run _make_config _make_summary_from_dict py_sub
      run config_dict sm = Ok sm'
    /\ _run sm' = Some r
    /\ starting_step r = rs_step (_resume_state sm)
    /\ (rs_resumed (_resume_state sm) = true -> resumed r = true)
    /\ s_calls sm' = s_calls sm ++ [upsert_run (run_id run) (dict_or_None config_dict)]
    /\ _result_q sm' = _result_q sm.
Proof.
  intros Ht. unfold _init_run. rewrite Ht.
  destruct (sr_project (api_upsert_run (run_id run) (dict_or_None config_dict)))
    as [[pn en]|] eqn:Ep.
  - destruct (str_truthy pn), (str_truthy en); eexists _, _;
      (split; [reflexivity|]); cbn; repeat split; intros ->; reflexivity.
  - eexists _, _. (split; [reflexivity|]); cbn; repeat split; intros ->; reflexivity.
Qed.

(** C8. The first run record of a run that resumes, when the backend knows
    the run and its tails, config and summary parse: the last entry of the
    history tail carries [_step = n], so the resume state gets step [n + 1]
    (16 for 15), and that is the starting step of the initialised run; the
    config passed to the run upsert is the resumed config updated with the
    config of the run record, so a key of the run record's config keeps the
    run record's value and any other key keeps the resumed value. *)
Theorem C8_resume_step_and_config
        (run : RunRecord) (ctl : Control) (id : string)
        (sm : SendManager) (rs : ResumeStatus)
        (h : gmap string json) (e : option (gmap string json)) (n : Z)
        (resumed_config config_override : gmap string json)
        (resumed_summary runtime : json) (cfg : list ConfigItem) (t : Z) :
  _run sm = None ->
  string_opt_truthy (resume (s_settings sm)) = true ->
  resume (s_settings sm) <> Some "never"%string ->
  api_run_resume_status
    (or_entity (entity run) (_entity sm))
    (if String.eqb (project run) "" then auto_project_name (program (s_settings sm))
     else project run)
    (run_id run) = Some rs ->
  tail_parses json_loads (historyTail rs) (Some h) ->
  h !! "_step"%string = Some (JNum n) ->
  tail_parses json_loads (eventsTail rs) e ->
  json_loads (or_empty_object (rs_config rs)) = Some (JDict resumed_config) ->
  json_loads (or_empty_object (summaryMetrics rs)) = Some resumed_summary ->
  config run = Some cfg ->
  dict_from_proto_list cfg = Ok config_override ->
  py_max (runtime_of e) (runtime_of (Some h)) = Ok runtime ->
  py_sub (start_time run) runtime = Ok t ->
  exists sm' r,
    send_run json_loads api_run_resume_status api_upsert_run dict_from_proto_list
      auto_project_name _make_config _make_summary_from_dict py_max py_sub
      (mkRecord (rt_run run) ctl id) sm = Ok sm'
    /\ rs_step (_resume_state sm') = n + 1
    /\ _run sm' = Some r
    /\ starting_step r = n + 1
    /\ resumed r = true
    /\ upsert_configs (drop (length (s_calls sm)) (s_calls sm'))
       = [dict_or_None (Some (config_override ∪ resumed_config))]
    /\ (forall k v, config_override !! k = Some v ->
                    (config_override ∪ resumed_config) !! k = Some v)
    /\ (forall k, config_override !! k = None ->
                  (config_override ∪ resumed_config) !! k = resumed_config !! k).
Proof.
  intros Hfirst Hres Hnever Hapi Hh Hstep He Hc Hs Hcfg Hdict Hmax Hsub.
  unfold send_run. cbn [run_of record control uuid].
  rewrite Hfirst, Hcfg, Hdict. cbn [is_None].
  set (run1 := if String.eqb (project run) "" then _ else run).
  assert (Hp1 : project run1
                = if String.eqb (project run) ""
                  then auto_project_name (program (s_settings sm)) else project run)
    by (unfold run1; destruct (String.eqb (project run) ""); reflexivity).
  assert (Hid1 : run_id run1 = run_id run)
    by (unfold run1; destruct (String.eqb (project run) ""); reflexivity).
  assert (He1 : entity run1 = entity run)
    by (unfold run1; destruct (String.eqb (project run) ""); reflexivity).
  assert (Hst1 : start_time run1 = start_time run)
    by (unfold run1; destruct (String.eqb (project run) ""); reflexivity).
  clearbody run1.
  unfold _maybe_setup_resume.
  cbn [s_settings s_call _entity]. rewrite Hres. cbn [negb].
  rewrite He1, Hp1, Hid1, Hapi.
  replace (bool_decide (resume (s_settings sm) = Some "never"%string)) with false
    by (symmetry; now apply bool_decide_eq_false).
  rewrite (load_resume_tails_parses rs h e resumed_config resumed_summary Hh He Hc Hs).
  unfold store_resume_state.
  cbn [l_events_rt l_history_rt l_history l_summary l_config].
  rewrite Hmax, (truthy_dict_with_key h "_step" (JNum n) Hstep).
  cbn [py_get]. rewrite Hstep. cbn [py_succ].
  cbn [_resume_state set_resume_state rs_resume_config].
  rewrite dict_or_None_override.
  set (merged := config_override ∪ resumed_config).
  match goal with
  | |- context [_init_run _ _ _ _ ?r ?c ?s] =>
      destruct (_init_run_result r c s t) as (sm2 & r2 & Hrun & Hr2 & Hss & Hrd & Hcalls & Hq)
  end.
  { cbn [_resume_state set_resume_state s_call rs_runtime]. now rewrite Hst1. }
  rewrite Hrun.
  cbn [_resume_state set_resume_state s_call rs_step rs_resumed s_calls] in Hss, Hrd, Hcalls.
  assert (Hrs2 : rs_step (_resume_state sm2) = n + 1).
  { clear - Hrun Hsub Hst1. unfold _init_run in Hrun.
    cbn [_resume_state set_resume_state s_call rs_runtime] in Hrun.
    rewrite Hst1, Hsub in Hrun. apply Ok_inj in Hrun. subst sm2.
    destruct (sr_project _) as [[pn en]|]; [destruct (str_truthy pn), (str_truthy en)|];
      reflexivity. }
  assert (Hfinal :
    forall sm3,
      _run sm3 = _run sm2 -> _resume_state sm3 = _resume_state sm2 ->
      s_calls sm3 = s_calls sm2 ->
      _run (_start_run_threads sm3) = Some r2
      /\ rs_step (_resume_state (_start_run_threads sm3)) = n + 1
      /\ upsert_configs (drop (length (s_calls sm)) (s_calls (_start_run_threads sm3)))
         = [dict_or_None (Some merged)]).
  { intros sm3 E1 E2 E3. cbn [_start_run_threads _run s_call set_dir_watcher set_pusher
      set_fs _resume_state s_calls].
    rewrite E1, E2, E3, Hcalls, Hr2, Hrs2.
    repeat split. rewrite <- !app_assoc, drop_app_length. reflexivity. }
  destruct (req_resp ctl).
  - rewrite Hr2.
    destruct (Hfinal (result_q_put (Result_run r2 None id) sm2))
      as (F1 & F2 & F3); [reflexivity..|].
    eexists _, r2. split; [reflexivity|].
    repeat split; try assumption.
    + apply Hrd. reflexivity.
    + intros k v Hk. now apply lookup_union_Some_l.
    + intros k Hk. now apply lookup_union_r.
  - destruct (Hfinal sm2) as (F1 & F2 & F3); [reflexivity..|].
    eexists _, r2. split; [reflexivity|].
    repeat split; try assumption.
    + apply Hrd. reflexivity.
    + intros k v Hk. now apply lookup_union_Some_l.
    + intros k Hk. now apply lookup_union_r.
Qed.

End SenderProperties.

Lemma C8_resume_step_and_config_witness :
  exists sm' r,
    example_send_run = Ok sm'
    /\ _run sm' = Some r
    /\ starting_step r = 16
    /\ upsert_configs (s_calls sm')
       = [Some (<[ "lr"%string := JNum 3 ]> {[ "epochs"%string := JNum 2 ]})].
Proof.
  destruct (C8_resume_step_and_config example_json_loads
              (fun _ _ _ => Some example_resume_status)
              (fun _ _ => mkServerRun "" "" "" None "")
              (fun _ => Ok example_override)
              (fun program => program)
              (fun _ => [])
              (fun _ => [])
              (fun a _ => Ok a)
              (fun seconds _ => Ok seconds)
              example_run (mkControl true false) "init-1"
              example_sender example_resume_status
              {[ "_step"%string := JNum 15 ]} None 15
              (<[ "lr"%string := JNum 1 ]> {[ "epochs"%string := JNum 2 ]})
              example_override (JDict ∅) (JNum 0)
              [mkConfigItem "lr" "3"] 100)
    as (sm' & r & Hrun & _ & Hr & Hstep & _ & Hup & _).
  - reflexivity.
  - reflexivity.
  - discriminate.
  - reflexivity.
  - exists [], "h15"%string. split; reflexivity.
  - reflexivity.
  - reflexivity.
  - reflexivity.
  - reflexivity.
  - reflexivity.
  - reflexivity.
  - reflexivity.
  - reflexivity.
  - exists sm', r. split; [exact Hrun|]. split; [exact Hr|]. split; [exact Hstep|].
    change (upsert_configs (s_calls sm'))
      with (upsert_configs (drop (length (s_calls example_sender)) (s_calls sm'))).
    rewrite Hup. vm_compute. reflexivity.
Defined.

(** ** More on the log store *)

(** Past the last chunk, with room for a chunk header in the block, every
    further scan reports the end of the stream and moves nothing. *)
Lemma scan_n_at_end index fn (k : nat) :
  LEVELDBLOG_HEADER_LEN <= space_left_at index ->
  scan_n k (mkDataStore true (Some (FRead [])) index fn)
  = Ok (replicate k None, mkDataStore true (Some (FRead [])) index fn).
Proof.
  intros H. induction k as [|k IH]; [reflexivity|].
  cbn [scan_n replicate].
  erewrite bind_Ok.
  2:{ rewrite scan_data_at_end.
      replace (_ <? _) with false by (symmetry; lia). reflexivity. }
  erewrite bind_Ok by exact IH. reflexivity.
Qed.

(** X1. Whatever payloads are appended to a fresh file, in whatever number
    and of whatever sizes, scanning the closed file returns them all, in
    order and unchanged; the scanner then stands where the writer stopped,
    with nothing left to read, and when a chunk header still fits in the
    block every further scan reports the end of the stream. *)
Theorem X1_appended_payloads_scan_back
        (fname : string) (fs : filesystem) (payloads : list bytes) :
  fs !! fname = None ->
  exists w fs1 w' rd rd',
    open_for_write fname fs __init__ = Ok (w, fs1)
    /\ write_all payloads w = Ok (tt, w')
    /\ open_for_scan fname (close fs1 w') __init__ = Ok rd
    /\ scan_n (length payloads) rd = Ok (map Some payloads, rd')
    /\ _index rd' = _index w'
    /\ unread_bytes rd' = []
    /\ (LEVELDBLOG_HEADER_LEN <= space_left_at (_index w') ->
        forall k : nat, scan_n k rd' = Ok (replicate k None, rd')).
Proof.
  intros Hfresh.
  destruct (write_all_spec payloads false file_header 7 (Some fname))
    as (frames & index' & Hw & Hs).
  eexists _, _, _, _, _.
  split; [now apply open_for_write_fresh|].
  split; [exact Hw|].
  split.
  { apply open_for_scan_written. unfold close. cbn [_fp _fname].
    apply lookup_insert_eq. }
  split.
  { rewrite <- (app_nil_r frames) at 1. apply Hs. }
  split; [reflexivity|].
  split; [reflexivity|].
  cbn [_index]. intros Hroom k. now apply scan_n_at_end.
Qed.

Lemma X1_appended_payloads_scan_back_witness :
  (∅ : filesystem) !! "run.wandb"%string = None
  /\ exists w fs1 w' rd rd',
      open_for_write "run.wandb" ∅ __init__ = Ok (w, fs1)
      /\ write_all [["a"%byte]; []; ["b"; "c"]%byte] w = Ok (tt, w')
      /\ open_for_scan "run.wandb" (close fs1 w') __init__ = Ok rd
      /\ scan_n 3 rd = Ok ([Some ["a"%byte]; Some []; Some ["b"; "c"]%byte], rd')
      /\ unread_bytes rd' = [].
Proof.
  assert (Hfresh : (∅ : filesystem) !! "run.wandb"%string = None) by reflexivity.
  split; [exact Hfresh|].
  destruct (X1_appended_payloads_scan_back "run.wandb" ∅
              [["a"%byte]; []; ["b"; "c"]%byte] Hfresh)
    as (w & fs1 & w' & rd & rd' & H1 & H2 & H3 & H4 & _ & H5 & _).
  exists w, fs1, w', rd, rd'. repeat split; assumption.
Defined.

(** Appends keep the index equal to the size of what was written. *)
Lemma write_all_size (payloads : list bytes) :
  forall o written index fn,
    index = blen written ->
    exists added : bytes,
      write_all payloads (mkDataStore o (Some (FWrite written)) index fn)
      = Ok (tt, mkDataStore o (Some (FWrite (written ++ added)))
                  (blen (written ++ added)) fn).
Proof.
  induction payloads as [|s rest IH]; intros o written index fn ->.
  - exists []. rewrite app_nil_r. reflexivity.
  - destruct (write_data_spec o written (blen written) fn s) as (lay & _ & _ & Hw).
    cbn [write_all]. erewrite bind_Ok by exact Hw.
    set (frame := padding (blen written) ++ layout_bytes lay).
    destruct (IH o (written ++ frame)
                (blen written + blen (padding (blen written)) + blen (layout_bytes lay))
                fn) as (added & Ha).
    { unfold frame. rewrite !blen_app. lia. }
    exists (frame ++ added). unfold frame in *.
    rewrite <- !app_assoc in *. exact Ha.
Qed.

(** X2. An append answers where the record lies in the file: the offset is
    the size of the file before the append, the length is the number of
    bytes the append added, and the bytes of that extent, scanned from that
    offset, give the payload back. The index stays equal to the file size. *)
Theorem X2_append_returns_extent
        (fname : string) (fs fs1 : filesystem) (w w1 : DataStore)
        (payloads : list bytes) (s : bytes) :
  open_for_write fname fs __init__ = Ok (w, fs1) ->
  write_all payloads w = Ok (tt, w1) ->
  exists (frame : bytes) (w2 : DataStore),
    _write_data s w1 = Ok ((blen (written_bytes w1), blen frame, 0, 0), w2)
    /\ written_bytes w2 = written_bytes w1 ++ frame
    /\ _index w2 = blen (written_bytes w2)
    /\ forall (rest : bytes) fn,
        scan_data (mkDataStore true (Some (FRead (frame ++ rest)))
                     (blen (written_bytes w1)) fn)
        = Ok (Some s, mkDataStore true (Some (FRead rest))
                        (blen (written_bytes w2)) fn).
Proof.
  intros Hopen Hall.
  apply open_for_write_inv in Hopen as (_ & -> & _).
  destruct (write_all_size payloads false file_header 7 (Some fname) eq_refl)
    as (added & Ha).
  rewrite Ha in Hall. apply Ok_inj in Hall.
  apply (f_equal snd) in Hall. cbn [snd] in Hall. subst w1.
  cbn [written_bytes _fp].
  set (written := file_header ++ added).
  destruct (write_data_spec false written (blen written) (Some fname) s)
    as (lay & Hpay & Hfits & Hw).
  eexists (padding (blen written) ++ layout_bytes lay), _.
  split; [rewrite Hw, blen_app; reflexivity|].
  cbn [written_bytes _fp _index].
  split; [reflexivity|].
  split; [rewrite !blen_app; lia|].
  intros rest fn. rewrite <- app_assoc, scan_data_frame.
  - rewrite Hpay, !blen_app. do 3 f_equal. lia.
  - apply (layout_fits_ok _ _ (proj2 (space_left_at_range _)) Hfits).
Qed.

Lemma X2_append_returns_extent_witness :
  exists (frame : bytes) (w2 : DataStore),
    _write_data ["b"%byte]
      (mkDataStore false
         (Some (FWrite (file_header ++ chunk LEVELDBLOG_FULL ["a"%byte]))) 15
         (Some "run.wandb"%string))
    = Ok ((15, blen frame, 0, 0), w2)
    /\ blen frame = 8
    /\ scan_data (mkDataStore true (Some (FRead frame)) 15 None)
       = Ok (Some ["b"%byte], mkDataStore true (Some (FRead [])) 23 None).
Proof.
  destruct (X2_append_returns_extent "run.wandb" ∅ (<["run.wandb"%string := []]> ∅)
              (mkDataStore false (Some (FWrite file_header)) 7 (Some "run.wandb"%string))
              (mkDataStore false
                 (Some (FWrite (file_header ++ chunk LEVELDBLOG_FULL ["a"%byte]))) 15
                 (Some "run.wandb"%string))
              [["a"%byte]] ["b"%byte])
    as (frame & w2 & Hw & Hb & Hi & Hs).
  - reflexivity.
  - reflexivity.
  - exists frame, w2. split; [exact Hw|].
    cbn [written_bytes _fp] in *.
    assert (Hf : frame = chunk LEVELDBLOG_FULL ["b"%byte]).
    { pose proof (write_data_full false
                    (file_header ++ chunk LEVELDBLOG_FULL ["a"%byte]) 15
                    (Some "run.wandb"%string) ["b"%byte]) as Hfull.
      rewrite Hfull in Hw by (vm_compute; discriminate).
      apply Ok_inj in Hw.
      apply (f_equal (fun p => written_bytes (snd p))) in Hw.
      cbn [snd written_bytes _fp] in Hw. rewrite Hb in Hw.
      apply app_inv_head in Hw. rewrite <- Hw. reflexivity. }
    subst frame. split; [reflexivity|].
    specialize (Hs [] None). rewrite app_nil_r, Hb in Hs. exact Hs.
Defined.

(** In a split layout, a chunk other than the FIRST one comes after whole
    blocks of MIDDLE chunks and is a full MIDDLE chunk or the LAST one. *)
Lemma split_chunks_sizes (ms : list bytes) (l : bytes)
      (pre post : list (Z * bytes)) (dtype : Z) (c : bytes) :
  Forall (fun m => blen m = LEVELDBLOG_DATA_LEN) ms ->
  map (pair LEVELDBLOG_MIDDLE) ms ++ [(LEVELDBLOG_LAST, l)] = pre ++ (dtype, c) :: post ->
  blen (chunks_bytes pre) = LEVELDBLOG_BLOCK_LEN * Z.of_nat (length pre)
  /\ (length pre <= length ms)%nat
  /\ (blen c = LEVELDBLOG_DATA_LEN \/ c = l).
Proof.
  revert pre. induction ms as [|m ms IH]; intros pre Hms E.
  - destruct pre as [|p pre].
    + cbn [map app] in E. injection E as E1 E2 E3. subst.
      split; [reflexivity|]. split; [reflexivity|]. now right.
    + cbn [map app] in E. injection E as E1 E2. destruct pre; discriminate.
  - inversion Hms as [|? ? Hm Hms']; subst.
    destruct pre as [|p pre].
    + cbn [map app] in E. injection E as E1 E2 E3. subst.
      split; [reflexivity|]. split; [cbn; lia|]. now left.
    + cbn [map app] in E. injection E as E1 E2. subst p.
      destruct (IH pre Hms' E2) as (Hb & Hn & Hc).
      rewrite chunks_bytes_cons, blen_app, blen_chunk, Hb, Hm.
      cbn [length]. split; [clia|]. split; [lia|exact Hc].
Qed.

(** X3. No chunk is written across a block boundary: wherever an append
    starts, every chunk it lays down, header included, lies inside one
    block of 32768 bytes. *)
Theorem X3_chunks_stay_inside_blocks o written index fn (s : bytes) :
  exists (lay : layout) r w',
    _write_data s (mkDataStore o (Some (FWrite written)) index fn) = Ok (r, w')
    /\ layout_payload lay = s
    /\ written_bytes w'
       = written ++ padding index ++ chunks_bytes (layout_chunk_list lay)
    /\ forall (pre post : list (Z * bytes)) (dtype : Z) (c : bytes),
        layout_chunk_list lay = pre ++ (dtype, c) :: post ->
        (index + blen (padding index) + blen (chunks_bytes pre)) mod LEVELDBLOG_BLOCK_LEN
        + blen (chunk dtype c) <= LEVELDBLOG_BLOCK_LEN.
Proof.
  destruct (write_data_spec o written index fn s) as (lay & Hpay & Hfits & Hw).
  exists lay. eexists _, _. split; [exact Hw|]. split; [exact Hpay|].
  split; [cbn [written_bytes _fp]; now rewrite layout_bytes_chunks|].
  intros pre post dtype c E. rewrite blen_chunk.
  set (index1 := index + blen (padding index)) in *.
  unfold space_left_at in Hfits.
  pose proof (Z.mod_pos_bound index1 LEVELDBLOG_BLOCK_LEN ltac:(clia)) as Hmod.
  destruct lay as [s0 | f ms l]; cbn [layout_chunk_list layout_fits] in *.
  - destruct pre as [|p pre].
    + cbn [app] in E. injection E as E1 E2 E3. subst.
      cbn [chunks_bytes map concat]. change (blen []) with 0.
      rewrite Z.add_0_r. clia.
    + cbn [app] in E. injection E as E1 E2. destruct pre; discriminate.
  - destruct Hfits as (Hf & Hms & Hl).
    destruct pre as [|p pre].
    + cbn [app] in E. injection E as E1 E2 E3. subst.
      cbn [chunks_bytes map concat]. change (blen []) with 0.
      rewrite Z.add_0_r. clia.
    + cbn [app] in E. injection E as E1 E2. subst p.
      destruct (split_chunks_sizes ms l pre post dtype c Hms E2) as (Hb & _ & Hc).
      rewrite chunks_bytes_cons, blen_app, blen_chunk, Hb.
      replace (index1 + (7 + blen f + LEVELDBLOG_BLOCK_LEN * Z.of_nat (length pre)))
        with ((index1 + (7 + blen f))
              + Z.of_nat (length pre) * LEVELDBLOG_BLOCK_LEN) by lia.
      rewrite Z.mod_add by clia.
      replace (index1 + (7 + blen f))
        with (index1 + space_left_at index1) by (unfold space_left_at; clia).
      rewrite next_block_aligned.
      destruct Hc as [Hc | ->]; clia.
Qed.

Lemma X3_chunks_stay_inside_blocks_witness :
  exists (lay : layout),
    layout_payload lay = ["a"; "b"]%byte
    /\ forall (pre post : list (Z * bytes)) (dtype : Z) (c : bytes),
        layout_chunk_list lay = pre ++ (dtype, c) :: post ->
        (32760 + blen (padding 32760) + blen (chunks_bytes pre))
          mod LEVELDBLOG_BLOCK_LEN
        + blen (chunk dtype c) <= LEVELDBLOG_BLOCK_LEN.
Proof.
  destruct (X3_chunks_stay_inside_blocks false [] 32760 None ["a"; "b"]%byte)
    as (lay & r & w' & _ & Hpay & _ & Hin).
  exists lay. split; [exact Hpay | exact Hin].
Defined.

(** X4. The length an append answers is the payload and seven bytes per
    chunk, plus at most six bytes of padding: never less than the payload
    and one header, never more than the payload, two headers, one header for
    every 32761 bytes of payload, and six. *)
Theorem X4_append_overhead_is_bounded o written index fn (s : bytes) :
  exists (len : Z) w',
    _write_data s (mkDataStore o (Some (FWrite written)) index fn)
    = Ok ((index, len, 0, 0), w')
    /\ _index w' = index + len
    /\ blen (written_bytes w') = blen written + len
    /\ blen s + LEVELDBLOG_HEADER_LEN <= len
    /\ len <= blen s
              + LEVELDBLOG_HEADER_LEN * (blen s / LEVELDBLOG_DATA_LEN + 2) + 6.
Proof.
  destruct (write_data_spec o written index fn s) as (lay & Hpay & Hfits & Hw).
  eexists _, _. split; [exact Hw|].
  cbn [_index written_bytes _fp]. split; [lia|].
  split; [rewrite !blen_app; lia|].
  rewrite blen_layout_bytes, Hpay.
  pose proof (space_left_at_range index) as Hsp.
  pose proof (blen_nonneg (padding index)) as Hp0.
  assert (Hp : blen (padding index) <= 6).
  { rewrite blen_padding. destruct (_ <? _) eqn:E; clia. }
  assert (Hd : 0 <= blen s / LEVELDBLOG_DATA_LEN)
    by (apply Z.div_pos; [apply blen_nonneg | clia]).
  destruct lay as [s0 | f ms l]; cbn [layout_chunks layout_fits layout_payload] in *.
  - clia.
  - destruct Hfits as (Hf & Hms & Hl).
    assert (Hn : Z.of_nat (length ms) <= blen s / LEVELDBLOG_DATA_LEN).
    { apply Z.div_le_lower_bound; [clia|].
      rewrite <- Hpay, !blen_app, (blen_concat_middles ms Hms).
      pose proof (blen_nonneg f). clia. }
    clia.
Qed.

(** ** The file header is checked *)

Lemma byte_of_Z_mod (z : Z) : byte_of_Z (z mod 256) = byte_of_Z z.
Proof. unfold byte_of_Z. now rewrite Z.mod_mod by lia. Qed.

Lemma le_bytes_le_int (bs : bytes) :
  struct.le_bytes (length bs) (struct.le_int bs) = bs.
Proof.
  induction bs as [|b bs IH]; [reflexivity|].
  cbn [length struct.le_bytes struct.le_int].
  pose proof (Z_of_byte_range b) as Hb.
  f_equal.
  - rewrite <- byte_of_Z_mod.
    replace ((Z_of_byte b + 256 * struct.le_int bs) mod 256) with (Z_of_byte b).
    + apply byte_of_Z_of_byte.
    + replace (Z_of_byte b + 256 * struct.le_int bs)
        with (Z_of_byte b + struct.le_int bs * 256) by lia.
      rewrite Z.mod_add by lia. symmetry. apply Z.mod_small. lia.
  - rewrite Z.shiftr_div_pow2 by lia.
    replace ((Z_of_byte b + 256 * struct.le_int bs) / 2 ^ 8) with (struct.le_int bs);
      [exact IH|].
    change (2 ^ 8) with 256.
    replace (Z_of_byte b + 256 * struct.le_int bs)
      with (Z_of_byte b + struct.le_int bs * 256) by lia.
    rewrite Z.div_add by lia.
    rewrite (Z.div_small (Z_of_byte b)) by lia. lia.
Qed.

(** The three fields of a seven-byte header pass the checks of
    [_read_header] exactly when the header is the one [_write_header]
    writes. *)
Lemma header_fields (h : bytes) :
  length h = 7%nat ->
  bytes_eqb (take 4 h) (strtobytes LEVELDBLOG_HEADER_IDENT)
  && (struct.le_int (take 2 (drop 4 h)) =? LEVELDBLOG_HEADER_MAGIC)
  && (struct.le_int (take 1 (drop 6 h)) =? LEVELDBLOG_HEADER_VERSION)
  = bytes_eqb h file_header.
Proof.
  intros Hlen.
  destruct (bytes_eqb h file_header) eqn:E.
  - apply bool_decide_eq_true in E. subst h. reflexivity.
  - apply bool_decide_eq_false in E.
    apply not_true_is_false. intros H. apply E. clear E.
    apply andb_prop in H as [H Hv]. apply andb_prop in H as [Hi Hm].
    apply bool_decide_eq_true in Hi. apply Z.eqb_eq in Hm, Hv.
    assert (H2 : length (take 2 (drop 4 h)) = 2%nat)
      by (rewrite length_take, length_drop; lia).
    assert (H1 : length (take 1 (drop 6 h)) = 1%nat)
      by (rewrite length_take, length_drop; lia).
    pose proof (le_bytes_le_int (take 2 (drop 4 h))) as E2.
    pose proof (le_bytes_le_int (take 1 (drop 6 h))) as E1.
    rewrite H2, Hm in E2. rewrite H1, Hv in E1.
    rewrite <- (take_drop 4 h), <- (take_drop 2 (drop 4 h)).
    rewrite drop_drop. change (4 + 2)%nat with 6%nat.
    rewrite <- (firstn_all (drop 6 h)) at 1.
    replace (length (drop 6 h)) with 1%nat by (rewrite length_drop; lia).
    rewrite Hi, <- E2, <- E1. reflexivity.
Qed.

(** X5. Opening a file for scanning succeeds exactly when the file starts
    with the seven header bytes that opening for writing puts there; it then
    stands right after them, at index 7. A missing file raises
    FileNotFoundError, a file shorter than the header fails in
    [struct.unpack], and any other first seven bytes raise "Invalid
    header". *)
Theorem X5_open_for_scan_checks_header (fname : string) (fs : filesystem) :
  open_for_scan fname fs __init__
  = match fs !! fname with
    | None => Raise FileNotFoundError
    | Some content =>
        if blen content <? 7 then Raise StructError
        else if bytes_eqb (take 7 content) file_header
             then Ok (mkDataStore true (Some (FRead (drop 7 content))) 7 (Some fname))
             else Raise InvalidHeader
    end.
Proof.
  unfold open_for_scan. destruct (fs !! fname) as [content|]; [|reflexivity].
  unfold _read_header.
  erewrite bind_Ok by reflexivity.
  change (Z.to_nat 7) with 7%nat.
  unfold lift, struct.unpack_4sHB.
  destruct (blen content <? 7) eqn:Elen.
  - apply Z.ltb_lt in Elen. unfold blen in Elen.
    replace (length (take 7 content) =? 7)%nat with false; [reflexivity|].
    symmetry. apply Nat.eqb_neq. rewrite length_take. lia.
  - apply Z.ltb_ge in Elen. unfold blen in Elen.
    assert (Hlen : length (take 7 content) = 7%nat) by (rewrite length_take; lia).
    rewrite Hlen. cbn [Nat.eqb]. unfold bind at 1. cbv iota beta.
    rewrite <- (header_fields _ Hlen).
    destruct (bytes_eqb (take 4 (take 7 content)) _); [|reflexivity].
    destruct (struct.le_int (take 2 (drop 4 (take 7 content))) =? _); [|reflexivity].
    destruct (struct.le_int (take 1 (drop 6 (take 7 content))) =? _); [|reflexivity].
    cbn [negb andb]. unfold blen. rewrite Hlen. reflexivity.
Qed.

(** ** Chunks out of order, and files cut or changed on disk *)

Lemma scan_data_loop_wrong_type (ms : list bytes) :
  forall (fuel : nat) (acc : bytes) index fn (dtype : Z) (c rest : bytes),
    Forall (fun m => blen m < 65536) ms -> blen c < 65536 ->
    dtype = LEVELDBLOG_FULL \/ dtype = LEVELDBLOG_FIRST ->
    (length ms < fuel)%nat ->
    scan_data_loop fuel acc
      (mkDataStore true
         (Some (FRead (middles_bytes ms ++ chunk dtype c ++ rest))) index fn)
    = Raise (AssertionError A_middle).
Proof.
  induction ms as [|m ms IH]; intros fuel acc index fn dtype c rest Hms Hc Hd Hfuel.
  - destruct fuel as [|fuel]; [simpl in Hfuel; lia|].
    cbn [scan_data_loop middles_bytes map concat app].
    erewrite bind_Ok by (apply scan_record_chunk; [destruct Hd; clia | exact Hc]).
    destruct Hd as [-> | ->]; reflexivity.
  - destruct fuel as [|fuel]; [simpl in Hfuel; lia|].
    inversion Hms as [|? ? Hm Hms']; subst.
    rewrite middles_bytes_cons, <- app_assoc.
    cbn [scan_data_loop].
    erewrite bind_Ok by (apply scan_record_chunk; [clia | exact Hm]).
    cbn [Z.eqb LEVELDBLOG_LAST LEVELDBLOG_MIDDLE Pos.eqb assert].
    erewrite bind_Ok by reflexivity.
    apply IH; try assumption. simpl in Hfuel. lia.
Qed.

(** X6. The scanner checks the order of the chunk types. A chunk of type
    MIDDLE or LAST where a record should start fails the assertion on FIRST;
    a chunk of type FULL or FIRST inside a split record, after the FIRST
    chunk and any number of MIDDLE chunks, fails the assertion on MIDDLE.
    The checksums of these chunks are right: only the order is wrong. *)
Theorem X6_chunk_order_is_checked index fn
        (f : bytes) (ms : list bytes) (dtype : Z) (c rest : bytes) :
  blen f < 65536 -> Forall (fun m => blen m < 65536) ms -> blen c < 65536 ->
  (dtype = LEVELDBLOG_MIDDLE \/ dtype = LEVELDBLOG_LAST ->
   scan_data
     (mkDataStore true (Some (FRead (padding index ++ chunk dtype c ++ rest))) index fn)
   = Raise (AssertionError A_first))
  /\ (dtype = LEVELDBLOG_FULL \/ dtype = LEVELDBLOG_FIRST ->
      scan_data
        (mkDataStore true
           (Some (FRead (padding index ++ chunk LEVELDBLOG_FIRST f
                         ++ middles_bytes ms ++ chunk dtype c ++ rest)))
           index fn)
      = Raise (AssertionError A_middle)).
Proof.
  intros Hf Hms Hc. split; intros Hd; rewrite scan_data_skips_padding;
    unfold scan_data_after_padding.
  - erewrite bind_Ok by (apply scan_record_chunk; [destruct Hd; clia | exact Hc]).
    destruct Hd as [-> | ->]; reflexivity.
  - erewrite bind_Ok by (apply scan_record_chunk; [clia | exact Hf]).
    cbn [Z.eqb LEVELDBLOG_FULL LEVELDBLOG_FIRST Pos.eqb assert].
    erewrite bind_Ok by reflexivity.
    apply scan_data_loop_wrong_type; try assumption.
    unfold unread_len. cbn [_fp]. rewrite !length_app.
    pose proof (length_middles_bytes ms). lia.
Qed.

Lemma X6_chunk_order_is_checked_witness :
  blen ["a"%byte] < 65536
  /\ Forall (fun m => blen m < 65536) [["b"%byte]]
  /\ blen ["c"%byte] < 65536
  /\ scan_data
       (mkDataStore true (Some (FRead (chunk LEVELDBLOG_LAST ["c"%byte]))) 7 None)
     = Raise (AssertionError A_first)
  /\ scan_data
       (mkDataStore true
          (Some (FRead (chunk LEVELDBLOG_FIRST ["a"%byte]
                        ++ chunk LEVELDBLOG_MIDDLE ["b"%byte]
                        ++ chunk LEVELDBLOG_FULL ["c"%byte])))
          7 None)
     = Raise (AssertionError A_middle).
Proof.
  assert (Hf : blen ["a"%byte] < 65536) by (vm_compute; reflexivity).
  assert (Hms : Forall (fun m => blen m < 65536) [["b"%byte]])
    by (repeat constructor).
  assert (Hc : blen ["c"%byte] < 65536) by (vm_compute; reflexivity).
  split; [exact Hf|]. split; [exact Hms|]. split; [exact Hc|].
  split.
  - pose proof (proj1 (X6_chunk_order_is_checked 7 None ["a"%byte] [["b"%byte]]
                         LEVELDBLOG_LAST ["c"%byte] [] Hf Hms Hc)
                  (or_intror eq_refl)) as H.
    rewrite app_nil_r in H. exact H.
  - pose proof (proj2 (X6_chunk_order_is_checked 7 None ["a"%byte] [["b"%byte]]
                         LEVELDBLOG_FULL ["c"%byte] [] Hf Hms Hc)
                  (or_introl eq_refl)) as H.
    rewrite app_nil_r in H. exact H.
Defined.

(** A chunk of a well-formed frame that cannot be read makes the scan of
    the frame fail the way the read of that chunk fails. *)
Lemma scan_after_padding_bad_chunk index fn (lay : layout)
      (pre post : list (Z * bytes)) (dtype : Z) (c tail : bytes) (e : exn) :
  layout_ok lay ->
  layout_chunk_list lay = pre ++ (dtype, c) :: post ->
  (forall index', scan_record (mkDataStore true (Some (FRead tail)) index' fn) = Raise e) ->
  scan_data_after_padding
    (mkDataStore true (Some (FRead (chunks_bytes pre ++ tail))) index fn)
  = Raise e.
Proof.
  intros Hok E Htail. unfold scan_data_after_padding.
  destruct lay as [s | f ms l]; cbn [layout_chunk_list layout_ok] in *.
  - destruct pre as [|p pre].
    + unfold bind. cbn [chunks_bytes map concat app]. now rewrite Htail.
    + cbn [app] in E. injection E as E1 E2. destruct pre; discriminate.
  - destruct Hok as (Hf & Hms & Hl).
    destruct pre as [|p pre].
    + unfold bind. cbn [chunks_bytes map concat app]. now rewrite Htail.
    + cbn [app] in E. injection E as E1 E2. subst p.
      destruct (split_chunks_before ms l pre post dtype c Hms Hl E2)
        as (ms1 & -> & Hms1 & Hd & Hc).
      rewrite chunks_bytes_cons, chunks_bytes_middles, <- !app_assoc.
      erewrite bind_Ok by (apply scan_record_chunk; clia).
      cbn [Z.eqb LEVELDBLOG_FULL LEVELDBLOG_FIRST Pos.eqb assert].
      erewrite bind_Ok by reflexivity.
      apply scan_data_loop_prefix; [exact Hms1 | | exact Htail].
      unfold unread_len. cbn [_fp]. rewrite !length_app.
      pose proof (length_middles_bytes ms1). lia.
Qed.

(** A chunk header cut short is not the end of the file. *)
Lemma scan_record_short_header index fn (part : bytes) :
  0 < blen part < LEVELDBLOG_HEADER_LEN ->
  scan_record (mkDataStore true (Some (FRead part)) index fn)
  = Raise (AssertionError A_header_len).
Proof.
  intros Hp. unfold scan_record.
  erewrite bind_Ok by reflexivity.
  erewrite bind_Ok.
  2:{ rewrite <- (app_nil_r part) at 1.
      unfold fp_read. cbn [_fp].
      replace (LEVELDBLOG_HEADER_LEN <? 0) with false by reflexivity.
      rewrite take_app_ge by (unfold blen in Hp; clia). reflexivity. }
  rewrite app_nil_r, take_nil, app_nil_r.
  destruct (blen part =? 0) eqn:E0; [apply Z.eqb_eq in E0; lia|].
  replace (blen part =? LEVELDBLOG_HEADER_LEN) with false by (symmetry; lia).
  reflexivity.
Qed.

(** X7. A file cut inside the header of a chunk, one to six bytes into it,
    does not scan as end-of-stream: the scan that reaches the chunk fails
    the assertion on the header length, whichever chunk of the frame it is.
    (Cut exactly between two chunks, the same file scans as
    end-of-stream.) *)
Theorem X7_cut_inside_chunk_header index fn (lay : layout)
        (pre post : list (Z * bytes)) (dtype : Z) (c : bytes) (k : nat) :
  layout_ok lay ->
  layout_chunk_list lay = pre ++ (dtype, c) :: post ->
  (0 < k < 7)%nat ->
  scan_data
    (mkDataStore true
       (Some (FRead (padding index ++ chunks_bytes pre ++ take k (chunk dtype c))))
       index fn)
  = Raise (AssertionError A_header_len).
Proof.
  intros Hok E Hk. rewrite scan_data_skips_padding.
  apply (scan_after_padding_bad_chunk _ _ lay pre post dtype c); [assumption..|].
  intros index'. apply scan_record_short_header.
  unfold blen. rewrite length_take.
  pose proof (blen_chunk dtype c) as Hb. pose proof (blen_nonneg c).
  unfold blen in Hb. clia.
Qed.

Lemma X7_cut_inside_chunk_header_witness :
  layout_ok (LSplit ["a"%byte] [] ["b"%byte])
  /\ (0 < 3 < 7)%nat
  /\ scan_data
       (mkDataStore true
          (Some (FRead (chunk LEVELDBLOG_FIRST ["a"%byte]
                        ++ take 3 (chunk LEVELDBLOG_LAST ["b"%byte]))))
          32760 None)
     = Raise (AssertionError A_header_len).
Proof.
  assert (Hok : layout_ok (LSplit ["a"%byte] [] ["b"%byte])).
  { cbn. repeat split; try constructor; lia. }
  split; [exact Hok|]. split; [lia|].
  pose proof (X7_cut_inside_chunk_header 32760 None (LSplit ["a"%byte] [] ["b"%byte])
                [(LEVELDBLOG_FIRST, ["a"%byte])] [] LEVELDBLOG_LAST ["b"%byte] 3%nat
                Hok eq_refl ltac:(lia)) as H.
  rewrite chunks_bytes_cons in H. cbn [chunks_bytes map concat] in H.
  rewrite app_nil_r in H. exact H.
Defined.

(** One payload byte replaced by another fails the checksum. *)
Lemma scan_record_changed_byte index fn (dtype : Z) (c rest : bytes)
      (i : nat) (b b' : byte) :
  1 <= dtype <= 4 -> blen c < 65536 ->
  c !! i = Some b -> b' <> b ->
  scan_record
    (mkDataStore true (Some (FRead (<[(7 + i)%nat := b']> (chunk dtype c) ++ rest)))
       index fn)
  = Raise (AssertionError A_checksum).
Proof.
  intros Hd Hc Hi Hne.
  destruct (list_elem_of_split_length c i b Hi) as (pre & post & Ec & Hlen).
  pose proof (pack_IHB_chunk dtype c Hd Hc) as Hpack.
  apply unpack_pack_IHB in Hpack as [Hlen7 Hun].
  unfold chunk.
  set (hdr := struct.le_bytes 4 _ ++ struct.le_bytes 2 _ ++ struct.le_bytes 1 _) in *.
  set (c' := pre ++ b' :: post).
  assert (Hlc : blen c' = blen c)
    by (unfold c'; rewrite Ec; unfold blen; rewrite !length_app; reflexivity).
  replace (<[(7 + i)%nat := b']>
             (struct.le_bytes 4 (Z.land (zlib.crc32 c (nth (Z.to_nat dtype) _crc 0))
                                   4294967295)
              ++ struct.le_bytes 2 (blen c) ++ struct.le_bytes 1 dtype ++ c) ++ rest)
    with (hdr ++ c' ++ rest).
  2:{ replace (struct.le_bytes 4 _ ++ struct.le_bytes 2 _ ++ struct.le_bytes 1 _ ++ c)
        with (hdr ++ c) by (unfold hdr; rewrite <- !app_assoc; reflexivity).
      rewrite <- Hlen7, insert_app_r, <- app_assoc. f_equal. f_equal.
      unfold c'. rewrite Ec at 1. rewrite Hlen.
      replace (length pre) with (length pre + 0)%nat at 1 by lia.
      rewrite insert_app_r. reflexivity. }
  clearbody hdr.
  unfold scan_record.
  erewrite bind_Ok by reflexivity.
  assert (Hb : blen hdr = 7) by (unfold blen; rewrite Hlen7; reflexivity).
  erewrite bind_Ok by (apply fp_read_app; rewrite Hb; reflexivity).
  rewrite Hb.
  cbn [Z.eqb LEVELDBLOG_HEADER_LEN Pos.eqb].
  erewrite bind_Ok by reflexivity.
  unfold lift. erewrite bind_Ok by (rewrite Hun; reflexivity).
  cbv iota beta.
  erewrite bind_Ok by reflexivity.
  erewrite bind_Ok by (apply fp_read_app; symmetry; exact Hlc).
  erewrite bind_Ok by (apply crc_seed_valid; exact Hd).
  replace (_ =? _) with false; [reflexivity|].
  symmetry. apply Z.eqb_neq. rewrite Ec. unfold c'.
  apply crc32_one_byte. congruence.
Qed.

(** X8. The checksum catches every change of one payload byte, not only a
    flipped bit: when any one payload byte of any chunk of a well-formed
    frame is replaced by a different byte, the scan that reaches the frame
    fails the checksum assertion. *)
Theorem X8_changed_byte_fails_checksum index fn (lay : layout)
        (pre post : list (Z * bytes)) (dtype : Z) (c rest : bytes)
        (i : nat) (b b' : byte) :
  layout_ok lay ->
  layout_chunk_list lay = pre ++ (dtype, c) :: post ->
  c !! i = Some b -> b' <> b ->
  scan_data
    (mkDataStore true
       (Some (FRead (padding index ++ chunks_bytes pre
                     ++ <[(7 + i)%nat := b']> (chunk dtype c) ++ rest)))
       index fn)
  = Raise (AssertionError A_checksum).
Proof.
  intros Hok E Hi Hne. rewrite scan_data_skips_padding.
  apply (scan_after_padding_bad_chunk _ _ lay pre post dtype c); [assumption..|].
  intros index'.
  assert (1 <= dtype <= 4 /\ blen c < 65536) as [Hd Hc].
  { destruct lay as [s | f ms l]; cbn [layout_chunk_list layout_ok] in *.
    - destruct pre as [|p pre].
      + cbn [app] in E. injection E as E1 E2 E3. subst. clia.
      + cbn [app] in E. injection E as E1 E2. destruct pre; discriminate.
    - destruct Hok as (Hf & Hms & Hl). destruct pre as [|p pre].
      + cbn [app] in E. injection E as E1 E2 E3. subst. clia.
      + cbn [app] in E. injection E as E1 E2.
        destruct (split_chunks_before ms l pre post dtype c Hms Hl E2)
          as (ms1 & _ & _ & Hd & Hc). split; assumption. }
  now apply (scan_record_changed_byte index' fn dtype c rest i b b').
Qed.

Lemma X8_changed_byte_fails_checksum_witness :
  layout_ok (LFull ["a"; "b"]%byte)
  /\ ["a"; "b"]%byte !! 1%nat = Some "b"%byte
  /\ "z"%byte <> "b"%byte
  /\ scan_data
       (mkDataStore true
          (Some (FRead (<[8%nat := "z"%byte]> (chunk LEVELDBLOG_FULL ["a"; "b"]%byte))))
          7 None)
     = Raise (AssertionError A_checksum).
Proof.
  assert (Hok : layout_ok (LFull ["a"; "b"]%byte)) by (vm_compute; reflexivity).
  assert (Hne : "z"%byte <> "b"%byte) by discriminate.
  split; [exact Hok|]. split; [reflexivity|]. split; [exact Hne|].
  pose proof (X8_changed_byte_fails_checksum 7 None (LFull ["a"; "b"]%byte)
                [] [] LEVELDBLOG_FULL ["a"; "b"]%byte [] 1%nat "b"%byte "z"%byte
                Hok eq_refl eq_refl Hne) as H.
  rewrite app_nil_r in H. exact H.
Defined.

(** X28. A chunk header with a type the format does not know stops the
    scan with IndexError: for a type byte from 5 to 255 the seed of the
    checksum is looked up past the end of the table of four seeds, before
    any checksum is compared, whatever the checksum and the length in the
    header say. *)
Theorem X28_unknown_chunk_type_raises_IndexError index fn
        (checksum dlength dtype : Z) (rest : bytes) :
  5 <= dtype < 256 ->
  scan_record
    (mkDataStore true
       (Some (FRead (struct.le_bytes 4 checksum ++ struct.le_bytes 2 dlength
                     ++ struct.le_bytes 1 dtype ++ rest)))
       index fn)
  = Raise IndexError.
Proof.
  intros Hd. unfold scan_record.
  erewrite bind_Ok by reflexivity.
  set (hdr := struct.le_bytes 4 checksum ++ struct.le_bytes 2 dlength
              ++ struct.le_bytes 1 dtype).
  replace (struct.le_bytes 4 checksum ++ struct.le_bytes 2 dlength
           ++ struct.le_bytes 1 dtype ++ rest) with (hdr ++ rest)
    by (unfold hdr; now rewrite <- !app_assoc).
  assert (Hb : blen hdr = 7)
    by (unfold hdr; rewrite !blen_app, !blen_le_bytes; reflexivity).
  erewrite bind_Ok by (apply fp_read_app; rewrite Hb; reflexivity).
  rewrite Hb. cbn [Z.eqb LEVELDBLOG_HEADER_LEN Pos.eqb].
  erewrite bind_Ok by reflexivity.
  unfold lift. erewrite bind_Ok by (unfold hdr; rewrite unpack_IHB_le_bytes; reflexivity).
  cbv iota beta.
  erewrite bind_Ok by reflexivity.
  rewrite (Z.mod_small dtype) by lia.
  unfold bind, fp_read. cbn [_fp].
  destruct (dlength mod 2 ^ 16 <? 0);
    unfold crc_seed;
    replace (dtype <? 0) with false by (symmetry; lia);
    (replace (_crc !! Z.to_nat dtype) with (@None Z); [reflexivity|]);
    symmetry; apply lookup_ge_None_2; cbn [length _crc]; lia.
Qed.

Lemma X28_unknown_chunk_type_raises_IndexError_witness :
  5 <= 9 < 256
  /\ scan_record
       (mkDataStore true
          (Some (FRead (struct.le_bytes 4 0 ++ struct.le_bytes 2 1
                        ++ struct.le_bytes 1 9 ++ ["a"%byte])))
          7 None)
     = Raise IndexError.
Proof.
  split; [lia|].
  apply (X28_unknown_chunk_type_raises_IndexError 7 None 0 1 9 ["a"%byte]). lia.
Defined.

(** ** More on the record router *)

Section HandlerMore.

Variable json_loads : string -> option json.
Variable json_dumps : json -> string.

(** X9. The records of the shutdown phase reach the sender whether the run
    is online or offline: an exit record, a final record and a poll-exit
    request are each put on the sender queue, and on the writer queue unless
    flagged local, and nothing else is. *)
Theorem X9_shutdown_records_always_reach_sender (r : Record_) (hm : HandleManager) :
  Forall (fun handler : Record_ -> HandleManager -> HandleManager =>
            _sender_q (handler r hm) = _sender_q hm ++ [r]
            /\ _writer_q (handler r hm)
               = _writer_q hm ++ (if local (control r) then [] else [r])
            /\ _consolidated_summary (handler r hm) = _consolidated_summary hm)
         [handle_exit; handle_final; handle_request_poll_exit].
Proof.
  assert (Hone : forall handler : Record_ -> HandleManager -> HandleManager,
             handler = (fun r => _dispatch_record r true) ->
             _sender_q (handler r hm) = _sender_q hm ++ [r]
             /\ _writer_q (handler r hm)
                = _writer_q hm ++ (if local (control r) then [] else [r])
             /\ _consolidated_summary (handler r hm) = _consolidated_summary hm).
  { intros handler ->.
    destruct (dispatch_record_queues r true hm) as [Hw Hs].
    split; [rewrite Hs, orb_true_r; reflexivity|]. split; [exact Hw|].
    unfold _dispatch_record.
    destruct (negb (_offline (h_settings hm)) || true), (negb (local (control r)));
      reflexivity. }
  repeat (apply Forall_cons; split; [apply Hone; reflexivity|]). apply Forall_nil_2.
Qed.


Lemma dispatch_record_keeps (r : Record_) (always_send : bool) (hm : HandleManager) :
  h_settings (_dispatch_record r always_send hm) = h_settings hm
  /\ _consolidated_summary (_dispatch_record r always_send hm)
     = _consolidated_summary hm
  /\ h_calls (_dispatch_record r always_send hm) = h_calls hm
  /\ _tb_watcher (_dispatch_record r always_send hm) = _tb_watcher hm
  /\ _system_stats (_dispatch_record r always_send hm) = _system_stats hm.
Proof.
  unfold _dispatch_record.
  destruct (negb (_offline (h_settings hm)) || always_send), (negb (local (control r)));
    repeat split.
Qed.


Lemma save_summary_queues (d : gmap string json) (flush : bool) (hm : HandleManager) :
  _writer_q (_save_summary json_dumps d flush hm)
  = _writer_q hm ++ (if flush then [summary_record_of json_dumps d] else [])
  /\ _sender_q (_save_summary json_dumps d flush hm)
     = _sender_q hm
       ++ (if _offline (h_settings hm) then [] else [summary_record_of json_dumps d])
  /\ h_settings (_save_summary json_dumps d flush hm) = h_settings hm.
Proof.
  unfold _save_summary. fold (summary_record_of json_dumps d).
  destruct flush.
  - destruct (dispatch_record_queues (summary_record_of json_dumps d) false hm)
      as [Hw Hs].
    destruct (dispatch_record_keeps (summary_record_of json_dumps d) false hm)
      as (Hset & _).
    rewrite Hw, Hs, Hset, orb_false_r.
    destruct (_offline (h_settings hm)); repeat split.
  - destruct (_offline (h_settings hm)); cbn [negb];
      unfold sender_q_put; cbn; rewrite ?app_nil_r; repeat split.
Qed.

(** X11. A summary record is not sent on: handling one changes the
    consolidated summary, leaves the writer queue as it is, and, when the
    run is online, puts on the sender queue one new record that carries the
    whole consolidated summary; offline it puts nothing anywhere. *)
Theorem X11_summary_record_is_not_written
        (s : SummaryRecord) (hm hm' : HandleManager) :
  handle_summary json_loads json_dumps s hm = Ok hm' ->
  _writer_q hm' = _writer_q hm
  /\ _sender_q hm'
     = _sender_q hm
       ++ (if _offline (h_settings hm) then []
           else [summary_record_of json_dumps (_consolidated_summary hm')]).
Proof.
  unfold handle_summary.
  destruct (for_each _ (update s) _) as [d1| |]; try discriminate.
  destruct (for_each _ (remove s) d1) as [d2| |]; try discriminate.
  intros H. apply Ok_inj in H. subst hm'.
  destruct (save_summary_queues d2 false (set_consolidated_summary d2 hm))
    as (Hw & Hs & _).
  rewrite Hw, Hs, save_summary_keeps_summary. cbn. now rewrite app_nil_r.
Qed.

(** X12. At the defer state FLUSH_SUM the consolidated summary is written:
    the handler puts the record that carries it on the writer queue,
    whether the run is online or offline, and on the sender queue when the
    run is online, each time before the defer request itself. *)
Theorem X12_final_summary_is_written (r : Record_) (hm : HandleManager) :
  defer_state r = DeferState.FLUSH_SUM ->
  _writer_q (handle_request_defer json_dumps r hm)
  = _writer_q hm ++ [summary_record_of json_dumps (_consolidated_summary hm)]
    ++ (if local (control r) then [] else [r])
  /\ _sender_q (handle_request_defer json_dumps r hm)
     = _sender_q hm
       ++ (if _offline (h_settings hm) then []
           else [summary_record_of json_dumps (_consolidated_summary hm)])
       ++ [r].
Proof.
  intros Hst. unfold handle_request_defer. rewrite Hst.
  cbn [Z.eqb DeferState.FLUSH_SUM DeferState.FLUSH_STATS DeferState.FLUSH_TB Pos.eqb].
  set (d := _consolidated_summary hm).
  destruct (save_summary_queues d true hm) as (Hw & Hs & Hset).
  destruct (dispatch_record_queues r true (_save_summary json_dumps d true hm))
    as [Hw1 Hs1].
  rewrite Hw1, Hs1, Hw, Hs, Hset, orb_true_r, <- !app_assoc. split; reflexivity.
Qed.

(** [set_path] writes the value where [lookup_path] finds it, and changes
    no other top-level key. *)
Lemma set_path_lookup (props : list string) (leaf : string) (v : json) :
  forall target target1 : gmap string json,
    set_path props leaf v target = Ok target1 ->
    lookup_path (props ++ [leaf]) (JDict target1) = Some v
    /\ forall k : string, k <> hd leaf props -> target1 !! k = target !! k.
Proof.
  induction props as [|prop props IH]; intros target target1 H;
    cbn [set_path] in *.
  - apply Ok_inj in H. subst target1. cbn [app lookup_path hd].
    rewrite lookup_insert_eq. split; [reflexivity|].
    intros k Hk. now rewrite lookup_insert_ne.
  - destruct (target !! prop) as [[| | | | |sub]|] eqn:E; try discriminate.
    destruct (set_path props leaf v sub) as [sub1| |] eqn:Es; try discriminate.
    apply Ok_inj in H. subst target1.
    destruct (IH _ _ Es) as [Hl _].
    cbn [app lookup_path hd]. rewrite lookup_insert_eq. split; [exact Hl|].
    intros k Hk. now rewrite lookup_insert_ne.
Qed.

(** X13. A summary update can be read back: after a summary record with
    one update has been handled, the consolidated summary holds the parsed
    value at the key path of the update, and every top-level key other than
    the first key of that path has the value it had. *)
Theorem X13_summary_update_reads_back (item : SummaryItem) (hm hm1 : HandleManager) :
  handle_summary json_loads json_dumps (mkSummaryRecord [item] []) hm = Ok hm1 ->
  exists (props : list string) (leaf : string) (v : json),
    item_key item = Ok (props, leaf)
    /\ json_loads (value_json item) = Some v
    /\ lookup_path (props ++ [leaf]) (JDict (_consolidated_summary hm1)) = Some v
    /\ forall k : string,
        k <> hd leaf props ->
        _consolidated_summary hm1 !! k = _consolidated_summary hm !! k.
Proof.
  intros H. apply handle_summary_one_update in H.
  unfold summary_update, loads in H.
  destruct (item_key item) as [[props leaf]| |]; try discriminate.
  destruct (walk props _) as [reached| |]; try discriminate.
  destruct (json_loads (value_json item)) as [v|]; try discriminate.
  exists props, leaf, v. split; [reflexivity|]. split; [reflexivity|].
  now apply set_path_lookup.
Qed.

Lemma del_path_twice (props : list string) (leaf : string) :
  forall target target1 : gmap string json,
    del_path props leaf target = Ok target1 ->
    del_path props leaf target1 = Raise KeyError.
Proof.
  induction props as [|prop props IH]; intros target target1 H;
    cbn [del_path] in *.
  - destruct (target !! leaf); try discriminate.
    apply Ok_inj in H. subst target1. now rewrite lookup_delete_eq.
  - destruct (target !! prop) as [[| | | | |sub]|] eqn:E; try discriminate.
    destruct (del_path props leaf sub) as [sub1| |] eqn:Es; try discriminate.
    apply Ok_inj in H. subst target1.
    now rewrite lookup_insert_eq, (IH _ _ Es).
Qed.

(** X14. Removing a summary key is not idempotent: once a summary record
    has removed a key path, the same record handled again raises KeyError,
    as does the removal of any key that is not there. *)
Theorem X14_summary_remove_twice_raises (item : SummaryItem) (hm hm1 : HandleManager) :
  handle_summary json_loads json_dumps (mkSummaryRecord [] [item]) hm = Ok hm1 ->
  handle_summary json_loads json_dumps (mkSummaryRecord [] [item]) hm1
  = Raise KeyError.
Proof.
  unfold handle_summary. cbn [update remove for_each].
  unfold summary_remove.
  destruct (item_key item) as [[props leaf]| |]; try discriminate.
  destruct (del_path props leaf (_consolidated_summary hm)) as [d| |] eqn:Ed;
    try discriminate.
  intros H. apply Ok_inj in H. subst hm1.
  rewrite save_summary_keeps_summary. cbn [_consolidated_summary set_consolidated_summary].
  now rewrite (del_path_twice _ _ _ _ Ed).
Qed.

(** ** What the records carry *)

Lemma fold_left_insert_map_to_list (d : gmap string json) :
  fold_left (fun (acc : gmap string json) kv => <[kv.1 := kv.2]> acc)
            (map_to_list d) ∅ = d.
Proof.
  rewrite <- fold_left_rev_right.
  symmetry. apply (list_to_map_flip d (rev (map_to_list d))).
  apply Permutation_rev.
Qed.

Lemma decode_dumped_items (l : list (string * json)) :
  forall acc : gmap string json,
    Forall (fun kv => json_loads (json_dumps kv.2) = Some kv.2) l ->
    proto_util.dict_from_proto_list_from json_loads
      (map (fun kv => mkSummaryItem kv.1 [] (json_dumps kv.2)) l) acc
    = Ok (fold_left (fun (acc : gmap string json) kv => <[kv.1 := kv.2]> acc) l acc).
Proof.
  induction l as [|[k v] l IH]; intros acc Hl; [reflexivity|].
  apply Forall_cons in Hl as [Hkv Hl].
  cbn [map proto_util.dict_from_proto_list_from for_each fold_left fst snd] in *.
  unfold loads. cbn [proto_value_json proto_key SummaryItem_ProtoItem value_json key].
  rewrite Hkv. apply IH, Hl.
Qed.

(** X15. The record that carries the consolidated summary can be decoded:
    when an online handler has handled a summary record, the last record on
    the sender queue is a summary record without removals whose update
    items, read by [proto_util.dict_from_proto_list] as the sender does,
    give the consolidated summary of the handler, provided [json.loads]
    reads back what [json.dumps] wrote for the values of the summary. *)
Theorem X15_sent_summary_decodes (s : SummaryRecord) (hm hm' : HandleManager) :
  handle_summary json_loads json_dumps s hm = Ok hm' ->
  _offline (h_settings hm) = false ->
  (forall (k : string) (v : json),
      _consolidated_summary hm' !! k = Some v -> json_loads (json_dumps v) = Some v) ->
  exists items : list SummaryItem,
    _sender_q hm'
    = _sender_q hm
      ++ [mkRecord (rt_summary (mkSummaryRecord items [])) (mkControl false false) ""]
    /\ proto_util.dict_from_proto_list json_loads items
       = Ok (_consolidated_summary hm').
Proof.
  unfold handle_summary.
  destruct (for_each _ (update s) _) as [d1| |]; try discriminate.
  destruct (for_each _ (remove s) d1) as [d2| |]; try discriminate.
  intros H Hon Hrt. apply Ok_inj in H. subst hm'.
  destruct (save_summary_queues d2 false (set_consolidated_summary d2 hm))
    as (_ & Hs & _).
  rewrite save_summary_keeps_summary in *.
  cbn [h_settings set_consolidated_summary _sender_q _consolidated_summary] in *.
  rewrite Hon in Hs. eexists. split; [exact Hs|].
  unfold proto_util.dict_from_proto_list.
  rewrite decode_dumped_items.
  - now rewrite fold_left_insert_map_to_list.
  - apply Forall_forall. intros [k v] Hin. cbn [snd].
    apply (Hrt k). now apply elem_of_map_to_list.
Qed.

(** X30. A summary update under a nested key fails in three ways. With
    both [key] and [nested_key] set it fails the assertion, whatever the
    summary holds. With a first key that the summary does not have it
    raises KeyError, also when the value is not valid JSON: the path is
    walked before the value is parsed. With a first key whose value is not
    a dictionary it raises TypeError when the value parses. *)
Theorem X30_summary_update_errors
        (item : SummaryItem) (hm : HandleManager) (a b : string) (rest : list string) :
  nested_key item = a :: b :: rest ->
  (key item <> ""%string ->
   handle_summary json_loads json_dumps (mkSummaryRecord [item] []) hm
   = Raise (AssertionError A_key_empty))
  /\ (key item = ""%string -> _consolidated_summary hm !! a = None ->
      handle_summary json_loads json_dumps (mkSummaryRecord [item] []) hm
      = Raise KeyError)
  /\ (key item = ""%string ->
      forall v : json,
        _consolidated_summary hm !! a = Some v ->
        (forall d, v <> JDict d) ->
        json_loads (value_json item) <> None ->
        handle_summary json_loads json_dumps (mkSummaryRecord [item] []) hm
        = Raise TypeError).
Proof.
  intros Hnested.
  unfold handle_summary. cbn [update remove for_each].
  unfold summary_update, item_key. rewrite Hnested.
  split; [|split].
  - intros Hkey. apply String.eqb_neq in Hkey. now rewrite Hkey.
  - intros -> Hnone. cbn [String.eqb removelast walk]. now rewrite Hnone.
  - intros -> v Hv Hnotdict Hjson.
    cbn [String.eqb removelast walk]. rewrite Hv.
    unfold loads.
    destruct (json_loads (value_json item)) as [parsed|]; [|congruence].
    destruct rest as [|c rest].
    + cbn [walk List.last set_path]. rewrite Hv.
      destruct v; try reflexivity. exfalso. now eapply Hnotdict.
    + cbn [walk].
      destruct v; try reflexivity. exfalso. now eapply Hnotdict.
Qed.

End HandlerMore.


Lemma X11_summary_record_is_not_written_witness :
  exists hm',
    handle_summary example_json_loads (fun _ => ""%string)
      (mkSummaryRecord [example_item] []) example_handler = Ok hm'
    /\ _writer_q hm' = []
    /\ exists r, _sender_q hm' = [r].
Proof.
  eexists. split; [vm_compute; reflexivity|].
  match goal with
  | |- _writer_q ?h = _ /\ _ =>
      destruct (X11_summary_record_is_not_written example_json_loads
                  (fun _ => ""%string) (mkSummaryRecord [example_item] [])
                  example_handler h) as [Hw Hs]; [vm_compute; reflexivity|]
  end.
  split; [exact Hw|]. eexists. exact Hs.
Defined.

Lemma X12_final_summary_is_written_witness :
  defer_state (defer_request DeferState.FLUSH_SUM) = DeferState.FLUSH_SUM
  /\ _writer_q (handle_request_defer (fun _ => ""%string)
                  (defer_request DeferState.FLUSH_SUM)
                  (mkHandleManager (mkSettings true None "") [] [] None None ∅ []))
     = [summary_record_of (fun _ => ""%string) ∅]
  /\ _sender_q (handle_request_defer (fun _ => ""%string)
                  (defer_request DeferState.FLUSH_SUM)
                  (mkHandleManager (mkSettings true None "") [] [] None None ∅ []))
     = [defer_request DeferState.FLUSH_SUM].
Proof.
  split; [reflexivity|].
  destruct (X12_final_summary_is_written (fun _ => ""%string)
              (defer_request DeferState.FLUSH_SUM)
              (mkHandleManager (mkSettings true None "") [] [] None None ∅ [])
              eq_refl) as [Hw Hs].
  split; [exact Hw | exact Hs].
Defined.

Lemma X13_summary_update_reads_back_witness :
  exists hm1,
    handle_summary example_json_loads (fun _ => ""%string)
      (mkSummaryRecord [example_item] []) example_handler = Ok hm1
    /\ lookup_path ["train"; "loss"]%string (JDict (_consolidated_summary hm1))
       = Some (JNum 1).
Proof.
  eexists. split; [vm_compute; reflexivity|].
  match goal with
  | |- lookup_path _ (JDict (_consolidated_summary ?h)) = _ =>
      destruct (X13_summary_update_reads_back example_json_loads
                  (fun _ => ""%string) example_item example_handler h)
        as (props & leaf & v & Hk & Hv & Hl & _); [vm_compute; reflexivity|]
  end.
  apply Ok_inj in Hk. injection Hk as <- <-.
  injection Hv as <-. exact Hl.
Defined.

Lemma X14_summary_remove_twice_raises_witness :
  exists hm1,
    handle_summary example_json_loads (fun _ => ""%string)
      (mkSummaryRecord [] [mkSummaryItem "train" [] ""]) example_handler = Ok hm1
    /\ handle_summary example_json_loads (fun _ => ""%string)
         (mkSummaryRecord [] [mkSummaryItem "train" [] ""]) hm1
       = Raise KeyError.
Proof.
  eexists. split; [vm_compute; reflexivity|].
  apply (X14_summary_remove_twice_raises example_json_loads (fun _ => ""%string)
           (mkSummaryItem "train" [] "") example_handler).
  vm_compute. reflexivity.
Defined.

Lemma X30_summary_update_errors_witness :
  nested_key (mkSummaryItem "" ["test"; "loss"] "not json") = ["test"; "loss"]%string
  /\ handle_summary example_json_loads (fun _ => ""%string)
       (mkSummaryRecord [mkSummaryItem "" ["test"; "loss"] "not json"] [])
       example_handler
     = Raise KeyError.
Proof.
  split; [reflexivity|].
  apply (X30_summary_update_errors example_json_loads (fun _ => ""%string)
           (mkSummaryItem "" ["test"; "loss"] "not json") example_handler
           "test" "loss" [] eq_refl); reflexivity.
Defined.

Lemma X15_sent_summary_decodes_witness :
  exists hm' items,
    handle_summary example_json_loads (fun _ => "1"%string)
      (mkSummaryRecord [mkSummaryItem "loss" [] "1"] []) online_handler = Ok hm'
    /\ _sender_q hm'
       = [mkRecord (rt_summary (mkSummaryRecord items [])) (mkControl false false) ""]
    /\ proto_util.dict_from_proto_list example_json_loads items
       = Ok (<["loss"%string := JNum 1]> ∅).
Proof.
  set (d := <["loss"%string := JNum 1]> (∅ : gmap string json)).
  set (hm' := _save_summary (fun _ => "1"%string) d false
                (set_consolidated_summary d online_handler)).
  assert (Hrun : handle_summary example_json_loads (fun _ => "1"%string)
                   (mkSummaryRecord [mkSummaryItem "loss" [] "1"] []) online_handler
                 = Ok hm') by reflexivity.
  assert (Hd : _consolidated_summary hm' = d) by apply save_summary_keeps_summary.
  destruct (X15_sent_summary_decodes example_json_loads (fun _ => "1"%string)
              _ online_handler hm' Hrun eq_refl) as (items & Hs & Hdec).
  - intros k v. rewrite Hd. unfold d.
    intros [[_ <-] | [_ Hv]]%lookup_insert_Some; [reflexivity|].
    now rewrite lookup_empty in Hv.
  - exists hm', items. split; [exact Hrun|]. split; [exact Hs|].
    rewrite Hdec, Hd. reflexivity.
Defined.

(** ** History records *)

Section HistoryProperties.

Variable json_loads : string -> option json.
Variable json_dumps : json -> string.
Variable Accumulator : Type.
Variable UniformSampleAccumulator : Accumulator.
Variable add : json -> Accumulator -> Accumulator.

(** A key that no item has keeps its value. *)
Lemma dict_from_proto_list_other_key (items : list HistoryItem) (k : string) :
  forall acc d : gmap string json,
    proto_util.dict_from_proto_list_from json_loads items acc = Ok d ->
    Forall (fun i => hi_key i <> k) items ->
    d !! k = acc !! k.
Proof.
  unfold proto_util.dict_from_proto_list_from.
  induction items as [|item items IH]; intros acc d H Hk; cbn [for_each] in H.
  - apply Ok_inj in H. now subst.
  - apply Forall_cons in Hk as [Hne Hk].
    destruct (loads json_loads (proto_value_json item)) as [v| |]; try discriminate.
    rewrite (IH _ _ H Hk). now apply lookup_insert_ne.
Qed.

(** The last item with a key decides the value of the key. *)
Lemma dict_from_proto_list_last_wins (pre : list HistoryItem) :
  forall (item : HistoryItem) (post : list HistoryItem) (acc d : gmap string json),
    proto_util.dict_from_proto_list_from json_loads (pre ++ item :: post) acc = Ok d ->
    Forall (fun i => hi_key i <> hi_key item) post ->
    exists v, json_loads (hi_value_json item) = Some v /\ d !! hi_key item = Some v.
Proof.
  induction pre as [|p pre IH]; intros item post acc d H Hpost;
    unfold proto_util.dict_from_proto_list_from in *;
    cbn [app for_each] in H.
  - unfold loads in H.
    cbn [proto_value_json proto_key HistoryItem_ProtoItem] in H.
    destruct (json_loads (hi_value_json item)) as [v|] eqn:Ev; try discriminate.
    exists v. split; [reflexivity|].
    rewrite (dict_from_proto_list_other_key post (hi_key item) _ _ H Hpost).
    apply lookup_insert_eq.
  - destruct (loads json_loads (proto_value_json p)) as [v| |]; try discriminate.
    exact (IH item post _ d H Hpost).
Qed.

Lemma handle_history_inv (r : Record_) (items : list HistoryItem)
      (hm hm' : HandleManager) (sampled sampled' : gmap string Accumulator) :
  handler.handle_history json_loads json_dumps Accumulator UniformSampleAccumulator add
    r items hm sampled = Ok (hm', sampled') ->
  exists history_dict : gmap string json,
    proto_util.dict_from_proto_list json_loads items = Ok history_dict
    /\ handler._save_history json_loads Accumulator UniformSampleAccumulator add
         items sampled = Ok sampled'
    /\ hm' = _save_summary json_dumps
               (history_dict ∪ _consolidated_summary hm) false
               (set_consolidated_summary (history_dict ∪ _consolidated_summary hm)
                  (_dispatch_record r false hm)).
Proof.
  unfold handler.handle_history. intros H.
  destruct (handler._save_history _ _ _ _ items sampled) as [s1| |];
    try discriminate.
  destruct (proto_util.dict_from_proto_list json_loads items) as [hd| |];
    try discriminate.
  apply Ok_inj in H.
  destruct (dispatch_record_keeps r false hm) as (_ & Hc & _).
  rewrite Hc in H.
  exists hd. split; [reflexivity|].
  split; [f_equal; exact (f_equal snd H) | symmetry; exact (f_equal fst H)].
Qed.

(** X16. A history record updates the consolidated summary: the last item
    of the record with a given key sets that key to its parsed value, every
    key the record does not mention keeps its value; the record itself is
    sent on like any other, and the summary that follows it goes to the
    sender only, never to the writer queue. *)
Theorem X16_history_updates_summary (r : Record_) (items : list HistoryItem)
        (hm hm' : HandleManager) (sampled sampled' : gmap string Accumulator) :
  handler.handle_history json_loads json_dumps Accumulator UniformSampleAccumulator add
    r items hm sampled = Ok (hm', sampled') ->
  (forall (pre : list HistoryItem) (item : HistoryItem) (post : list HistoryItem),
      items = pre ++ item :: post ->
      Forall (fun i => hi_key i <> hi_key item) post ->
      exists v, json_loads (hi_value_json item) = Some v
                /\ _consolidated_summary hm' !! hi_key item = Some v)
  /\ (forall k : string,
         Forall (fun i => hi_key i <> k) items ->
         _consolidated_summary hm' !! k = _consolidated_summary hm !! k)
  /\ _writer_q hm' = _writer_q hm ++ (if local (control r) then [] else [r])
  /\ _sender_q hm'
     = _sender_q hm
       ++ (if _offline (h_settings hm) then []
           else [r; summary_record_of json_dumps (_consolidated_summary hm')]).
Proof.
  intros H. apply handle_history_inv in H as (hd & Hd & _ & ->).
  rewrite save_summary_keeps_summary.
  cbn [_consolidated_summary set_consolidated_summary].
  unfold proto_util.dict_from_proto_list in Hd.
  split; [|split].
  - intros pre item post -> Hpost.
    destruct (dict_from_proto_list_last_wins pre item post ∅ hd Hd Hpost)
      as (v & Hv & Hl).
    exists v. split; [exact Hv|]. now apply lookup_union_Some_l.
  - intros k Hk.
    pose proof (dict_from_proto_list_other_key items k ∅ hd Hd Hk) as Hn.
    rewrite lookup_empty in Hn. now apply lookup_union_r.
  - set (d := hd ∪ _consolidated_summary hm).
    destruct (save_summary_queues json_dumps d false
                (set_consolidated_summary d (_dispatch_record r false hm)))
      as (Hw & Hs & _).
    destruct (dispatch_record_queues r false hm) as [Hw1 Hs1].
    destruct (dispatch_record_keeps r false hm) as (Hset & _).
    rewrite Hw, Hs. cbn [_writer_q _sender_q h_settings set_consolidated_summary].
    rewrite Hw1, Hs1, Hset, app_nil_r, orb_false_r.
    split; [reflexivity|].
    destruct (_offline (h_settings hm)); cbn [negb]; now rewrite <- ?app_assoc.
Qed.

Lemma save_history_other_key (items : list HistoryItem) (k : string) :
  forall sampled sampled' : gmap string Accumulator,
    handler._save_history json_loads Accumulator UniformSampleAccumulator add
      items sampled = Ok sampled' ->
    Forall (fun i => hi_key i = k ->
                     forall v, json_loads (hi_value_json i) = Some v ->
                               is_Real v = false) items ->
    sampled' !! k = sampled !! k.
Proof.
  unfold handler._save_history.
  induction items as [|item items IH]; intros sampled sampled' H Hk;
    cbn [for_each] in H.
  - apply Ok_inj in H. now subst.
  - apply Forall_cons in Hk as [Hitem Hk].
    unfold handler.save_history_item at 1, loads in H.
    destruct (json_loads (hi_value_json item)) as [v|] eqn:Ev; try discriminate.
    destruct (is_Real v) eqn:Er.
    + rewrite (IH _ _ H Hk).
      apply lookup_insert_ne. intros Heq.
      specialize (Hitem Heq v eq_refl). congruence.
    + exact (IH _ _ H Hk).
Qed.

Lemma save_history_keeps_keys (items : list HistoryItem) (k : string) :
  forall sampled sampled' : gmap string Accumulator,
    handler._save_history json_loads Accumulator UniformSampleAccumulator add
      items sampled = Ok sampled' ->
    is_Some (sampled !! k) -> is_Some (sampled' !! k).
Proof.
  unfold handler._save_history.
  induction items as [|item items IH]; intros sampled sampled' H Hk;
    cbn [for_each] in H.
  - apply Ok_inj in H. now subst.
  - unfold handler.save_history_item at 1, loads in H.
    destruct (json_loads (hi_value_json item)) as [v|] eqn:Ev; try discriminate.
    destruct (is_Real v) eqn:Er; [|exact (IH _ _ H Hk)].
    apply (IH _ _ H).
    destruct (decide (hi_key item = k)) as [->|Hne].
    + rewrite lookup_insert_eq. eauto.
    + now rewrite lookup_insert_ne.
Qed.

Lemma save_history_samples_numbers (items : list HistoryItem) :
  forall (sampled sampled' : gmap string Accumulator) (item : HistoryItem) (v : json),
    handler._save_history json_loads Accumulator UniformSampleAccumulator add
      items sampled = Ok sampled' ->
    item ∈ items ->
    json_loads (hi_value_json item) = Some v -> is_Real v = true ->
    is_Some (sampled' !! hi_key item).
Proof.
  induction items as [|i items IH]; intros sampled sampled' item v H Hin Hv Hr.
  - now apply elem_of_nil in Hin.
  - pose proof H as H0.
    unfold handler._save_history in H. cbn [for_each] in H.
    unfold handler.save_history_item at 1, loads in H.
    apply elem_of_cons in Hin as [<- | Hin].
    + rewrite Hv, Hr in H.
      apply (save_history_keeps_keys items (hi_key item) _ _ H).
      rewrite lookup_insert_eq. eauto.
    + destruct (json_loads (hi_value_json i)) as [vi|] eqn:Ev; try discriminate.
      destruct (is_Real vi); exact (IH _ _ item v H Hin Hv Hr).
Qed.

(** X17. Only numbers are sampled: after a history record, a key has a
    sample accumulator when one of the items with that key carries a number
    (or a bool), a key none of whose items carries a number has what it had
    before, and no key that had an accumulator loses it. *)
Theorem X17_only_numbers_are_sampled (r : Record_) (items : list HistoryItem)
        (hm hm' : HandleManager) (sampled sampled' : gmap string Accumulator) :
  handler.handle_history json_loads json_dumps Accumulator UniformSampleAccumulator add
    r items hm sampled = Ok (hm', sampled') ->
  (forall (item : HistoryItem) (v : json),
      item ∈ items ->
      json_loads (hi_value_json item) = Some v -> is_Real v = true ->
      is_Some (sampled' !! hi_key item))
  /\ (forall k : string,
         Forall (fun i => hi_key i = k ->
                          forall v, json_loads (hi_value_json i) = Some v ->
                                    is_Real v = false) items ->
         sampled' !! k = sampled !! k)
  /\ (forall k : string, is_Some (sampled !! k) -> is_Some (sampled' !! k)).
Proof.
  intros H. apply handle_history_inv in H as (hd & _ & Hs & _).
  split; [|split].
  - intros item v. now apply (save_history_samples_numbers items sampled).
  - intros k. now apply save_history_other_key.
  - intros k. now apply (save_history_keeps_keys items).
Qed.

(** X18. The TensorBoard watcher is finished once. A defer request at
    FLUSH_TB finishes the watcher if there is one and forgets it, so that
    [finish] after it makes no call; [finish] itself does not forget the
    watcher, so a second [finish] finishes it again. *)
Theorem X18_tb_watcher_finished_at_flush_tb (r : Record_) (hm : HandleManager) :
  defer_state r = DeferState.FLUSH_TB ->
  _tb_watcher (handle_request_defer json_dumps r hm) = None
  /\ h_calls (handle_request_defer json_dumps r hm)
     = h_calls hm ++ match _tb_watcher hm with
                     | Some _ => [tb_watcher_finish]
                     | None => []
                     end
  /\ handler.finish (handle_request_defer json_dumps r hm)
     = handle_request_defer json_dumps r hm
  /\ h_calls (handler.finish (handler.finish hm))
     = h_calls hm ++ match _tb_watcher hm with
                     | Some _ => [tb_watcher_finish; tb_watcher_finish]
                     | None => []
                     end.
Proof.
  intros Hst. unfold handle_request_defer. rewrite Hst.
  cbn [Z.eqb DeferState.FLUSH_TB DeferState.FLUSH_STATS Pos.eqb].
  set (hm1 := match _tb_watcher hm with
              | Some _ => set_tb_watcher None (h_call tb_watcher_finish hm)
              | None => hm
              end).
  destruct (dispatch_record_keeps r true hm1) as (_ & _ & Hc & Htb & _).
  assert (Hnone : _tb_watcher hm1 = None)
    by (unfold hm1; destruct (_tb_watcher hm) eqn:E; [reflexivity | exact E]).
  split; [now rewrite Htb|].
  split; [rewrite Hc; unfold hm1; destruct (_tb_watcher hm); cbn;
          now rewrite ?app_nil_r|].
  split; [unfold handler.finish; now rewrite Htb, Hnone|].
  unfold handler.finish. destruct (_tb_watcher hm) eqn:E; cbn; rewrite E; cbn.
  - now rewrite <- app_assoc.
  - now rewrite app_nil_r.
Qed.

End HistoryProperties.

Lemma X16_history_updates_summary_witness :
  exists hm' sampled',
    handler.handle_history example_json_loads (fun _ => ""%string)
      (list json) [] cons
      (mkRecord rt_stats (mkControl false false) "h")
      [mkHistoryItem "loss" "1"; mkHistoryItem "note" "[]"]
      online_handler ∅ = Ok (hm', sampled')
    /\ _consolidated_summary hm' !! "loss"%string = Some (JNum 1)
    /\ _writer_q hm' = [mkRecord rt_stats (mkControl false false) "h"].
Proof.
  destruct (handler.handle_history example_json_loads (fun _ => ""%string)
              (list json) [] cons
              (mkRecord rt_stats (mkControl false false) "h")
              [mkHistoryItem "loss" "1"; mkHistoryItem "note" "[]"]
              online_handler ∅) as [[hm' sampled']| |] eqn:Hrun;
    [|exfalso; vm_compute in Hrun; discriminate..].
  exists hm', sampled'. split; [reflexivity|].
  destruct (X16_history_updates_summary _ _ _ _ _ _ _ _ _ _ _ Hrun)
    as (Hlast & _ & Hw & _).
  split; [|exact Hw].
  destruct (Hlast [] (mkHistoryItem "loss" "1") [mkHistoryItem "note" "[]"] eq_refl)
    as (v & Hv & Hl).
  - repeat constructor. discriminate.
  - injection Hv as <-. exact Hl.
Defined.

Lemma X17_only_numbers_are_sampled_witness :
  exists hm' (sampled' : gmap string (list json)),
    handler.handle_history example_json_loads (fun _ => ""%string)
      (list json) [] cons
      (mkRecord rt_stats (mkControl false false) "h")
      [mkHistoryItem "loss" "1"; mkHistoryItem "note" "[]"]
      online_handler ∅ = Ok (hm', sampled')
    /\ is_Some (sampled' !! "loss"%string)
    /\ sampled' !! "note"%string = None.
Proof.
  destruct (handler.handle_history example_json_loads (fun _ => ""%string)
              (list json) [] cons
              (mkRecord rt_stats (mkControl false false) "h")
              [mkHistoryItem "loss" "1"; mkHistoryItem "note" "[]"]
              online_handler ∅) as [[hm' sampled']| |] eqn:Hrun;
    [|exfalso; vm_compute in Hrun; discriminate..].
  exists hm', sampled'. split; [reflexivity|].
  destruct (X17_only_numbers_are_sampled _ _ _ _ _ _ _ _ _ _ _ Hrun)
    as (Hnum & Hother & _).
  split.
  - apply (Hnum (mkHistoryItem "loss" "1") (JNum 1)); [|reflexivity..].
    apply elem_of_cons. now left.
  - rewrite (Hother "note"%string); [reflexivity|].
    repeat constructor.
    + cbn. discriminate.
    + cbn. intros _ v Hv. injection Hv as <-. reflexivity.
Defined.

Lemma X18_tb_watcher_finished_at_flush_tb_witness :
  defer_state (defer_request DeferState.FLUSH_TB) = DeferState.FLUSH_TB
  /\ h_calls (handler.finish
                (handle_request_defer (fun _ => ""%string)
                   (defer_request DeferState.FLUSH_TB)
                   (mkHandleManager (mkSettings false None "") [] []
                      (Some TBWatcher_obj) None ∅ [])))
     = [tb_watcher_finish].
Proof.
  split; [reflexivity|].
  destruct (X18_tb_watcher_finished_at_flush_tb (fun _ => ""%string)
              (defer_request DeferState.FLUSH_TB)
              (mkHandleManager (mkSettings false None "") [] []
                 (Some TBWatcher_obj) None ∅ []) eq_refl)
    as (_ & Hc & Hf & _).
  rewrite Hf. exact Hc.
Defined.

(** ** More on the sender *)

Section SenderMore.

Variable json_loads : string -> option json.
Variable api_run_resume_status :
  option string -> string -> string -> option ResumeStatus.
Variable api_upsert_run : string -> option (gmap string json) -> ServerRun.
Variable dict_from_proto_list : list ConfigItem -> outcome (gmap string json).
Variable auto_project_name : string -> string.
Variable _make_config : option (gmap string json) -> list ConfigItem.
Variable _make_summary_from_dict : json -> list SummaryItem.
Variable py_max : json -> json -> outcome json.
Variable py_sub : Z -> json -> outcome Z.

Local Abbreviation send_run' :=
  (send_run json_loads api_run_resume_status api_upsert_run dict_from_proto_list
     auto_project_name _make_config _make_summary_from_dict py_max py_sub).
Local Abbreviation _maybe_setup_resume' :=
  (_maybe_setup_resume json_loads api_run_resume_status py_max).
Local Abbreviation _init_run' :=
  (_init_run api_upsert_run _make_config _make_summary_from_dict py_sub).

(** [send_run] on the first run record, up to the resume check. *)
Lemma send_run_first (run : RunRecord) (ctl : Control) (id : string)
      (sm : SendManager) (config_dict : option (gmap string json)) :
  _run sm = None ->
  build_config_dict dict_from_proto_list run = Ok config_dict ->
  forall sm1 run1,
    sm1 = fold_left (fun sm c => s_call c sm) (save_config_calls config_dict) sm ->
    run1 = with_auto_project auto_project_name (s_settings sm) run ->
    send_run' (mkRecord (rt_run run) ctl id) sm
    = match _maybe_setup_resume' run1 sm1 with
      | Ok (Some error, sm2) =>
          if req_resp ctl
          then Ok (result_q_put (Result_run run1 (Some error) id) sm2)
          else Ok sm2
      | Ok (None, sm2) =>
          match
            match rs_resume_config (_resume_state sm2) with
            | JNull => Ok (config_dict, sm2)
            | JDict resumed_config =>
                let config_override :=
                  match dict_or_None config_dict with
                  | Some d => d
                  | None => ∅
                  end in
                let config_dict := config_override ∪ resumed_config in
                let rs := _resume_state sm2 in
                let sm :=
                  set_resume_state
                    {| rs_step := rs_step rs; rs_history := rs_history rs;
                       rs_events := rs_events rs; rs_output := rs_output rs;
                       rs_runtime := rs_runtime rs; rs_summary := rs_summary rs;
                       rs_resume_config := JDict config_dict;
                       rs_resumed := rs_resumed rs |} sm2 in
                Ok (Some config_dict,
                    s_call (save_config_file_from_dict config_dict) sm)
            | _ => Raise AttributeError
            end
          with
          | Ok (config_dict, sm) =>
              match _init_run' run1 config_dict sm with
              | Ok sm =>
                  let sm :=
                    if req_resp ctl then
                      match _run sm with
                      | Some r => result_q_put (Result_run r None id) sm
                      | None => sm
                      end
                    else sm in
                  Ok (_start_run_threads sm)
              | Raise e => Raise e
              | NoFuel => NoFuel
              end
          | Raise e => Raise e
          | NoFuel => NoFuel
          end
      | Raise e => Raise e
      | NoFuel => NoFuel
      end.
Proof.
  intros Hfirst Hcfg sm1 run1 -> ->.
  unfold send_run, build_config_dict, with_auto_project in *.
  cbn [run_of record control uuid]. rewrite Hfirst. cbn [is_None].
  destruct (config run) as [cfg|].
  - destruct (dict_from_proto_list cfg) as [d| |]; try discriminate.
    apply Ok_inj in Hcfg. subst config_dict.
    cbn [save_config_calls fold_left s_call s_settings].
    destruct (_maybe_setup_resume' _ _) as [[[error|] sm2]| |]; reflexivity.
  - apply Ok_inj in Hcfg. subst config_dict.
    cbn [save_config_calls fold_left].
    destruct (_maybe_setup_resume' _ _) as [[[error|] sm2]| |]; reflexivity.
Qed.

Lemma s_calls_fold (calls : list sender_call) :
  forall sm : SendManager,
    let sm' := fold_left (fun sm c => s_call c sm) calls sm in
    s_calls sm' = s_calls sm ++ calls
    /\ s_settings sm' = s_settings sm /\ _entity sm' = _entity sm
    /\ _result_q sm' = _result_q sm /\ _run sm' = _run sm
    /\ _fs sm' = _fs sm /\ _pusher sm' = _pusher sm
    /\ _dir_watcher sm' = _dir_watcher sm
    /\ _resume_state sm' = _resume_state sm.
Proof.
  induction calls as [|c calls IH]; intros sm; cbn [fold_left].
  - rewrite app_nil_r. repeat split.
  - destruct (IH (s_call c sm)) as (H1 & H2 & H3 & H4 & H5 & H6 & H7 & H8 & H9).
    cbn zeta. rewrite H1, H2, H3, H4, H5, H6, H7, H8, H9.
    cbn [s_call s_calls s_settings _entity _result_q _run _fs _pusher
         _dir_watcher _resume_state].
    rewrite <- app_assoc. repeat split.
Qed.

Lemma _init_run_keeps (run : RunRecord) (config_dict : option (gmap string json))
      (sm sm' : SendManager) :
  _init_run' run config_dict sm = Ok sm' ->
  _fs sm' = _fs sm /\ _pusher sm' = _pusher sm /\ _dir_watcher sm' = _dir_watcher sm
  /\ _resume_state sm' = _resume_state sm /\ s_settings sm' = s_settings sm.
Proof.
  unfold _init_run.
  destruct (py_sub _ _) as [t| |]; try discriminate.
  intros H. apply Ok_inj in H. subst sm'.
  destruct (sr_project _) as [[pn en]|]; [destruct (str_truthy pn), (str_truthy en)|];
    repeat split.
Qed.

Lemma with_auto_project_fields (settings : Settings) (run : RunRecord) :
  let run1 := with_auto_project auto_project_name settings run in
  run_id run1 = run_id run /\ entity run1 = entity run
  /\ start_time run1 = start_time run /\ config run1 = config run.
Proof.
  unfold with_auto_project. destruct (String.eqb (project run) ""); repeat split.
Qed.

(** [send_run] once the resume check has passed without an error and the
    resume state holds no config. *)
Lemma send_run_tail (run1 : RunRecord) (ctl : Control) (id : string)
      (config_dict : option (gmap string json)) (sm1 : SendManager)
      (first : bool) (t : Z) :
  py_sub (start_time run1) (rs_runtime (_resume_state sm1)) = Ok t ->
  exists sm' r,
    match _init_run' run1 config_dict sm1 with
    | Ok sm =>
        let sm :=
          if req_resp ctl then
            match _run sm with
            | Some r => result_q_put (Result_run r None id) sm
            | None => sm
            end
          else sm in
        Ok (if first then _start_run_threads sm else sm)
    | Raise e => Raise e
    | NoFuel => NoFuel
    end = Ok sm'
    /\ _run sm' = Some r
    /\ starting_step r = rs_step (_resume_state sm1)
    /\ (rs_resumed (_resume_state sm1) = true -> resumed r = true)
    /\ s_calls sm'
       = s_calls sm1 ++ [upsert_run (run_id run1) (dict_or_None config_dict)]
         ++ (if first then [start_run_threads] else [])
    /\ _result_q sm'
       = _result_q sm1 ++ (if req_resp ctl then [Result_run r None id] else [])
    /\ (if first
        then is_Some (_fs sm') /\ is_Some (_pusher sm') /\ is_Some (_dir_watcher sm')
        else _fs sm' = _fs sm1 /\ _pusher sm' = _pusher sm1
             /\ _dir_watcher sm' = _dir_watcher sm1)
    /\ _resume_state sm' = _resume_state sm1.
Proof.
  intros Hsub.
  destruct (_init_run_result api_upsert_run _make_config _make_summary_from_dict
              py_sub run1 config_dict sm1 t Hsub)
    as (sm2 & r & Hrun & Hr & Hstep & Hres & Hcalls & Hq).
  destruct (_init_run_keeps _ _ _ _ Hrun) as (K1 & K2 & K3 & K4 & _).
  rewrite Hrun, Hr. cbv zeta.
  destruct (req_resp ctl), first; eexists _, r; (split; [reflexivity|]);
    cbn [_start_run_threads result_q_put s_call set_dir_watcher set_pusher set_fs
         _run s_calls _result_q _fs _pusher _dir_watcher _resume_state];
    rewrite ?Hr, ?Hcalls, ?Hq, ?K1, ?K2, ?K3, ?K4, <- ?app_assoc, ?app_nil_r;
    repeat split; eauto.
Qed.


(** X20. Without a resume setting, and on every run record after the first,
    the sender asks the backend nothing about resuming. For a run that does
    not resume, a run record upserts the run exactly once, with the config
    of the record, and answers with the run when asked to; the first run
    record then starts the file stream, the file pusher and the directory
    watcher, a later one starts nothing and leaves them as they are. *)
Theorem X20_run_record_without_resume_check
        (run : RunRecord) (ctl : Control) (id : string) (sm : SendManager)
        (config_dict : option (gmap string json)) (t : Z) :
  _run sm <> None \/ string_opt_truthy (resume (s_settings sm)) = false ->
  build_config_dict dict_from_proto_list run = Ok config_dict ->
  rs_resume_config (_resume_state sm) = JNull ->
  py_sub (start_time run) (rs_runtime (_resume_state sm)) = Ok t ->
  exists (sm' : SendManager) (r : RunRecord),
    send_run' (mkRecord (rt_run run) ctl id) sm = Ok sm'
    /\ _run sm' = Some r
    /\ starting_step r = rs_step (_resume_state sm)
    /\ s_calls sm'
       = s_calls sm ++ save_config_calls config_dict
         ++ [upsert_run (run_id run) (dict_or_None config_dict)]
         ++ (if is_None (_run sm) then [start_run_threads] else [])
    /\ _result_q sm'
       = _result_q sm ++ (if req_resp ctl then [Result_run r None id] else [])
    /\ (if is_None (_run sm)
        then is_Some (_fs sm') /\ is_Some (_pusher sm') /\ is_Some (_dir_watcher sm')
        else _fs sm' = _fs sm /\ _pusher sm' = _pusher sm
             /\ _dir_watcher sm' = _dir_watcher sm)
    /\ _resume_state sm' = _resume_state sm.
Proof.
  intros Hcheck Hcfg Hnull Hsub.
  destruct (s_calls_fold (save_config_calls config_dict) sm)
    as (H1 & H2 & H3 & H4 & H5 & H6 & H7 & H8 & H9).
  destruct (with_auto_project_fields (s_settings sm) run) as (F1 & F2 & F3 & F4).
  cbn zeta in *.
  destruct (_run sm) as [r0|] eqn:Hrun.
  - (* a later run record *)
    assert (Hunfold :
      send_run' (mkRecord (rt_run run) ctl id) sm
      = match _init_run' run config_dict
                (fold_left (fun sm c => s_call c sm) (save_config_calls config_dict) sm)
        with
        | Ok sm =>
            let sm :=
              if req_resp ctl then
                match _run sm with
                | Some r => result_q_put (Result_run r None id) sm
                | None => sm
                end
              else sm in
            Ok (if false then _start_run_threads sm else sm)
        | Raise e => Raise e
        | NoFuel => NoFuel
        end).
    { unfold send_run, build_config_dict in *.
      cbn [run_of record control uuid]. rewrite Hrun. cbn [is_None].
      destruct (config run) as [cfg|].
      - destruct (dict_from_proto_list cfg) as [d| |]; try discriminate.
        apply Ok_inj in Hcfg. subst config_dict.
        cbn [save_config_calls fold_left s_call _resume_state].
        rewrite Hnull. reflexivity.
      - apply Ok_inj in Hcfg. subst config_dict.
        cbn [save_config_calls fold_left]. rewrite Hnull. reflexivity. }
    rewrite Hunfold.
    destruct (send_run_tail run ctl id config_dict
                (fold_left (fun sm c => s_call c sm) (save_config_calls config_dict) sm)
                false t) as (sm' & r & Hs & T1 & T2 & _ & T4 & T5 & T6 & T7).
    { now rewrite H9. }
    exists sm', r. split; [exact Hs|].
    cbn [is_None]. rewrite T4, T5, T7, H1, H4, H9, <- !app_assoc, T2.
    destruct T6 as (T6a & T6b & T6c). rewrite T6a, T6b, T6c, H6, H7, H8, ?H9.
    repeat split; assumption.
  - destruct Hcheck as [Hc | Hres]; [congruence|].
    rewrite (send_run_first run ctl id sm config_dict Hrun Hcfg _ _ eq_refl eq_refl).
    unfold _maybe_setup_resume. rewrite H2, Hres. cbn [negb].
    rewrite H9, Hnull.
    destruct (send_run_tail (with_auto_project auto_project_name (s_settings sm) run)
                ctl id config_dict
                (fold_left (fun sm c => s_call c sm) (save_config_calls config_dict) sm)
                true t) as (sm' & r & Hs & T1 & T2 & _ & T4 & T5 & T6 & T7).
    { now rewrite H9, F3. }
    exists sm', r. split; [exact Hs|].
    cbn [is_None]. rewrite T4, T5, T7, H1, H4, H9, F1, <- !app_assoc, T2, ?H9.
    repeat split; (assumption || apply T6).
Qed.

(** X21. The resumed config accumulates the overrides. On a run record
    handled when the resume state holds a config and the run is known, the
    config upserted is the config of the resume state updated with the
    config of the record, and the resume state then holds that updated
    config: an override of one run record is still there for the next. *)
Theorem X21_resumed_config_accumulates
        (run r0 : RunRecord) (ctl : Control) (id : string) (sm : SendManager)
        (config_dict : option (gmap string json))
        (resumed_config : gmap string json) (t : Z) :
  _run sm = Some r0 ->
  build_config_dict dict_from_proto_list run = Ok config_dict ->
  rs_resume_config (_resume_state sm) = JDict resumed_config ->
  py_sub (start_time run) (rs_runtime (_resume_state sm)) = Ok t ->
  let config_override :=
    match dict_or_None config_dict with Some d => d | None => ∅ end in
  exists sm' : SendManager,
    send_run' (mkRecord (rt_run run) ctl id) sm = Ok sm'
    /\ rs_resume_config (_resume_state sm') = JDict (config_override ∪ resumed_config)
    /\ s_calls sm'
       = s_calls sm ++ save_config_calls config_dict
         ++ [save_config_file_from_dict (config_override ∪ resumed_config);
             upsert_run (run_id run)
               (dict_or_None (Some (config_override ∪ resumed_config)))]
    /\ (forall k v, config_override !! k = Some v ->
                    (config_override ∪ resumed_config) !! k = Some v)
    /\ (forall k, config_override !! k = None ->
                  (config_override ∪ resumed_config) !! k = resumed_config !! k).
Proof.
  intros Hrun Hcfg Hdict Hsub config_override.
  destruct (s_calls_fold (save_config_calls config_dict) sm)
    as (H1 & H2 & H3 & H4 & H5 & H6 & H7 & H8 & H9).
  cbn zeta in *.
  set (sm1 := fold_left (fun sm c => s_call c sm) (save_config_calls config_dict) sm)
    in *.
  set (merged := config_override ∪ resumed_config).
  set (rs := _resume_state sm).
  set (sm2 := s_call (save_config_file_from_dict merged)
                (set_resume_state
                   {| rs_step := rs_step rs; rs_history := rs_history rs;
                      rs_events := rs_events rs; rs_output := rs_output rs;
                      rs_runtime := rs_runtime rs; rs_summary := rs_summary rs;
                      rs_resume_config := JDict merged;
                      rs_resumed := rs_resumed rs |} sm1)).
  assert (Hunfold :
    send_run' (mkRecord (rt_run run) ctl id) sm
    = match _init_run' run (Some merged) sm2 with
      | Ok sm =>
          let sm :=
            if req_resp ctl then
              match _run sm with
              | Some r => result_q_put (Result_run r None id) sm
              | None => sm
              end
            else sm in
          Ok (if false then _start_run_threads sm else sm)
      | Raise e => Raise e
      | NoFuel => NoFuel
      end).
  { unfold send_run, build_config_dict in *.
    cbn [run_of record control uuid]. rewrite Hrun. cbn [is_None].
    unfold sm2, merged, config_override, rs, sm1.
    destruct (config run) as [cfg|].
    - destruct (dict_from_proto_list cfg) as [d| |]; try discriminate.
      apply Ok_inj in Hcfg. subst config_dict.
      cbn [save_config_calls fold_left s_call _resume_state].
      rewrite Hdict. reflexivity.
    - apply Ok_inj in Hcfg. subst config_dict.
      cbn [save_config_calls fold_left]. rewrite Hdict. reflexivity. }
  rewrite Hunfold.
  destruct (send_run_tail run ctl id (Some merged) sm2 false t)
    as (sm' & r & Hs & T1 & T2 & _ & T4 & T5 & T6 & T7).
  { unfold sm2. cbn [s_call set_resume_state _resume_state rs_runtime].
    exact Hsub. }
  exists sm'. split; [exact Hs|].
  rewrite T7, T4. unfold sm2.
  cbn [s_call set_resume_state _resume_state rs_resume_config s_calls].
  rewrite H1, <- !app_assoc, app_nil_r.
  repeat split.
  - intros k v Hk. now apply lookup_union_Some_l.
  - intros k Hk. now apply lookup_union_r.
Qed.

(** X22. A history tail that is not valid JSON does not stop a resume that
    is allowed but not required: the run is created as a resumed run that
    starts again at step 0, with the config of the run record alone, while
    the line counts of the resume state are still those of the backend. *)
Theorem X22_unparsable_tail_restarts_at_step_zero
        (run : RunRecord) (ctl : Control) (id : string) (sm : SendManager)
        (config_dict : option (gmap string json)) (rs : ResumeStatus)
        (runtime : json) (t : Z) :
  let run1 := with_auto_project auto_project_name (s_settings sm) run in
  _run sm = None ->
  build_config_dict dict_from_proto_list run = Ok config_dict ->
  string_opt_truthy (resume (s_settings sm)) = true ->
  resume (s_settings sm) <> Some "must"%string ->
  resume (s_settings sm) <> Some "never"%string ->
  api_run_resume_status (or_entity (entity run1) (_entity sm))
    (project run1) (run_id run1) = Some rs ->
  json_loads (historyTail rs) = None ->
  py_max (JNum 0) (JNum 0) = Ok runtime ->
  py_sub (start_time run) runtime = Ok t ->
  exists (sm' : SendManager) (r : RunRecord),
    send_run' (mkRecord (rt_run run) ctl id) sm = Ok sm'
    /\ _run sm' = Some r
    /\ starting_step r = 0
    /\ resumed r = true
    /\ rs_history (_resume_state sm') = historyLineCount rs
    /\ rs_events (_resume_state sm') = eventsLineCount rs
    /\ rs_output (_resume_state sm') = logLineCount rs
    /\ upsert_configs (drop (length (s_calls sm)) (s_calls sm'))
       = [dict_or_None config_dict].
Proof.
  intros run1 Hfirst Hcfg Hres Hmust Hnever Hapi Htail Hmax Hsub.
  rewrite (send_run_first run ctl id sm config_dict Hfirst Hcfg _ run1 eq_refl eq_refl).
  destruct (s_calls_fold (save_config_calls config_dict) sm)
    as (H1 & H2 & H3 & H4 & H5 & H6 & H7 & H8 & H9).
  destruct (with_auto_project_fields (s_settings sm) run) as (F1 & F2 & F3 & F4).
  fold run1 in F1, F2, F3, F4.
  set (sm1 := fold_left _ _ sm) in *. cbn zeta in *.
  unfold _maybe_setup_resume.
  cbn [s_settings s_call _entity]. rewrite H2, H3, Hres, Hapi. cbn [negb].
  rewrite (bool_decide_eq_false_2 _ Hnever).
  unfold load_resume_tails, load_tail, loads. rewrite Htail.
  cbn [caught]. rewrite (bool_decide_eq_false_2 _ Hmust).
  unfold store_resume_state.
  cbn [l_events_rt l_history_rt l_history l_summary l_config truthy].
  rewrite Hmax, bool_decide_eq_true_2 by reflexivity. cbn [negb].
  cbn [_resume_state set_resume_state rs_resume_config].
  set (override := match dict_or_None config_dict with Some d => d | None => ∅ end).
  assert (Hover : dict_or_None (Some (override ∪ ∅)) = dict_or_None config_dict).
  { rewrite (right_id_L ∅ (∪)). unfold override, dict_or_None.
    destruct config_dict as [d|]; [|reflexivity].
    destruct (bool_decide (d = ∅)) eqn:E; [reflexivity|]. now rewrite E. }
  match goal with
  | |- context [_init_run _ _ _ _ run1 ?c ?s] =>
      destruct (send_run_tail run1 ctl id c s true t)
        as (sm' & r & Hs & T1 & T2 & T3 & T4 & _ & _ & T7)
  end.
  { cbn [_resume_state set_resume_state s_call rs_runtime]. now rewrite F3. }
  exists sm', r. split; [exact Hs|]. split; [exact T1|].
  cbn [_resume_state set_resume_state s_call rs_step rs_resumed s_calls] in T2, T3, T4.
  split; [exact T2|]. split; [now apply T3|].
  rewrite T7. cbn [_resume_state set_resume_state s_call rs_history rs_events rs_output].
  repeat split.
  rewrite T4, H1, <- !app_assoc, drop_app_length.
  unfold upsert_configs. rewrite !omap_app. cbn [omap].
  replace (omap _ (save_config_calls config_dict)) with (@nil (option (gmap string json)))
    by (destruct config_dict; reflexivity).
  cbn [app]. now rewrite Hover.
Qed.

(** X23. A history tail whose last line is not valid JSON makes the first
    run record fail when the resume is allowed but not required: the list
    of lines is kept as the history, the parse error is caught, and the
    step is then read from the list with [get], which a list does not have:
    [send_run] raises AttributeError. *)
Theorem X23_unparsable_last_history_line_raises
        (run : RunRecord) (ctl : Control) (id : string) (sm : SendManager)
        (config_dict : option (gmap string json)) (rs : ResumeStatus)
        (pre : list json) (last_line : string) (runtime : json) :
  let run1 := with_auto_project auto_project_name (s_settings sm) run in
  _run sm = None ->
  build_config_dict dict_from_proto_list run = Ok config_dict ->
  string_opt_truthy (resume (s_settings sm)) = true ->
  resume (s_settings sm) <> Some "must"%string ->
  resume (s_settings sm) <> Some "never"%string ->
  api_run_resume_status (or_entity (entity run1) (_entity sm))
    (project run1) (run_id run1) = Some rs ->
  json_loads (historyTail rs) = Some (JList (pre ++ [JStr last_line])) ->
  json_loads last_line = None ->
  py_max (JNum 0) (JNum 0) = Ok runtime ->
  send_run' (mkRecord (rt_run run) ctl id) sm = Raise AttributeError.
Proof.
  intros run1 Hfirst Hcfg Hres Hmust Hnever Hapi Htail Hline Hmax.
  rewrite (send_run_first run ctl id sm config_dict Hfirst Hcfg _ run1 eq_refl eq_refl).
  destruct (s_calls_fold (save_config_calls config_dict) sm)
    as (H1 & H2 & H3 & H4 & H5 & H6 & H7 & H8 & H9).
  set (sm1 := fold_left _ _ sm) in *. cbn zeta in *.
  unfold _maybe_setup_resume.
  cbn [s_settings s_call _entity]. rewrite H2, H3, Hres, Hapi. cbn [negb].
  rewrite (bool_decide_eq_false_2 _ Hnever).
  unfold load_resume_tails, load_tail, loads. rewrite Htail.
  rewrite truthy_snoc, py_last_snoc. cbn [loads_value]. unfold loads. rewrite Hline.
  cbn [caught]. rewrite (bool_decide_eq_false_2 _ Hmust).
  unfold store_resume_state.
  cbn [l_events_rt l_history_rt l_history l_summary l_config].
  now rewrite Hmax, truthy_snoc.
Qed.

End SenderMore.


Lemma X20_run_record_without_resume_check_witness :
  exists (sm' : SendManager) (r : RunRecord),
    example_send_run_with example_json_loads None example_run_record
      (SendManager__init__ (mkSettings false None "")) = Ok sm'
    /\ _run sm' = Some r
    /\ s_calls sm'
       = [save_config_file_from_dict example_override;
          upsert_run "run1" (dict_or_None (Some example_override));
          start_run_threads]
    /\ _result_q sm' = [Result_run r None "init-1"].
Proof.
  destruct (X20_run_record_without_resume_check example_json_loads
              (fun _ _ _ => None)
              (fun _ _ => mkServerRun "" "" "" None "")
              (fun _ => Ok example_override) (fun program => program)
              (fun _ => []) (fun _ => []) (fun a _ => Ok a) (fun seconds _ => Ok seconds)
              example_run (mkControl true false) "init-1"
              (SendManager__init__ (mkSettings false None ""))
              (Some example_override) 100
              (or_intror eq_refl) eq_refl eq_refl eq_refl)
    as (sm' & r & Hrun & Hr & _ & Hcalls & Hq & _).
  exists sm', r. split; [exact Hrun|]. split; [exact Hr|].
  split; [exact Hcalls | exact Hq].
Defined.

Lemma X21_resumed_config_accumulates_witness :
  exists sm' : SendManager,
    example_send_run_with example_json_loads None example_run_record resumed_sender
    = Ok sm'
    /\ rs_resume_config (_resume_state sm')
       = JDict (example_override ∪ {[ "epochs"%string := JNum 2 ]}).
Proof.
  destruct (X21_resumed_config_accumulates example_json_loads
              (fun _ _ _ => None)
              (fun _ _ => mkServerRun "" "" "" None "")
              (fun _ => Ok example_override) (fun program => program)
              (fun _ => []) (fun _ => []) (fun a _ => Ok a) (fun seconds _ => Ok seconds)
              example_run example_run (mkControl true false) "init-1"
              resumed_sender (Some example_override)
              {[ "epochs"%string := JNum 2 ]} 100
              eq_refl eq_refl eq_refl eq_refl)
    as (sm' & Hrun & Hcfg & _).
  exists sm'. split; [exact Hrun|].
  rewrite Hcfg, dict_or_None_override. reflexivity.
Defined.

Lemma X22_unparsable_tail_restarts_at_step_zero_witness :
  exists (sm' : SendManager) (r : RunRecord),
    example_send_run_with example_json_loads (Some broken_tail_status)
      example_run_record example_sender = Ok sm'
    /\ _run sm' = Some r
    /\ starting_step r = 0
    /\ resumed r = true
    /\ rs_history (_resume_state sm') = 5.
Proof.
  destruct (X22_unparsable_tail_restarts_at_step_zero example_json_loads
              (fun _ _ _ => Some broken_tail_status)
              (fun _ _ => mkServerRun "" "" "" None "")
              (fun _ => Ok example_override) (fun program => program)
              (fun _ => []) (fun _ => []) (fun a _ => Ok a) (fun seconds _ => Ok seconds)
              example_run (mkControl true false) "init-1" example_sender
              (Some example_override) broken_tail_status (JNum 0) 100
              eq_refl eq_refl eq_refl ltac:(discriminate) ltac:(discriminate)
              eq_refl eq_refl eq_refl eq_refl)
    as (sm' & r & Hrun & Hr & Hstep & Hres & Hh & _).
  exists sm', r. split; [exact Hrun|]. split; [exact Hr|].
  split; [exact Hstep|]. split; [exact Hres | exact Hh].
Defined.

Lemma X23_unparsable_last_history_line_raises_witness :
  example_send_run_with broken_line_loads (Some broken_line_status)
    example_run_record example_sender
  = Raise AttributeError.
Proof.
  apply (X23_unparsable_last_history_line_raises broken_line_loads
           (fun _ _ _ => Some broken_line_status)
           (fun _ _ => mkServerRun "" "" "" None "")
           (fun _ => Ok example_override) (fun program => program)
           (fun _ => []) (fun _ => []) (fun a _ => Ok a) (fun seconds _ => Ok seconds)
           example_run (mkControl true false) "init-1" example_sender
           (Some example_override) broken_line_status [] "x" (JNum 0));
    (reflexivity || discriminate).
Defined.

(** ** Shutdown: the handshake, then [finish] *)

(** One turn of the handshake on a sender whose fields are known. *)
Lemma app_assoc3 {A} (l a b c : list A) : ((l ++ a) ++ b) ++ c = l ++ a ++ b ++ c.
Proof. now rewrite <- !app_assoc. Qed.

Ltac simpl_sender :=
  cbv [s_call result_q_put set_fs set_pusher set_dir_watcher
       set_exit_sync_uuid set_exit_result set_exit_code
       s_settings _result_q _fs _pusher _dir_watcher _entity _run _project
       _resume_state _exit_sync_uuid _exit_result _exit_code s_calls
       Z.add Pos.add Pos.succ].

Ltac defer_step :=
  erewrite run_defer_step;
  [ | cbv [send_request_defer defer_state defer_request record
           Z.eqb Pos.eqb Z.add Pos.add Pos.succ
           DeferState.BEGIN DeferState.FLUSH_STATS DeferState.FLUSH_TB
           DeferState.FLUSH_SUM DeferState.FLUSH_DIR DeferState.FLUSH_FP
           DeferState.FLUSH_FS DeferState.FLUSH_FINAL DeferState.END];
      simpl_sender;
      repeat match goal with
             | E : str_truthy _ = _ |- _ => rewrite E
             end;
      simpl_sender; reflexivity
    | simpl_sender;
      first [ reflexivity
            | exact (eq_sym (app_assoc _ _ _))
            | exact (app_assoc3 _ _ _ _)
            | exact (eq_sym (app_nil_r _)) ] ];
  cbv [published_defers omap list_omap Z.add Pos.add Pos.succ]; cbn [app].

(** X24. The shutdown releases each resource once. An exit record, the
    defer handshake it starts (every published defer request coming back
    to the sender) and then [finish] make these calls on the resources, in
    this order: the directory watcher is finished once, the file pusher is
    finished, the file stream is finished once and with the exit code of
    the exit record, and the pusher is joined once: at END when an exit
    result is delivered there, after a second [pusher.finish] in [finish]
    otherwise. None of the three is left set. *)
Theorem X24_shutdown_releases_each_resource_once (data : Record_) (sm : SendManager) :
  let exit_code := match record data with rt_exit c => c | _ => 0 end in
  let delivered := exit_delivery (send_exit data sm) in
  exists sm2 : SendManager,
    run_defer 9 [DeferState.BEGIN] (send_exit data sm) = Ok sm2
    /\ List.filter is_resource_call
         (drop (length (s_calls sm)) (s_calls (sender.finish sm2)))
       = match _dir_watcher sm with Some _ => [dir_watcher_finish] | None => [] end
         ++ match _pusher sm with Some _ => [pusher_finish] | None => [] end
         ++ match _fs sm with Some _ => [fs_finish exit_code] | None => [] end
         ++ match _pusher sm with
            | Some _ =>
                match delivered with
                | [] => [pusher_finish; pusher_join]
                | _ => [pusher_print_status; pusher_join]
                end
            | None => []
            end
    /\ _fs (sender.finish sm2) = None
    /\ _pusher (sender.finish sm2) = None
    /\ _dir_watcher (sender.finish sm2) = None.
Proof.
  destruct data as [rt [rr loc] u].
  destruct sm as [settings rq fs pusher dw ent run proj rstate esu er ec calls].
  unfold send_exit, exit_delivery.
  cbn [record control uuid req_resp].
  set (code := match rt with rt_exit c => c | _ => 0 end).
  unfold DeferState.BEGIN.
  assert (Hcases :
    (rr = true /\ exists b, str_truthy u = b)
    \/ (rr = false /\ esu = None)
    \/ (rr = false /\ exists u' b, esu = Some u' /\ str_truthy u' = b)).
  { destruct rr; [left; eauto|]. destruct esu; [right; right; eauto|]. right; left; auto. }
  destruct Hcases as [(-> & b & Eu) | [(-> & ->) | (-> & u' & b & -> & Eu)]];
    try destruct b;
    simpl_sender; try rewrite Eu;
    destruct fs as [[]|], pusher as [[]|], dw as [[]|];
    (eexists; split;
     [ do 9 defer_step; reflexivity
     | unfold sender.finish; simpl_sender;
       rewrite <- ?app_assoc, ?drop_app_length; repeat split ]).
Qed.

(** X29. A defer request at a state outside BEGIN..END is refused: the
    sender raises the "unknown state" assertion and does nothing else. *)
Theorem X29_unknown_defer_state_is_refused (data : Record_) (sm : SendManager) :
  ~ (DeferState.BEGIN <= defer_state data <= DeferState.END) ->
  send_request_defer data sm = Raise (AssertionError A_unknown_state).
Proof.
  intros Hout. unfold send_request_defer.
  unfold DeferState.BEGIN, DeferState.FLUSH_STATS, DeferState.FLUSH_TB,
    DeferState.FLUSH_SUM, DeferState.FLUSH_DIR, DeferState.FLUSH_FP,
    DeferState.FLUSH_FS, DeferState.FLUSH_FINAL, DeferState.END in *.
  repeat match goal with
         | |- context [?x =? ?k] => destruct (Z.eqb_spec x k); [lia|]
         end.
  reflexivity.
Qed.

Lemma X29_unknown_defer_state_is_refused_witness :
  ~ (DeferState.BEGIN <= defer_state (defer_request 9) <= DeferState.END)
  /\ send_request_defer (defer_request 9) exiting_sender
     = Raise (AssertionError A_unknown_state).
Proof.
  assert (H : ~ (DeferState.BEGIN <= defer_state (defer_request 9) <= DeferState.END))
    by (cbn; unfold DeferState.END; lia).
  split; [exact H|].
  exact (X29_unknown_defer_state_is_refused (defer_request 9) exiting_sender H).
Defined.

(** ** Console output *)

Lemma string_app_assoc (a b c : string) :
  ((a ++ b) ++ c)%string = (a ++ b ++ c)%string.
Proof.
  induction a as [|x a IH]; [reflexivity|].
  change (String x ((a ++ b) ++ c)%string = String x (a ++ b ++ c)%string).
  now rewrite IH.
Qed.

(** X25. Console output reaches the file stream in whole lines. Pieces of
    output that do not end a line are held back, per stream; the piece that
    ends the line pushes one line made of the prefix of the stream
    ("ERROR " for stderr), the time of that last piece, what was held back
    and the pieces in the order they came, and empties what is held back
    for that stream, leaving the other stream as it is. Without a file
    stream every output record is dropped: nothing is pushed and nothing is
    held back. *)
Theorem X25_output_is_pushed_in_whole_lines
        (fs : FileStreamApi) (ty : OutputType)
        (pieces : list (string * string)) (isoformat last : string)
        (held : gmap string string) (pushed : list string) :
  let stream := match ty with STDERR => "stderr" | STDOUT => "stdout" end%string in
  let prepend := match ty with STDERR => "ERROR " | STDOUT => "" end%string in
  let before := match held !! stream with Some s => s | None => "" end%string in
  Forall (fun p => endswith_newline p.2 = false) pieces ->
  endswith_newline last = true ->
  sender.send_outputs
    (map (fun p => (p.1, mkOutputRecord ty p.2)) pieces
     ++ [(isoformat, mkOutputRecord ty last)])
    (Some fs) (held, pushed)
  = (<[stream := ""%string]> held,
     pushed ++ [(prepend ++ (isoformat ++ " ") ++ before
                 ++ fold_right String.append last (map snd pieces))%string])
  /\ forall outs, sender.send_outputs outs None (held, pushed) = (held, pushed).
Proof.
  intros stream prepend before Hpieces Hlast. split.
  - subst before. revert held.
    induction pieces as [|[t p] pieces IH]; intros held.
    + unfold sender.send_outputs. cbn [map app fold_left fst snd fold_right].
      unfold sender.send_output. cbn [output_type line].
      rewrite Hlast. cbn [negb]. subst stream prepend.
      destruct ty; reflexivity.
    + apply Forall_cons in Hpieces as [Hp Hpieces]. cbn [snd] in Hp.
      unfold sender.send_outputs in *.
      cbn [map app fold_left fst snd fold_right].
      unfold sender.send_output at 2. cbn [output_type line].
      rewrite Hp. cbn [negb].
      replace (let '(stream0, _) := _ in _)
        with (<[stream := (match held !! stream with
                           | Some s => s
                           | None => ""
                           end ++ p)%string]> held, pushed)
        by (subst stream; destruct ty; reflexivity).
      rewrite (IH Hpieces). rewrite insert_insert_eq, lookup_insert_eq.
      now rewrite (string_app_assoc _ p).
  - intros outs. unfold sender.send_outputs.
    induction outs as [|o outs IH]; [reflexivity|].
    cbn [fold_left]. exact IH.
Qed.

Lemma X25_output_is_pushed_in_whole_lines_witness :
  Forall (fun p : string * string => endswith_newline p.2 = false)
         [("t1", "ab"); ("t2", "cd")]%string
  /\ endswith_newline (with_newline "e") = true
  /\ sender.send_outputs
       [("t1", mkOutputRecord STDERR "ab"); ("t2", mkOutputRecord STDERR "cd");
        ("t3", mkOutputRecord STDERR (with_newline "e"))]%string
       (Some FileStreamApi_obj) (∅, [])
     = (<["stderr"%string := ""%string]> ∅,
        [with_newline "ERROR t3 abcde"]).
Proof.
  assert (H1 : Forall (fun p : string * string => endswith_newline p.2 = false)
                 [("t1", "ab"); ("t2", "cd")]%string)
    by (repeat constructor).
  assert (H2 : endswith_newline (with_newline "e") = true)
    by reflexivity.
  split; [exact H1|]. split; [exact H2|].
  exact (proj1 (X25_output_is_pushed_in_whole_lines FileStreamApi_obj STDERR
                  [("t1", "ab"); ("t2", "cd")]%string "t3"
                  (with_newline "e") ∅ [] H1 H2)).
Defined.

(** ** Flattening nested dictionaries *)

Section Flatten.

Context {A : Type}.

Lemma pyobj_nested_ind (P : pyobj A -> Prop) :
  (forall v, P (PyOther v)) ->
  (forall items, Forall (fun kv => P kv.2) items -> P (PyDict items)) ->
  forall v, P v.
Proof.
  intros Hother Hdict. fix IH 1. intros [v|items]; [apply Hother|].
  apply Hdict. induction items as [|[k v] items IHitems]; constructor.
  - apply IH.
  - exact IHitems.
Qed.

Lemma well_keyed_items (items : list (string * pyobj A)) :
  well_keyed (PyDict items) <->
  NoDup (map fst items) /\ Forall (fun kv => well_keyed kv.2) items.
Proof.
  cbn [well_keyed]. split; intros [Hn Hall]; (split; [exact Hn|]); clear Hn;
    induction items as [|kv items IH].
  - constructor.
  - destruct Hall as [Hv Hall]. constructor; [exact Hv | now apply IH].
  - exact I.
  - apply Forall_cons in Hall as [Hv Hall]. split; [exact Hv | now apply IH].
Qed.

(** The keys and the items after [d[k] = v] and [d.pop(k)]. *)
Lemma dict_set_keys {V} (k : string) (v : V) (d : list (string * V)) :
  (forall k', k' ∈ map fst (dict_set k v d) <-> k' = k \/ k' ∈ map fst d)
  /\ (forall kv, kv ∈ dict_set k v d -> kv = (k, v) \/ kv ∈ d)
  /\ (NoDup (map fst d) -> NoDup (map fst (dict_set k v d))).
Proof.
  induction d as [|[k1 v1] d (IHk & IHi & IHn)]; cbn [dict_set map fst].
  - split; [|split].
    + intros k'. rewrite !elem_of_cons, elem_of_nil. tauto.
    + intros kv. rewrite elem_of_cons, elem_of_nil. tauto.
    + intros _. apply NoDup_singleton.
  - destruct (String.eqb k1 k) eqn:E.
    + apply String.eqb_eq in E. subst k1. cbn [map fst]. split; [|split].
      * intros k'. rewrite !elem_of_cons. tauto.
      * intros kv. rewrite !elem_of_cons. tauto.
      * auto.
    + apply String.eqb_neq in E. cbn [map fst]. split; [|split].
      * intros k'. rewrite !elem_of_cons, IHk. tauto.
      * intros kv. rewrite !elem_of_cons. intros [-> | H]; [tauto|].
        destruct (IHi kv H); tauto.
      * rewrite !NoDup_cons. intros [Hn1 Hn]. split; [|now apply IHn].
        rewrite IHk. intros [-> | H]; [congruence | contradiction].
Qed.

Lemma dict_pop_spec {V} (k : string) (d : list (string * V)) :
  k ∈ map fst d -> NoDup (map fst d) ->
  exists d1,
    dict_pop k d = Some d1
    /\ (forall k', k' ∈ map fst d1 <-> k' <> k /\ k' ∈ map fst d)
    /\ (forall kv, kv ∈ d1 -> kv ∈ d)
    /\ NoDup (map fst d1).
Proof.
  induction d as [|[k1 v1] d IH]; cbn [dict_pop map fst].
  - intros H. now apply elem_of_nil in H.
  - rewrite elem_of_cons, NoDup_cons. intros Hin [Hn1 Hn].
    destruct (String.eqb k1 k) eqn:E.
    + apply String.eqb_eq in E. subst k1. exists d. split; [reflexivity|].
      split; [|split; [|exact Hn]].
      * intros k'. rewrite elem_of_cons. split.
        -- intros H. split; [congruence | tauto].
        -- intros [Hne [-> | H]]; [contradiction | exact H].
      * intros kv H. apply elem_of_cons. tauto.
    + apply String.eqb_neq in E.
      destruct Hin as [-> | Hin]; [contradiction|].
      destruct (IH Hin Hn) as (d1 & -> & Hk & Hi & Hnd).
      exists ((k1, v1) :: d1). split; [reflexivity|]. cbn [map fst].
      split; [|split].
      * intros k'. rewrite !elem_of_cons, Hk. split.
        -- intros [-> | [H1 H2]]; [split; [exact E | tauto] | tauto].
        -- intros [H1 [-> | H2]]; tauto.
      * intros kv. rewrite !elem_of_cons. intros [-> | H]; [tauto|].
        right. now apply Hi.
      * apply NoDup_cons. split; [|exact Hnd]. rewrite Hk. tauto.
Qed.

(** Setting the items of a flat dictionary, under any names: keys are
    kept and added, never lost, and the values set are not dictionaries. *)
Lemma fold_dict_set (name : string -> string) (sub : list (string * pyobj A)) :
  forall d : list (string * pyobj A),
    Forall (fun kv => is_dict kv.2 = false) sub ->
    NoDup (map fst d) ->
    let d' := fold_left (fun d kv => dict_set (name kv.1) kv.2 d) sub d in
    (forall k, k ∈ map fst d -> k ∈ map fst d')
    /\ (forall kv, kv ∈ d' -> is_dict kv.2 = false \/ kv ∈ d)
    /\ NoDup (map fst d').
Proof.
  induction sub as [|[k2 v2] sub IH]; intros d Hsub Hn; cbn [fold_left].
  - cbn zeta. split; [auto|]. split; [auto|exact Hn].
  - apply Forall_cons in Hsub as [Hv Hsub]. cbn [fst snd] in *.
    destruct (dict_set_keys (name k2) v2 d) as (Hk & Hi & Hnd).
    destruct (IH (dict_set (name k2) v2 d) Hsub (Hnd Hn)) as (IHk & IHi & IHn).
    cbn zeta in *. split; [|split; [|exact IHn]].
    + intros k H. apply IHk, Hk. now right.
    + intros kv H. destruct (IHi kv H) as [Hl | Hin]; [now left|].
      destruct (Hi kv Hin) as [-> | Hd]; [now left | now right].
Qed.

Lemma flatten_loop_flat (flatten : pyobj A -> outcome (pyobj A))
      (snapshot : list (string * pyobj A)) :
  Forall (fun kv => exists v', flatten kv.2 = Ok v' /\ flat v') snapshot ->
  forall d : list (string * pyobj A),
    NoDup (map fst snapshot) -> NoDup (map fst d) ->
    (forall k, k ∈ map fst snapshot -> k ∈ map fst d) ->
    (forall kv, kv ∈ d -> is_dict kv.2 = false \/ kv ∈ snapshot) ->
    exists d',
      sender.flatten_loop flatten snapshot d = Ok d'
      /\ Forall (fun kv => is_dict kv.2 = false) d'
      /\ NoDup (map fst d').
Proof.
  induction snapshot as [|[k v] rest IH]; intros Hflat d Hns Hnd Hkeys Hitems;
    cbn [sender.flatten_loop].
  - exists d. split; [reflexivity|]. split; [|exact Hnd].
    apply Forall_forall. intros kv Hin.
    destruct (Hitems kv Hin) as [H | H]; [exact H | now apply elem_of_nil in H].
  - apply Forall_cons in Hflat as [(v' & Hv & Hv') Hflat]. cbn [snd] in Hv.
    cbn [map fst] in Hns, Hkeys. apply NoDup_cons in Hns as [Hk Hns].
    destruct (is_dict v) eqn:Ed.
    + rewrite Hv.
      destruct (dict_pop_spec k d) as (d1 & -> & Hk1 & Hi1 & Hn1);
        [apply Hkeys, elem_of_cons; now left | exact Hnd |].
      destruct (fold_dict_set (fun k2 => (k ++ "." ++ k2)%string) (items_of v') d1
                  Hv' Hn1) as (Fk & Fi & Fn).
      cbn zeta in *. apply IH; try assumption.
      * intros k' Hin. apply Fk, Hk1. split.
        -- intros ->. contradiction.
        -- apply Hkeys, elem_of_cons. now right.
      * intros kv Hin. destruct (Fi kv Hin) as [Hl | Hd1]; [now left|].
        destruct (Hitems kv (Hi1 kv Hd1)) as [Hl | Hs]; [now left|].
        apply elem_of_cons in Hs as [-> | Hs]; [|now right].
        exfalso. apply (proj1 (Hk1 k)); [|reflexivity].
        apply (list_elem_of_fmap_2 fst d1 (k, v)). exact Hd1.
    + apply IH; try assumption.
      * intros k' Hin. apply Hkeys, elem_of_cons. now right.
      * intros kv Hin. destruct (Hitems kv Hin) as [Hl | Hs]; [now left|].
        apply elem_of_cons in Hs as [-> | Hs]; [now left | now right].
Qed.

(** X26. [_flatten] leaves no dictionary inside a dictionary, and never
    fails: for every nesting of dictionaries, whatever their keys, the call
    ends without KeyError from its [pop], and afterwards no value of the
    dictionary is a dictionary, also when a flattened name such as "a.b"
    meets a key that is already there. A value that is not a dictionary is
    left as it is. *)
Theorem X26_flatten_leaves_no_nested_dict (dictionary : pyobj A) :
  well_keyed dictionary ->
  exists dictionary' : pyobj A,
    sender._flatten dictionary = Ok dictionary'
    /\ flat dictionary'
    /\ well_keyed dictionary'
    /\ is_dict dictionary' = is_dict dictionary.
Proof.
  induction dictionary as [v|items IH] using pyobj_nested_ind; intros Hwk.
  - exists (PyOther v). repeat split. constructor.
  - apply well_keyed_items in Hwk as [Hn Hwk].
    cbn [sender._flatten].
    destruct (flatten_loop_flat sender._flatten items) with (d := items)
      as (d' & -> & Hflat & Hnd); try assumption; auto.
    + apply Forall_forall. intros kv Hin.
      pose proof (proj1 (Forall_forall _ _) IH kv Hin) as IHkv.
      pose proof (proj1 (Forall_forall _ _) Hwk kv Hin) as Hkv.
      destruct (IHkv Hkv) as (v' & Hv & Hf & _). eauto.
    + exists (PyDict d'). split; [reflexivity|]. split; [exact Hflat|].
      split; [|reflexivity].
      apply well_keyed_items. split; [exact Hnd|].
      apply Forall_forall. intros kv Hin.
      pose proof (proj1 (Forall_forall _ _) Hflat kv Hin) as Hl.
      destruct kv as [k [v|sub]]; [exact I | discriminate].
Qed.

Lemma flatten_loop_no_dict (flatten : pyobj A -> outcome (pyobj A))
      (snapshot d : list (string * pyobj A)) :
  Forall (fun kv => is_dict kv.2 = false) snapshot ->
  sender.flatten_loop flatten snapshot d = Ok d.
Proof.
  induction snapshot as [|[k v] rest IH]; intros H; cbn [sender.flatten_loop];
    [reflexivity|].
  apply Forall_cons in H as [Hv H]. cbn [snd] in Hv. rewrite Hv. now apply IH.
Qed.

Lemma dict_set_fresh {V} (k : string) (v : V) (d : list (string * V)) :
  k ∉ map fst d -> dict_set k v d = d ++ [(k, v)].
Proof.
  induction d as [|[k1 v1] d IH]; cbn [dict_set map fst app]; [reflexivity|].
  rewrite not_elem_of_cons. intros [Hne Hd].
  destruct (String.eqb k1 k) eqn:E.
  - apply String.eqb_eq in E. congruence.
  - now rewrite IH.
Qed.

Lemma fold_dict_set_fresh (name : string -> string) (sub : list (string * pyobj A)) :
  forall d : list (string * pyobj A),
    NoDup (map fst d ++ map name (map fst sub)) ->
    fold_left (fun d kv => dict_set (name kv.1) kv.2 d) sub d
    = d ++ map (fun kv => (name kv.1, kv.2)) sub.
Proof.
  induction sub as [|[k2 v2] sub IH]; intros d Hn; cbn [fold_left map fst snd].
  - now rewrite app_nil_r.
  - cbn [map fst] in Hn.
    assert (Hfresh : name k2 ∉ map fst d).
    { apply NoDup_app in Hn as (_ & Hdis & _). intros Hin.
      apply (Hdis (name k2) Hin). apply elem_of_cons. now left. }
    rewrite (dict_set_fresh _ _ _ Hfresh), IH.
    + now rewrite <- app_assoc.
    + rewrite map_app. cbn [map fst]. rewrite <- app_assoc. exact Hn.
Qed.

(** X27. One level of nesting becomes dotted names: a dictionary whose only
    value is a dictionary without dictionaries inside, as the row
    [dict(system=d)] of the system statistics is, flattens to the items of
    the inner dictionary, in their order, each under the outer key, a dot
    and its own key. *)
Theorem X27_flatten_prefixes_the_keys (k : string) (d : list (string * pyobj A)) :
  Forall (fun kv => is_dict kv.2 = false) d ->
  NoDup (map fst d) ->
  sender._flatten (PyDict [(k, PyDict d)])
  = Ok (PyDict (map (fun kv => ((k ++ "." ++ kv.1)%string, kv.2)) d)).
Proof.
  intros Hflat Hn.
  cbn [sender._flatten sender.flatten_loop is_dict].
  rewrite (flatten_loop_no_dict _ d d Hflat).
  cbn [dict_pop items_of]. rewrite String.eqb_refl.
  rewrite (fold_dict_set_fresh (fun k2 => (k ++ "." ++ k2)%string)).
  - reflexivity.
  - cbn [map app]. apply NoDup_fmap_2; [|exact Hn].
    intros x y H. now apply String.app_inj, String.app_inj in H.
Qed.

End Flatten.

(** Distinct keys of a dictionary that is written out. *)
Ltac distinct_keys :=
  cbn; repeat split; repeat constructor;
  let H := fresh in
  intros H;
  repeat (apply elem_of_cons in H as [H|H]; [discriminate|]);
  now apply elem_of_nil in H.

Lemma X26_flatten_leaves_no_nested_dict_witness :
  well_keyed (PyDict [("a", PyDict [("b", PyOther 1)]);
                      ("a.b", PyDict [("c", PyOther 2)])]%string)
  /\ sender._flatten (PyDict [("a", PyDict [("b", PyOther 1)]);
                              ("a.b", PyDict [("c", PyOther 2)])]%string)
     = Ok (PyDict [("a.b.c", PyOther 2)]%string).
Proof.
  assert (Hwk : well_keyed (PyDict [("a", PyDict [("b", PyOther 1)]);
                                    ("a.b", PyDict [("c", PyOther 2)])]%string)).
  { distinct_keys. }
  split; [exact Hwk|].
  destruct (X26_flatten_leaves_no_nested_dict _ Hwk) as (d' & Hrun & _).
  rewrite Hrun. vm_compute in Hrun. symmetry. exact Hrun.
Defined.

Lemma X27_flatten_prefixes_the_keys_witness :
  Forall (fun kv : string * pyobj Z => is_dict kv.2 = false)
         [("cpu", PyOther 3); ("memory", PyOther 4)]%string
  /\ NoDup (map fst [("cpu", PyOther 3); ("memory", PyOther 4)]%string)
  /\ sender._flatten (PyDict [("system", PyDict [("cpu", PyOther 3);
                                                   ("memory", PyOther 4)])]%string)
     = Ok (PyDict [("system.cpu", PyOther 3); ("system.memory", PyOther 4)]%string).
Proof.
  assert (H1 : Forall (fun kv : string * pyobj Z => is_dict kv.2 = false)
                 [("cpu", PyOther 3); ("memory", PyOther 4)]%string)
    by (repeat constructor).
  assert (H2 : NoDup (map fst [("cpu", PyOther 3); ("memory", PyOther 4)]%string))
    by distinct_keys.
  split; [exact H1|]. split; [exact H2|].
  exact (X27_flatten_prefixes_the_keys "system" _ H1 H2).
Defined.
